(** * The Thorlabs KCube LaserSource and Solenoid headers

    The repository consists of two C/C++ header files,

    - [src/autogator/dll/Thorlabs.MotionControl.KCube.LaserSource.h]
    - [src/autogator/dll/Thorlabs.MotionControl.KCube.Solenoid.h]

    that declare enumerations, structures and function prototypes of two
    vendor libraries.  There is no executable code in them.  The
    development below embeds the declarations as data (an abstract syntax
    of the headers, declaration by declaration, in source order), gives the
    layout rule the [#pragma pack] directives refer to, and proves the
    properties of the declared interface. *)

From Stdlib Require Import List String Ascii Bool ZArith NArith Lia.
Import ListNotations.
Local Open Scope string_scope.

(** ** Abstract syntax of the declarations *)

Module CDecl.

(** Types as they are spelled in the headers.  [TNamed] is a type referred
    to by name: a typedef of the Windows SDK ([DWORD], [WORD], [BYTE],
    [byte], [SAFEARRAY]) or an enum or struct the header itself declares.
    [TFunPtr r] is [r ( * )()], a pointer to a function without
    parameters, the only function-pointer shape the headers use. *)
Inductive ctype : Type :=
| TVoid
| TBool
| TChar
| TShort
| TInt
| TLong
| TUnsignedShort
| TUnsignedInt
| TInt16                       (* __int16 *)
| TInt32                       (* __int32 *)
| TInt64                       (* __int64 *)
| TNamed (name : string)
| TConst (t : ctype)
| TPtr (t : ctype)
| TRef (t : ctype)
| TFunPtr (ret : ctype).

(** [typedef enum N : U { A = v, ... } N;] *)
Record enumerator : Type := {
  en_name : string;
  en_value : Z;
  en_doc : string              (* the trailing [///<] remark, if any *)
}.

Record enum_decl : Type := {
  e_name : string;
  e_underlying : option ctype; (* [None]: no [: type] given *)
  e_enumerators : list enumerator
}.

(** [typedef struct N { T f; T g[n]; ... } N;] *)
Record field : Type := {
  fld_type : ctype;
  fld_name : string;
  fld_array : option N         (* [Some n] for [T f[n]] *)
}.

Record struct_decl : Type := {
  s_name : string;
  s_fields : list field
}.

(** Calling conventions of the Microsoft compiler. *)
Inductive callconv : Type := Cdecl | Stdcall | Fastcall.

(** Statements, as far as needed to say that a file contains none. *)
Inductive stmt : Type :=
| SSkip
| SExpr (text : string)
| SReturn (text : string)
| SSeq (first second : stmt)
| SIf (cond : string) (then_ else_ : stmt)
| SWhile (cond : string) (body : stmt)
| SFor (head : string) (body : stmt).

(** A fragment of a documentation comment: plain text or a
    [<see cref=.../>] cross reference. *)
Inductive doc_frag : Type :=
| Txt (s : string)
| See (cref : string).

(** The [<returns>] element of a function's documentation comment.  The
    three recurring wordings are constructors of their own:

    - [ErrorCodeOrZero]: The error code (see \ref C_DLL_ERRORCODES_page
      'Error Codes') or zero if successful.  (Some functions say
      'successfully requested' instead of 'successful'.)
    - [OneIfSuccessful]: 1 if successful, 0 if not.
    - [TrueIfSuccessful]: <c>true</c> if successful, false if not.

    Any other element describes a returned value and is kept by its text
    up to the first markup tag or line break. *)
Inductive returns_doc : Type :=
| ErrorCodeOrZero
| OneIfSuccessful
| TrueIfSuccessful
| Describes (text : string).

(** A function declaration
    [API ret cc name(params) ;] or [API ret cc name(params) { body }]. *)
Record func_decl : Type := {
  f_api : option string;       (* the import/export macro in front *)
  f_ret : ctype;
  f_cc : option callconv;
  f_name : string;
  f_params : list (ctype * string);
  f_body : option stmt;        (* [None]: the declaration ends in [;] *)
  f_summary : list doc_frag;   (* the [<summary>] element *)
  f_returns : option returns_doc
}.

(** What [__declspec(...)] the API macro stands for. *)
Inductive declspec : Type := DllExport | DllImport.

(** Values [#pragma pack(n)] accepts. *)
Inductive pack_value : Type := Pack1 | Pack2 | Pack4 | Pack8 | Pack16.

(** The items of a header, in the order of the file. *)
Inductive item : Type :=
| PragmaOnce
| Include (file : string)
  (* #ifdef guard / #define macro a / #else / #define macro b / #endif *)
| IfdefDefine (guard macro : string) (if_defined if_undefined : declspec)
| PragmaPack (n : option pack_value)   (* [None]: [#pragma pack()] *)
| Enum (e : enum_decl)
| Struct (s : struct_decl)
| Func (f : func_decl).

(** A header: the items before [extern 'C'] and the items of the
    [extern 'C' { ... }] block, each with the line it starts at. *)
Record header : Type := {
  h_prelude : list (nat * item);
  h_extern_c : list (nat * item)
}.

Definition items (h : header) : list (nat * item) :=
  h_prelude h ++ h_extern_c h.

Definition functions_of (l : list (nat * item)) : list func_decl :=
  flat_map (fun li => match snd li with Func f => [f] | _ => [] end) l.

Definition functions (h : header) : list func_decl :=
  functions_of (h_extern_c h).

Definition enums (h : header) : list enum_decl :=
  flat_map (fun li => match snd li with Enum e => [e] | _ => [] end) (items h).

Definition structs (h : header) : list struct_decl :=
  flat_map (fun li => match snd li with Struct s => [s] | _ => [] end) (items h).

Definition find_enum (h : header) (n : string) : option enum_decl :=
  find (fun e => String.eqb (e_name e) n) (enums h).

Definition find_struct (h : header) (n : string) : option struct_decl :=
  find (fun s => String.eqb (s_name s) n) (structs h).

Definition find_function (h : header) (n : string) : option func_decl :=
  find (fun f => String.eqb (f_name f) n) (functions h).

Definition line_of_struct (h : header) (n : string) : option nat :=
  option_map fst
    (find (fun li => match snd li with
                     | Struct s => String.eqb (s_name s) n
                     | _ => false
                     end) (items h)).

Definition names (fs : list func_decl) : list string := map f_name fs.

(** *** The preprocessor: what the API macro expands to *)

(** [expand h defined m]: the expansion of macro [m] after the header's
    [#ifdef] blocks, when [defined] tells which symbols the command line
    defines.  A later definition of the same macro would override an
    earlier one. *)
Fixpoint expand_in (l : list (nat * item)) (defined : string -> bool)
    (m : string) (acc : option declspec) : option declspec :=
  match l with
  | [] => acc
  | (_, IfdefDefine guard macro a b) :: rest =>
      if String.eqb macro m
      then expand_in rest defined m (Some (if defined guard then a else b))
      else expand_in rest defined m acc
  | _ :: rest => expand_in rest defined m acc
  end.

Definition expand (h : header) (defined : string -> bool) (m : string)
  : option declspec :=
  expand_in (items h) defined m None.

(** *** Statements and bodies *)

Fixpoint loops_in (s : stmt) : nat :=
  match s with
  | SSkip | SExpr _ | SReturn _ => 0
  | SSeq a b => loops_in a + loops_in b
  | SIf _ a b => loops_in a + loops_in b
  | SWhile _ b => 1 + loops_in b
  | SFor _ b => 1 + loops_in b
  end.

(** The bodies a list of items contains. *)
Definition bodies_of (l : list (nat * item)) : list stmt :=
  flat_map (fun f => match f_body f with None => [] | Some b => [b] end)
           (functions_of l).

(** All function bodies of a header, inside or outside [extern 'C']. *)
Definition bodies (h : header) : list stmt := bodies_of (items h).

Definition loops (h : header) : nat :=
  fold_right (fun b n => loops_in b + n) 0 (bodies h).

(** *** Small string helpers *)

Fixpoint starts_with (p s : string) : bool :=
  match p with
  | EmptyString => true
  | String c p' =>
      match s with
      | EmptyString => false
      | String d s' => Ascii.eqb c d && starts_with p' s'
      end
  end.

Fixpoint contains (p s : string) : bool :=
  starts_with p s ||
  match s with
  | EmptyString => false
  | String _ s' => contains p s'
  end.

Fixpoint drop_prefix (p s : string) : option string :=
  match p with
  | EmptyString => Some s
  | String c p' =>
      match s with
      | EmptyString => None
      | String d s' => if Ascii.eqb c d then drop_prefix p' s' else None
      end
  end.

Definition mem (s : string) (l : list string) : bool :=
  existsb (String.eqb s) l.

Definition doc_text (d : list doc_frag) : list string :=
  flat_map (fun x => match x with Txt s => [s] | See _ => [] end) d.

End CDecl.

(** ** Layout of the declared structures

    The headers are written for the Microsoft compiler ([__declspec],
    [__cdecl], [__int16], [#pragma pack]).  Its layout rule places every
    member at the next offset that is a multiple of the member's
    alignment, where [#pragma pack(n)] caps the alignment of a member at
    [n] bytes; [#pragma pack()] restores the default packing. *)

Module Layout.
Import CDecl.
Local Open Scope N_scope.

Definition pack_bytes (p : pack_value) : N :=
  match p with
  | Pack1 => 1 | Pack2 => 2 | Pack4 => 4 | Pack8 => 8 | Pack16 => 16
  end.

(** Sizes of the Windows SDK typedefs the structures use.  They come
    with [<OaIdl.h>], which both headers include: [DWORD] is
    [unsigned long], [WORD] is [unsigned short], [BYTE] and [byte] are
    [unsigned char]. *)
Definition sdk_sizeof (n : string) : option N :=
  if String.eqb n "DWORD" then Some 4
  else if String.eqb n "WORD" then Some 2
  else if String.eqb n "BYTE" then Some 1
  else if String.eqb n "byte" then Some 1
  else None.

(** Size in bytes of an integral type (Microsoft compiler, where [long]
    has 4 bytes). *)
Definition sizeof_integral (t : ctype) : option N :=
  match t with
  | TBool | TChar => Some 1
  | TShort | TUnsignedShort | TInt16 => Some 2
  | TInt | TUnsignedInt | TLong | TInt32 => Some 4
  | TInt64 => Some 8
  | TNamed n => sdk_sizeof n
  | _ => None
  end.

(** Size of an enumeration: that of its underlying type, [int] when none
    is given. *)
Definition sizeof_enum (e : enum_decl) : option N :=
  match e_underlying e with
  | None => sizeof_integral TInt
  | Some u => sizeof_integral u
  end.

(** Size of the type of a member.  Members of the declared structures are
    integral types, SDK typedefs and enumerations of the same header;
    pointers, references and nested structures do not occur as members and
    have no size here. *)
Definition sizeof (h : header) (t : ctype) : option N :=
  match sizeof_integral t with
  | Some k => Some k
  | None =>
      match t with
      | TNamed n =>
          match find_enum h n with
          | Some e => sizeof_enum e
          | None => None
          end
      | _ => None
      end
  end.

(** The natural alignment of these scalar types is their size. *)
Definition alignof (h : header) (t : ctype) : option N := sizeof h t.

(** A member with its type resolved: its size ([n] elements for an array)
    and its natural alignment (that of one element). *)
Record member : Type := {
  m_name : string;
  m_size : N;
  m_align : N
}.

Definition resolve_field (h : header) (f : field) : option member :=
  match sizeof h (fld_type f), alignof h (fld_type f) with
  | Some sz, Some al =>
      Some {| m_name := fld_name f;
              m_size := match fld_array f with
                        | None => sz
                        | Some n => n * sz
                        end;
              m_align := al |}
  | _, _ => None
  end.

Fixpoint resolve (h : header) (fs : list field) : option (list member) :=
  match fs with
  | [] => Some []
  | f :: r =>
      match resolve_field h f, resolve h r with
      | Some m, Some ms => Some (m :: ms)
      | _, _ => None
      end
  end.

(** [align_up off a]: the least multiple of [a] that is not below [off]. *)
Definition align_up (off a : N) : N := ((off + a - 1) / a) * a.

(** Alignment of a member under packing [p]. *)
Definition member_align (p : pack_value) (m : member) : N :=
  N.min (pack_bytes p) (m_align m).

(** Offsets of the members, laid out from offset [off] on. *)
Fixpoint offsets_from (p : pack_value) (off : N) (ms : list member)
  : list (string * N) :=
  match ms with
  | [] => []
  | m :: r =>
      let o := align_up off (member_align p m) in
      (m_name m, o) :: offsets_from p (o + m_size m) r
  end.

(** Offset just behind the last member. *)
Fixpoint end_from (p : pack_value) (off : N) (ms : list member) : N :=
  match ms with
  | [] => off
  | m :: r => end_from p (align_up off (member_align p m) + m_size m) r
  end.

Definition struct_align (p : pack_value) (ms : list member) : N :=
  fold_right (fun m a => N.max (member_align p m) a) 1 ms.

Definition offsets (p : pack_value) (ms : list member) : list (string * N) :=
  offsets_from p 0 ms.

Definition struct_size (p : pack_value) (ms : list member) : N :=
  align_up (end_from p 0 ms) (struct_align p ms).

(** Layout without padding, as the specification words it: the offset of
    a member is the sum of the sizes of the members before it. *)
Fixpoint packed_from (off : N) (ms : list member) : list (string * N) :=
  match ms with
  | [] => []
  | m :: r => (m_name m, off) :: packed_from (off + m_size m) r
  end.

Definition packed_offsets (ms : list member) : list (string * N) :=
  packed_from 0 ms.

Definition sum_sizes (ms : list member) : N :=
  fold_right (fun m a => m_size m + a) 0 ms.

(** The structures of a header, each with the packing in effect where it
    is declared.  [cur] is the current packing, [dflt] the default one
    that [#pragma pack()] returns to. *)
Fixpoint structs_packed_from (dflt cur : pack_value) (l : list (nat * item))
  : list (pack_value * struct_decl) :=
  match l with
  | [] => []
  | (_, PragmaPack (Some n)) :: r => structs_packed_from dflt n r
  | (_, PragmaPack None) :: r => structs_packed_from dflt dflt r
  | (_, Struct s) :: r => (cur, s) :: structs_packed_from dflt cur r
  | _ :: r => structs_packed_from dflt cur r
  end.

Definition structs_packed (dflt : pack_value) (h : header)
  : list (pack_value * struct_decl) :=
  structs_packed_from dflt dflt (items h).

Definition packing_of (dflt : pack_value) (h : header) (n : string)
  : option pack_value :=
  option_map fst
    (find (fun ps => String.eqb (s_name (snd ps)) n) (structs_packed dflt h)).

(** Offsets and size of the structure named [n] of header [h]. *)
Definition layout_of (dflt : pack_value) (h : header) (n : string)
  : option (list (string * N) * N) :=
  match find (fun ps => String.eqb (s_name (snd ps)) n) (structs_packed dflt h) with
  | Some (p, s) =>
      match resolve h (s_fields s) with
      | Some ms => Some (offsets p ms, struct_size p ms)
      | None => None
      end
  | None => None
  end.

Definition offset_of (l : list (string * N)) (f : string) : option N :=
  option_map snd (find (fun x => String.eqb (fst x) f) l).

(** A structure is laid out without padding under packing [p]. *)
Definition unpadded (h : header) (p : pack_value) (s : struct_decl) : Prop :=
  exists ms, resolve h (s_fields s) = Some ms /\
             offsets p ms = packed_offsets ms.

End Layout.

(** ** The declarations of [Thorlabs.MotionControl.KCube.LaserSource.h] *)

Module LaserSource.
Import CDecl.
Local Open Scope Z_scope.

(* line 39 *)
Definition FT_Status : enum_decl :=
  {| e_name := "FT_Status";
     e_underlying := Some TShort;
     e_enumerators := [
       {| en_name := "FT_OK"; en_value := 0x00; en_doc := "OK - no error." |};
       {| en_name := "FT_InvalidHandle"; en_value := 0x01; en_doc := "Invalid handle." |};
       {| en_name := "FT_DeviceNotFound"; en_value := 0x02; en_doc := "Device not found." |};
       {| en_name := "FT_DeviceNotOpened"; en_value := 0x03; en_doc := "Device not opened." |};
       {| en_name := "FT_IOError"; en_value := 0x04; en_doc := "I/O error." |};
       {| en_name := "FT_InsufficientResources"; en_value := 0x05; en_doc := "Insufficient resources." |};
       {| en_name := "FT_InvalidParameter"; en_value := 0x06; en_doc := "Invalid parameter." |};
       {| en_name := "FT_DeviceNotPresent"; en_value := 0x07; en_doc := "Device not present." |};
       {| en_name := "FT_IncorrectDevice"; en_value := 0x08; en_doc := "Incorrect device." |} ] |}.

(* line 53 *)
Definition MOT_MotorTypes : enum_decl :=
  {| e_name := "MOT_MotorTypes";
     e_underlying := None;
     e_enumerators := [
       {| en_name := "MOT_NotMotor"; en_value := 0; en_doc := "" |};
       {| en_name := "MOT_DCMotor"; en_value := 1; en_doc := "" |};
       {| en_name := "MOT_StepperMotor"; en_value := 2; en_doc := "" |};
       {| en_name := "MOT_BrushlessMotor"; en_value := 3; en_doc := "" |};
       {| en_name := "MOT_CustomMotor"; en_value := 100; en_doc := "" |} ] |}.

(* line 65 *)
Definition TLI_DeviceInfo : struct_decl :=
  {| s_name := "TLI_DeviceInfo";
     s_fields := [
       {| fld_type := TNamed "DWORD"; fld_name := "typeID"; fld_array := None |};
       {| fld_type := TChar; fld_name := "description"; fld_array := Some 65%N |};
       {| fld_type := TChar; fld_name := "serialNo"; fld_array := Some 9%N |};
       {| fld_type := TNamed "DWORD"; fld_name := "PID"; fld_array := None |};
       {| fld_type := TBool; fld_name := "isKnownType"; fld_array := None |};
       {| fld_type := TNamed "MOT_MotorTypes"; fld_name := "motorType"; fld_array := None |};
       {| fld_type := TBool; fld_name := "isPiezoDevice"; fld_array := None |};
       {| fld_type := TBool; fld_name := "isLaser"; fld_array := None |};
       {| fld_type := TBool; fld_name := "isCustomType"; fld_array := None |};
       {| fld_type := TBool; fld_name := "isRack"; fld_array := None |};
       {| fld_type := TShort; fld_name := "maxChannels"; fld_array := None |} ] |}.

(* line 102 *)
Definition TLI_HardwareInformation : struct_decl :=
  {| s_name := "TLI_HardwareInformation";
     s_fields := [
       {| fld_type := TNamed "DWORD"; fld_name := "serialNumber"; fld_array := None |};
       {| fld_type := TChar; fld_name := "modelNumber"; fld_array := Some 8%N |};
       {| fld_type := TNamed "WORD"; fld_name := "type"; fld_array := None |};
       {| fld_type := TNamed "DWORD"; fld_name := "firmwareVersion"; fld_array := None |};
       {| fld_type := TChar; fld_name := "notes"; fld_array := Some 48%N |};
       {| fld_type := TNamed "BYTE"; fld_name := "deviceDependantData"; fld_array := Some 12%N |};
       {| fld_type := TNamed "WORD"; fld_name := "hardwareVersion"; fld_array := None |};
       {| fld_type := TNamed "WORD"; fld_name := "modificationState"; fld_array := None |};
       {| fld_type := TShort; fld_name := "numChannels"; fld_array := None |} ] |}.

(* line 129 *)
Definition LS_InputSourceFlags : enum_decl :=
  {| e_name := "LS_InputSourceFlags";
     e_underlying := Some TUnsignedShort;
     e_enumerators := [
       {| en_name := "LS_SoftwareOnly"; en_value := 0; en_doc := "Input is read from software only" |};
       {| en_name := "LS_ExternalSignal"; en_value := 0x01; en_doc := "Input is read from software or External signal" |};
       {| en_name := "LS_Potentiometer"; en_value := 0x04; en_doc := "Input is read from software or Potentiometer" |} ] |}.

(* line 137 *)
Definition KLS_MMIParams : struct_decl :=
  {| s_name := "KLS_MMIParams";
     s_fields := [
       {| fld_type := TInt16; fld_name := "displayIntensity"; fld_array := None |};
       {| fld_type := TInt16; fld_name := "reserved"; fld_array := Some 3%N |} ] |}.

(* line 146 *)
Definition KLS_OpMode : enum_decl :=
  {| e_name := "KLS_OpMode";
     e_underlying := Some TUnsignedShort;
     e_enumerators := [
       {| en_name := "KLS_ConstantPower"; en_value := 0; en_doc := "Constant Power operation" |};
       {| en_name := "KLS_ConstantCurrent"; en_value := 1; en_doc := "Constant Current operation" |} ] |}.

(* line 153 *)
Definition KLS_TriggerMode : enum_decl :=
  {| e_name := "KLS_TriggerMode";
     e_underlying := Some TUnsignedShort;
     e_enumerators := [
       {| en_name := "KLS_Disabled"; en_value := 0; en_doc := "Trigger disabled" |};
       {| en_name := "KLS_Input"; en_value := 1; en_doc := "General IO input" |};
       {| en_name := "KLS_ModulationTrigger"; en_value := 2; en_doc := "Modulation trigger" |};
       {| en_name := "KLS_SetPower"; en_value := 3; en_doc := "Set power trigger" |};
       {| en_name := "KLS_Output"; en_value := 0x0a; en_doc := "General IO Output" |};
       {| en_name := "KLS_LaserOn"; en_value := 0x0b; en_doc := "Laser Output ON trigger" |};
       {| en_name := "KLS_InterlockEnabled"; en_value := 0x0c; en_doc := "Interlock enabled trigger" |};
       {| en_name := "KLS_SetPointChange"; en_value := 0x0d; en_doc := "Set point changed trigger" |};
       {| en_name := "KLS_HighStability"; en_value := 0x0e; en_doc := "Gigh Stability trigger" |};
       {| en_name := "KLS_LowStability"; en_value := 0x0f; en_doc := "low stability trigger" |} ] |}.

(* line 168 *)
Definition KLS_TrigPolarity : enum_decl :=
  {| e_name := "KLS_TrigPolarity";
     e_underlying := Some TUnsignedShort;
     e_enumerators := [
       {| en_name := "KLS_TrigPol_High"; en_value := 0x01; en_doc := "Trigger active high" |};
       {| en_name := "KLS_TrigPol_Low"; en_value := 0x02; en_doc := "Trigger active low" |} ] |}.

(* line 175 *)
Definition KLS_TrigIOParams : struct_decl :=
  {| s_name := "KLS_TrigIOParams";
     s_fields := [
       {| fld_type := TNamed "KLS_TriggerMode"; fld_name := "mode1"; fld_array := None |};
       {| fld_type := TNamed "KLS_TrigPolarity"; fld_name := "polarity1"; fld_array := None |};
       {| fld_type := TInt16; fld_name := "power1"; fld_array := None |};
       {| fld_type := TNamed "KLS_TriggerMode"; fld_name := "mode2"; fld_array := None |};
       {| fld_type := TNamed "KLS_TrigPolarity"; fld_name := "polarity2"; fld_array := None |};
       {| fld_type := TInt16; fld_name := "power2"; fld_array := None |} ] |}.

(* line 231 *)
Definition TLI_BuildDeviceList : func_decl :=
  {| f_api := Some "KLASERSOURCE_API";
     f_ret := TShort;
     f_cc := Some Cdecl;
     f_name := "TLI_BuildDeviceList";
     f_params := [];
     f_body := None;
     f_summary := [Txt "Build the DeviceList."];
     f_returns := Some ErrorCodeOrZero |}.

(* line 243 *)
Definition TLI_GetDeviceListSize : func_decl :=
  {| f_api := Some "KLASERSOURCE_API";
     f_ret := TShort;
     f_cc := Some Cdecl;
     f_name := "TLI_GetDeviceListSize";
     f_params := [];
     f_body := None;
     f_summary := [Txt "Gets the device list size."];
     f_returns := Some (Describes "Number of devices in device list.") |}.

(* line 256 *)
Definition TLI_GetDeviceList : func_decl :=
  {| f_api := Some "KLASERSOURCE_API";
     f_ret := TShort;
     f_cc := Some Cdecl;
     f_name := "TLI_GetDeviceList";
     f_params := [(TPtr (TPtr (TNamed "SAFEARRAY")), "stringsReceiver")];
     f_body := None;
     f_summary := [Txt "Get the entire contents of the device list."];
     f_returns := Some ErrorCodeOrZero |}.

(* line 270 *)
Definition TLI_GetDeviceListByType : func_decl :=
  {| f_api := Some "KLASERSOURCE_API";
     f_ret := TShort;
     f_cc := Some Cdecl;
     f_name := "TLI_GetDeviceListByType";
     f_params := [(TPtr (TPtr (TNamed "SAFEARRAY")), "stringsReceiver");
                   (TInt, "typeID")];
     f_body := None;
     f_summary := [Txt "Get the contents of the device list which match the supplied typeID."];
     f_returns := Some ErrorCodeOrZero |}.

(* line 285 *)
Definition TLI_GetDeviceListByTypes : func_decl :=
  {| f_api := Some "KLASERSOURCE_API";
     f_ret := TShort;
     f_cc := Some Cdecl;
     f_name := "TLI_GetDeviceListByTypes";
     f_params := [(TPtr (TPtr (TNamed "SAFEARRAY")), "stringsReceiver");
                   (TPtr TInt, "typeIDs");
                   (TInt, "length")];
     f_body := None;
     f_summary := [Txt "Get the contents of the device list which match the supplied typeIDs."];
     f_returns := Some ErrorCodeOrZero |}.

(* line 299 *)
Definition TLI_GetDeviceListExt : func_decl :=
  {| f_api := Some "KLASERSOURCE_API";
     f_ret := TShort;
     f_cc := Some Cdecl;
     f_name := "TLI_GetDeviceListExt";
     f_params := [(TPtr TChar, "receiveBuffer");
                   (TNamed "DWORD", "sizeOfBuffer")];
     f_body := None;
     f_summary := [Txt "Get the entire contents of the device list."];
     f_returns := Some ErrorCodeOrZero |}.

(* line 314 *)
Definition TLI_GetDeviceListByTypeExt : func_decl :=
  {| f_api := Some "KLASERSOURCE_API";
     f_ret := TShort;
     f_cc := Some Cdecl;
     f_name := "TLI_GetDeviceListByTypeExt";
     f_params := [(TPtr TChar, "receiveBuffer");
                   (TNamed "DWORD", "sizeOfBuffer");
                   (TInt, "typeID")];
     f_body := None;
     f_summary := [Txt "Get the contents of the device list which match the supplied typeID."];
     f_returns := Some ErrorCodeOrZero |}.

(* line 330 *)
Definition TLI_GetDeviceListByTypesExt : func_decl :=
  {| f_api := Some "KLASERSOURCE_API";
     f_ret := TShort;
     f_cc := Some Cdecl;
     f_name := "TLI_GetDeviceListByTypesExt";
     f_params := [(TPtr TChar, "receiveBuffer");
                   (TNamed "DWORD", "sizeOfBuffer");
                   (TPtr TInt, "typeIDs");
                   (TInt, "length")];
     f_body := None;
     f_summary := [Txt "Get the contents of the device list which match the supplied typeIDs."];
     f_returns := Some ErrorCodeOrZero |}.

(* line 346 *)
Definition TLI_GetDeviceInfo : func_decl :=
  {| f_api := Some "KLASERSOURCE_API";
     f_ret := TShort;
     f_cc := Some Cdecl;
     f_name := "TLI_GetDeviceInfo";
     f_params := [(TPtr (TConst TChar), "serialNo");
                   (TPtr (TNamed "TLI_DeviceInfo"), "info")];
     f_body := None;
     f_summary := [Txt "Get the device information from the USB port."];
     f_returns := Some OneIfSuccessful |}.

(* line 353 *)
Definition LS_Open : func_decl :=
  {| f_api := Some "KLASERSOURCE_API";
     f_ret := TShort;
     f_cc := Some Cdecl;
     f_name := "LS_Open";
     f_params := [(TPtr (TConst TChar), "serialNo")];
     f_body := None;
     f_summary := [Txt "Open the device for communications."];
     f_returns := Some ErrorCodeOrZero |}.

(* line 359 *)
Definition LS_Close : func_decl :=
  {| f_api := Some "KLASERSOURCE_API";
     f_ret := TVoid;
     f_cc := Some Cdecl;
     f_name := "LS_Close";
     f_params := [(TPtr (TConst TChar), "serialNo")];
     f_body := None;
     f_summary := [Txt "Disconnect and close the device."];
     f_returns := None |}.

(* line 365 *)
Definition LS_CheckConnection : func_decl :=
  {| f_api := Some "KLASERSOURCE_API";
     f_ret := TBool;
     f_cc := Some Cdecl;
     f_name := "LS_CheckConnection";
     f_params := [(TPtr (TConst TChar), "serialNo")];
     f_body := None;
     f_summary := [Txt "Check connection."];
     f_returns := Some (Describes "true if the USB is listed by the ftdi controller") |}.

(* line 369 *)
Definition LS_Identify : func_decl :=
  {| f_api := Some "KLASERSOURCE_API";
     f_ret := TVoid;
     f_cc := Some Cdecl;
     f_name := "LS_Identify";
     f_params := [(TPtr (TConst TChar), "serialNo")];
     f_body := None;
     f_summary := [Txt "Sends a command to the device to make it identify iteself."];
     f_returns := None |}.

(* line 384 *)
Definition LS_GetHardwareInfo : func_decl :=
  {| f_api := Some "KLASERSOURCE_API";
     f_ret := TShort;
     f_cc := Some Cdecl;
     f_name := "LS_GetHardwareInfo";
     f_params := [(TPtr (TConst TChar), "serialNo");
                   (TPtr TChar, "modelNo");
                   (TNamed "DWORD", "sizeOfModelNo");
                   (TPtr (TNamed "WORD"), "type");
                   (TPtr (TNamed "WORD"), "numChannels");
                   (TPtr TChar, "notes");
                   (TNamed "DWORD", "sizeOfNotes");
                   (TPtr (TNamed "DWORD"), "firmwareVersion");
                   (TPtr (TNamed "WORD"), "hardwareVersion");
                   (TPtr (TNamed "WORD"), "modificationState")];
     f_body := None;
     f_summary := [Txt "Gets the hardware information from the device."];
     f_returns := Some ErrorCodeOrZero |}.

(* line 392 *)
Definition LS_GetHardwareInfoBlock : func_decl :=
  {| f_api := Some "KLASERSOURCE_API";
     f_ret := TShort;
     f_cc := Some Cdecl;
     f_name := "LS_GetHardwareInfoBlock";
     f_params := [(TPtr (TConst TChar), "serialNo");
                   (TPtr (TNamed "TLI_HardwareInformation"), "hardwareInfo")];
     f_body := None;
     f_summary := [Txt "Gets the hardware information in a block."];
     f_returns := Some ErrorCodeOrZero |}.

(* line 398 *)
Definition LS_GetFirmwareVersion : func_decl :=
  {| f_api := Some "KLASERSOURCE_API";
     f_ret := TNamed "DWORD";
     f_cc := Some Cdecl;
     f_name := "LS_GetFirmwareVersion";
     f_params := [(TPtr (TConst TChar), "serialNo")];
     f_body := None;
     f_summary := [Txt "Gets version number of the device firmware."];
     f_returns := Some (Describes "The device firmware version number made up of 4 byte parts.") |}.

(* line 404 *)
Definition LS_GetSoftwareVersion : func_decl :=
  {| f_api := Some "KLASERSOURCE_API";
     f_ret := TNamed "DWORD";
     f_cc := Some Cdecl;
     f_name := "LS_GetSoftwareVersion";
     f_params := [(TPtr (TConst TChar), "serialNo")];
     f_body := None;
     f_summary := [Txt "Gets version number of the device software."];
     f_returns := Some (Describes "The device software version number made up of 4 byte parts.") |}.

(* line 410 *)
Definition LS_LoadSettings : func_decl :=
  {| f_api := Some "KLASERSOURCE_API";
     f_ret := TBool;
     f_cc := Some Cdecl;
     f_name := "LS_LoadSettings";
     f_params := [(TPtr (TConst TChar), "serialNo")];
     f_body := None;
     f_summary := [Txt "Update device with stored settings."];
     f_returns := Some TrueIfSuccessful |}.

(* line 415 *)
Definition LS_PersistSettings : func_decl :=
  {| f_api := Some "KLASERSOURCE_API";
     f_ret := TBool;
     f_cc := Some Cdecl;
     f_name := "LS_PersistSettings";
     f_params := [(TPtr (TConst TChar), "serialNo")];
     f_body := None;
     f_summary := [Txt "persist the devices current settings."];
     f_returns := Some TrueIfSuccessful |}.

(* line 421 *)
Definition LS_Disable : func_decl :=
  {| f_api := Some "KLASERSOURCE_API";
     f_ret := TShort;
     f_cc := Some Cdecl;
     f_name := "LS_Disable";
     f_params := [(TPtr (TConst TChar), "serialNo")];
     f_body := None;
     f_summary := [Txt "Disable laser."];
     f_returns := Some ErrorCodeOrZero |}.

(* line 427 *)
Definition LS_Enable : func_decl :=
  {| f_api := Some "KLASERSOURCE_API";
     f_ret := TShort;
     f_cc := Some Cdecl;
     f_name := "LS_Enable";
     f_params := [(TPtr (TConst TChar), "serialNo")];
     f_body := None;
     f_summary := [Txt "Enable laser for computer control."];
     f_returns := Some ErrorCodeOrZero |}.

(* line 432 *)
Definition LS_ClearMessageQueue : func_decl :=
  {| f_api := Some "KLASERSOURCE_API";
     f_ret := TVoid;
     f_cc := Some Cdecl;
     f_name := "LS_ClearMessageQueue";
     f_params := [(TPtr (TConst TChar), "serialNo")];
     f_body := None;
     f_summary := [Txt "Clears the device message queue."];
     f_returns := None |}.

(* line 441 *)
Definition LS_RegisterMessageCallback : func_decl :=
  {| f_api := Some "KLASERSOURCE_API";
     f_ret := TVoid;
     f_cc := Some Cdecl;
     f_name := "LS_RegisterMessageCallback";
     f_params := [(TPtr (TConst TChar), "serialNo");
                   (TFunPtr TVoid, "functionPointer")];
     f_body := None;
     f_summary := [Txt "Registers a callback on the message queue."];
     f_returns := None |}.

(* line 450 *)
Definition LS_MessageQueueSize : func_decl :=
  {| f_api := Some "KLASERSOURCE_API";
     f_ret := TInt;
     f_cc := Some Cdecl;
     f_name := "LS_MessageQueueSize";
     f_params := [(TPtr (TConst TChar), "serialNo")];
     f_body := None;
     f_summary := [Txt "Gets the MessageQueue size."];
     f_returns := Some (Describes "number of messages in the queue.") |}.

(* line 462 *)
Definition LS_GetNextMessage : func_decl :=
  {| f_api := Some "KLASERSOURCE_API";
     f_ret := TBool;
     f_cc := Some Cdecl;
     f_name := "LS_GetNextMessage";
     f_params := [(TPtr (TConst TChar), "serialNo");
                   (TPtr (TNamed "WORD"), "messageType");
                   (TPtr (TNamed "WORD"), "messageID");
                   (TPtr (TNamed "DWORD"), "messageData")];
     f_body := None;
     f_summary := [Txt "Get the next MessageQueue item."];
     f_returns := Some TrueIfSuccessful |}.

(* line 474 *)
Definition LS_WaitForMessage : func_decl :=
  {| f_api := Some "KLASERSOURCE_API";
     f_ret := TBool;
     f_cc := Some Cdecl;
     f_name := "LS_WaitForMessage";
     f_params := [(TPtr (TConst TChar), "serialNo");
                   (TPtr (TNamed "WORD"), "messageType");
                   (TPtr (TNamed "WORD"), "messageID");
                   (TPtr (TNamed "DWORD"), "messageData")];
     f_body := None;
     f_summary := [Txt "Wait for next MessageQueue item."];
     f_returns := Some TrueIfSuccessful |}.

(* line 480 *)
Definition LS_DisableOutput : func_decl :=
  {| f_api := Some "KLASERSOURCE_API";
     f_ret := TShort;
     f_cc := Some Cdecl;
     f_name := "LS_DisableOutput";
     f_params := [(TPtr (TConst TChar), "serialNo")];
     f_body := None;
     f_summary := [Txt "Switch laser off."];
     f_returns := Some ErrorCodeOrZero |}.

(* line 487 *)
Definition LS_EnableOutput : func_decl :=
  {| f_api := Some "KLASERSOURCE_API";
     f_ret := TShort;
     f_cc := Some Cdecl;
     f_name := "LS_EnableOutput";
     f_params := [(TPtr (TConst TChar), "serialNo")];
     f_body := None;
     f_summary := [Txt "Switch laser on."];
     f_returns := Some ErrorCodeOrZero |}.

(* line 494 *)
Definition LS_RequestControlSource : func_decl :=
  {| f_api := Some "KLASERSOURCE_API";
     f_ret := TShort;
     f_cc := Some Cdecl;
     f_name := "LS_RequestControlSource";
     f_params := [(TPtr (TConst TChar), "serialNo")];
     f_body := None;
     f_summary := [Txt "Gets the control input source."];
     f_returns := Some ErrorCodeOrZero |}.

(* line 506 *)
Definition LS_GetControlSource : func_decl :=
  {| f_api := Some "KLASERSOURCE_API";
     f_ret := TNamed "LS_InputSourceFlags";
     f_cc := Some Cdecl;
     f_name := "LS_GetControlSource";
     f_params := [(TPtr (TConst TChar), "serialNo")];
     f_body := None;
     f_summary := [Txt "Gets the control input source."];
     f_returns := Some (Describes "The control input source.") |}.

(* line 519 *)
Definition LS_SetControlSource : func_decl :=
  {| f_api := Some "KLASERSOURCE_API";
     f_ret := TShort;
     f_cc := Some Cdecl;
     f_name := "LS_SetControlSource";
     f_params := [(TPtr (TConst TChar), "serialNo");
                   (TNamed "LS_InputSourceFlags", "source")];
     f_body := None;
     f_summary := [Txt "Sets the control input source."];
     f_returns := Some ErrorCodeOrZero |}.

(* line 528 *)
Definition LS_RequestMMIParams : func_decl :=
  {| f_api := Some "KLASERSOURCE_API";
     f_ret := TShort;
     f_cc := Some Cdecl;
     f_name := "LS_RequestMMIParams";
     f_params := [(TPtr (TConst TChar), "serialNo")];
     f_body := None;
     f_summary := [Txt "Requests the MMI parameters."];
     f_returns := Some ErrorCodeOrZero |}.

(* line 537 *)
Definition LS_GetMMIParams : func_decl :=
  {| f_api := Some "KLASERSOURCE_API";
     f_ret := TShort;
     f_cc := Some Cdecl;
     f_name := "LS_GetMMIParams";
     f_params := [(TPtr (TConst TChar), "serialNo")];
     f_body := None;
     f_summary := [Txt "Gets the MMI parameters."];
     f_returns := Some (Describes "The Display Intensity.") |}.

(* line 547 *)
Definition LS_SetMMIParams : func_decl :=
  {| f_api := Some "KLASERSOURCE_API";
     f_ret := TShort;
     f_cc := Some Cdecl;
     f_name := "LS_SetMMIParams";
     f_params := [(TPtr (TConst TChar), "serialNo");
                   (TShort, "dispIntensity")];
     f_body := None;
     f_summary := [Txt "Sets the MMI parameters."];
     f_returns := Some ErrorCodeOrZero |}.

(* line 557 *)
Definition LS_GetMMIParamsBlock : func_decl :=
  {| f_api := Some "KLASERSOURCE_API";
     f_ret := TShort;
     f_cc := Some Cdecl;
     f_name := "LS_GetMMIParamsBlock";
     f_params := [(TPtr (TConst TChar), "serialNo");
                   (TPtr (TNamed "KLS_MMIParams"), "params")];
     f_body := None;
     f_summary := [Txt "Gets the MMI parameters."];
     f_returns := Some ErrorCodeOrZero |}.

(* line 567 *)
Definition LS_SetMMIParamsBlock : func_decl :=
  {| f_api := Some "KLASERSOURCE_API";
     f_ret := TShort;
     f_cc := Some Cdecl;
     f_name := "LS_SetMMIParamsBlock";
     f_params := [(TPtr (TConst TChar), "serialNo");
                   (TPtr (TNamed "KLS_MMIParams"), "params")];
     f_body := None;
     f_summary := [Txt "Sets the MMI parameters."];
     f_returns := Some ErrorCodeOrZero |}.

(* line 574 *)
Definition LS_RequestOPMode : func_decl :=
  {| f_api := Some "KLASERSOURCE_API";
     f_ret := TShort;
     f_cc := Some Cdecl;
     f_name := "LS_RequestOPMode";
     f_params := [(TPtr (TConst TChar), "serialNo")];
     f_body := None;
     f_summary := [Txt "Requests the Operation Mode parameters."];
     f_returns := Some ErrorCodeOrZero |}.

(* line 585 *)
Definition LS_GetOPMode : func_decl :=
  {| f_api := Some "KLASERSOURCE_API";
     f_ret := TShort;
     f_cc := Some Cdecl;
     f_name := "LS_GetOPMode";
     f_params := [(TPtr (TConst TChar), "serialNo");
                   (TPtr (TNamed "KLS_OpMode"), "mode")];
     f_body := None;
     f_summary := [Txt "Gets the Operation Mode parameters."];
     f_returns := Some ErrorCodeOrZero |}.

(* line 596 *)
Definition LS_SetOPMode : func_decl :=
  {| f_api := Some "KLASERSOURCE_API";
     f_ret := TShort;
     f_cc := Some Cdecl;
     f_name := "LS_SetOPMode";
     f_params := [(TPtr (TConst TChar), "serialNo");
                   (TNamed "KLS_OpMode", "mode")];
     f_body := None;
     f_summary := [Txt "Sets the Operation Mode parameters."];
     f_returns := Some ErrorCodeOrZero |}.

(* line 605 *)
Definition LS_RequestTrigIOParams : func_decl :=
  {| f_api := Some "KLASERSOURCE_API";
     f_ret := TShort;
     f_cc := Some Cdecl;
     f_name := "LS_RequestTrigIOParams";
     f_params := [(TPtr (TConst TChar), "serialNo")];
     f_body := None;
     f_summary := [Txt "Requests the Trigger IO parameters."];
     f_returns := Some ErrorCodeOrZero |}.

(* line 648 *)
Definition LS_GetTrigIOParams : func_decl :=
  {| f_api := Some "KLASERSOURCE_API";
     f_ret := TShort;
     f_cc := Some Cdecl;
     f_name := "LS_GetTrigIOParams";
     f_params := [(TPtr (TConst TChar), "serialNo");
                   (TPtr (TNamed "KLS_TriggerMode"), "mode1");
                   (TPtr (TNamed "KLS_TrigPolarity"), "polarity1");
                   (TPtr TShort, "power1");
                   (TPtr (TNamed "KLS_TriggerMode"), "mode2");
                   (TPtr (TNamed "KLS_TrigPolarity"), "polarity2");
                   (TPtr TShort, "power2")];
     f_body := None;
     f_summary := [Txt "Gets the Trigger IO parameters."];
     f_returns := Some ErrorCodeOrZero |}.

(* line 691 *)
Definition LS_SetTrigIOParams : func_decl :=
  {| f_api := Some "KLASERSOURCE_API";
     f_ret := TShort;
     f_cc := Some Cdecl;
     f_name := "LS_SetTrigIOParams";
     f_params := [(TPtr (TConst TChar), "serialNo");
                   (TNamed "KLS_TriggerMode", "mode1");
                   (TNamed "KLS_TrigPolarity", "polarity1");
                   (TShort, "power1");
                   (TNamed "KLS_TriggerMode", "mode2");
                   (TNamed "KLS_TrigPolarity", "polarity2");
                   (TShort, "power2")];
     f_body := None;
     f_summary := [Txt "Sets the Trigger IO parameters."];
     f_returns := Some ErrorCodeOrZero |}.

(* line 701 *)
Definition LS_GetTrigIOParamsBlock : func_decl :=
  {| f_api := Some "KLASERSOURCE_API";
     f_ret := TShort;
     f_cc := Some Cdecl;
     f_name := "LS_GetTrigIOParamsBlock";
     f_params := [(TPtr (TConst TChar), "serialNo");
                   (TPtr (TNamed "KLS_TrigIOParams"), "params")];
     f_body := None;
     f_summary := [Txt "Gets the Trigger IO parameters."];
     f_returns := Some ErrorCodeOrZero |}.

(* line 711 *)
Definition LS_SetTrigIOParamsBlock : func_decl :=
  {| f_api := Some "KLASERSOURCE_API";
     f_ret := TShort;
     f_cc := Some Cdecl;
     f_name := "LS_SetTrigIOParamsBlock";
     f_params := [(TPtr (TConst TChar), "serialNo");
                   (TPtr (TNamed "KLS_TrigIOParams"), "params")];
     f_body := None;
     f_summary := [Txt "Ls set trig i/o parameters block."];
     f_returns := Some ErrorCodeOrZero |}.

(* line 720 *)
Definition LS_GetInterlockState : func_decl :=
  {| f_api := Some "KLASERSOURCE_API";
     f_ret := TNamed "BYTE";
     f_cc := Some Cdecl;
     f_name := "LS_GetInterlockState";
     f_params := [(TPtr (TConst TChar), "serialNo")];
     f_body := None;
     f_summary := [Txt "Gets the Interlock State."];
     f_returns := Some (Describes "The interlock state.") |}.

(* line 726 *)
Definition LS_RequestLimits : func_decl :=
  {| f_api := Some "KLASERSOURCE_API";
     f_ret := TShort;
     f_cc := Some Cdecl;
     f_name := "LS_RequestLimits";
     f_params := [(TPtr (TConst TChar), "serialNo")];
     f_body := None;
     f_summary := [Txt "Requests the limits MaxPower and MaxCurrent."];
     f_returns := Some ErrorCodeOrZero |}.

(* line 732 *)
Definition LS_RequestWavelength : func_decl :=
  {| f_api := Some "KLASERSOURCE_API";
     f_ret := TShort;
     f_cc := Some Cdecl;
     f_name := "LS_RequestWavelength";
     f_params := [(TPtr (TConst TChar), "serialNo")];
     f_body := None;
     f_summary := [Txt "Requests the device Wavelength."];
     f_returns := Some ErrorCodeOrZero |}.

(* line 738 *)
Definition LS_GetWavelength : func_decl :=
  {| f_api := Some "KLASERSOURCE_API";
     f_ret := TNamed "WORD";
     f_cc := Some Cdecl;
     f_name := "LS_GetWavelength";
     f_params := [(TPtr (TConst TChar), "serialNo")];
     f_body := None;
     f_summary := [Txt "Gets the operating wavelength."];
     f_returns := Some (Describes "The operating Wavelength in nm.") |}.

(* line 746 *)
Definition LS_GetLimits : func_decl :=
  {| f_api := Some "KLASERSOURCE_API";
     f_ret := TShort;
     f_cc := Some Cdecl;
     f_name := "LS_GetLimits";
     f_params := [(TPtr (TConst TChar), "serialNo");
                   (TRef (TNamed "WORD"), "maxPower");
                   (TRef (TNamed "WORD"), "maxCurrent")];
     f_body := None;
     f_summary := [Txt "Gets the max power and current limits for the device."];
     f_returns := Some ErrorCodeOrZero |}.

(* line 753 *)
Definition LS_RequestSetPower : func_decl :=
  {| f_api := Some "KLASERSOURCE_API";
     f_ret := TShort;
     f_cc := Some Cdecl;
     f_name := "LS_RequestSetPower";
     f_params := [(TPtr (TConst TChar), "serialNo")];
     f_body := None;
     f_summary := [Txt "Sets the output power."];
     f_returns := Some ErrorCodeOrZero |}.

(* line 761 *)
Definition LS_GetPowerSet : func_decl :=
  {| f_api := Some "KLASERSOURCE_API";
     f_ret := TNamed "WORD";
     f_cc := Some Cdecl;
     f_name := "LS_GetPowerSet";
     f_params := [(TPtr (TConst TChar), "serialNo")];
     f_body := None;
     f_summary := [Txt "Gets the output power currently set."];
     f_returns := Some (Describes "The output power, range 0 to 32767 representing 0 to 100 % of the maximum power.") |}.

(* line 770 *)
Definition LS_SetPower : func_decl :=
  {| f_api := Some "KLASERSOURCE_API";
     f_ret := TShort;
     f_cc := Some Cdecl;
     f_name := "LS_SetPower";
     f_params := [(TPtr (TConst TChar), "serialNo");
                   (TNamed "WORD", "power")];
     f_body := None;
     f_summary := [Txt "Sets the output power."];
     f_returns := Some ErrorCodeOrZero |}.

(* line 783 *)
Definition LS_RequestStatus : func_decl :=
  {| f_api := Some "KLASERSOURCE_API";
     f_ret := TShort;
     f_cc := Some Cdecl;
     f_name := "LS_RequestStatus";
     f_params := [(TPtr (TConst TChar), "serialNo")];
     f_body := None;
     f_summary := [Txt "Requests the state quantities (actual power, current and status)."];
     f_returns := Some ErrorCodeOrZero |}.

(* line 795 *)
Definition LS_RequestReadings : func_decl :=
  {| f_api := Some "KLASERSOURCE_API";
     f_ret := TShort;
     f_cc := Some Cdecl;
     f_name := "LS_RequestReadings";
     f_params := [(TPtr (TConst TChar), "serialNo")];
     f_body := None;
     f_summary := [Txt "Request power and current readings."];
     f_returns := Some ErrorCodeOrZero |}.

(* line 806 *)
Definition LS_RequestStatusBits : func_decl :=
  {| f_api := Some "KLASERSOURCE_API";
     f_ret := TShort;
     f_cc := Some Cdecl;
     f_name := "LS_RequestStatusBits";
     f_params := [(TPtr (TConst TChar), "serialNo")];
     f_body := None;
     f_summary := [Txt "Request the status bits which identify the current device state."];
     f_returns := Some ErrorCodeOrZero |}.

(* line 821 *)
Definition LS_GetPowerReading : func_decl :=
  {| f_api := Some "KLASERSOURCE_API";
     f_ret := TNamed "WORD";
     f_cc := Some Cdecl;
     f_name := "LS_GetPowerReading";
     f_params := [(TPtr (TConst TChar), "serialNo")];
     f_body := None;
     f_summary := [Txt "Gets current power reading."];
     f_returns := Some (Describes "The current power, range 0 to 32767 representing 0 to 100 % of the maximum power.") |}.

(* line 836 *)
Definition LS_GetCurrentReading : func_decl :=
  {| f_api := Some "KLASERSOURCE_API";
     f_ret := TNamed "WORD";
     f_cc := Some Cdecl;
     f_name := "LS_GetCurrentReading";
     f_params := [(TPtr (TConst TChar), "serialNo")];
     f_body := None;
     f_summary := [Txt "Gets current Current reading."];
     f_returns := Some (Describes "The current Current, range 0 to 32767 representing 0 to 100 % of the maximum current.") |}.

(* line 860 *)
Definition LS_GetStatusBits : func_decl :=
  {| f_api := Some "KLASERSOURCE_API";
     f_ret := TNamed "DWORD";
     f_cc := Some Cdecl;
     f_name := "LS_GetStatusBits";
     f_params := [(TPtr (TConst TChar), "serialNo")];
     f_body := None;
     f_summary := [Txt "Get the current status bits."];
     f_returns := Some (Describes "The status bits from the device") |}.

(* line 872 *)
Definition LS_StartPolling : func_decl :=
  {| f_api := Some "KLASERSOURCE_API";
     f_ret := TBool;
     f_cc := Some Cdecl;
     f_name := "LS_StartPolling";
     f_params := [(TPtr (TConst TChar), "serialNo");
                   (TInt, "milliseconds")];
     f_body := None;
     f_summary := [Txt "Starts the internal polling loop which continuously requests position and status."];
     f_returns := Some TrueIfSuccessful |}.

(* line 880 *)
Definition LS_PollingDuration : func_decl :=
  {| f_api := Some "KLASERSOURCE_API";
     f_ret := TLong;
     f_cc := Some Cdecl;
     f_name := "LS_PollingDuration";
     f_params := [(TPtr (TConst TChar), "serialNo")];
     f_body := None;
     f_summary := [Txt "Gets the polling loop duration."];
     f_returns := Some (Describes "The time between polls in milliseconds or 0 if polling is not active.") |}.

(* line 887 *)
Definition LS_StopPolling : func_decl :=
  {| f_api := Some "KLASERSOURCE_API";
     f_ret := TVoid;
     f_cc := Some Cdecl;
     f_name := "LS_StopPolling";
     f_params := [(TPtr (TConst TChar), "serialNo")];
     f_body := None;
     f_summary := [Txt "Stops the internal polling loop."];
     f_returns := None |}.

(* line 897 *)
Definition LS_TimeSinceLastMsgReceived : func_decl :=
  {| f_api := Some "KLASERSOURCE_API";
     f_ret := TBool;
     f_cc := Some Cdecl;
     f_name := "LS_TimeSinceLastMsgReceived";
     f_params := [(TPtr (TConst TChar), "serialNo");
                   (TRef TInt64, "lastUpdateTimeMS")];
     f_body := None;
     f_summary := [Txt "Gets the time in milliseconds since tha last message was received from the device."];
     f_returns := Some (Describes "True if monitoring is enabled otherwize False.") |}.

(* line 907 *)
Definition LS_EnableLastMsgTimer : func_decl :=
  {| f_api := Some "KLASERSOURCE_API";
     f_ret := TVoid;
     f_cc := Some Cdecl;
     f_name := "LS_EnableLastMsgTimer";
     f_params := [(TPtr (TConst TChar), "serialNo");
                   (TBool, "enable");
                   (TInt32, "lastMsgTimeout")];
     f_body := None;
     f_summary := [Txt "Enables the last message monitoring timer."];
     f_returns := None |}.

(* line 916 *)
Definition LS_HasLastMsgTimerOverrun : func_decl :=
  {| f_api := Some "KLASERSOURCE_API";
     f_ret := TBool;
     f_cc := Some Cdecl;
     f_name := "LS_HasLastMsgTimerOverrun";
     f_params := [(TPtr (TConst TChar), "serialNo")];
     f_body := None;
     f_summary := [Txt "Queries if the time since the last message has exceeded the lastMsgTimeout set by "; See "LS_EnableLastMsgTimer(char const * serialNo, bool enable, __int32 lastMsgTimeout )"; Txt "."];
     f_returns := Some (Describes "True if last message timer has elapsed, False if monitoring is not enabled or if time of last message received is less than lastMsgTimeout.") |}.

(* line 922 *)
Definition LS_RequestSettings : func_decl :=
  {| f_api := Some "KLASERSOURCE_API";
     f_ret := TShort;
     f_cc := Some Cdecl;
     f_name := "LS_RequestSettings";
     f_params := [(TPtr (TConst TChar), "serialNo")];
     f_body := None;
     f_summary := [Txt "Requests that all settings are download from device."];
     f_returns := Some ErrorCodeOrZero |}.

(** The header file, item by item. *)
Definition h : header :=
  {| h_prelude := [
       (9%nat, PragmaOnce);
       (11%nat, IfdefDefine "KLASERSOURCEDLL_EXPORTS" "KLASERSOURCE_API" DllExport DllImport);
       (17%nat, Include "OaIdl.h") ];
     h_extern_c := [
       (39%nat, Enum FT_Status);
       (53%nat, Enum MOT_MotorTypes);
       (64%nat, PragmaPack (Some Pack1));
       (65%nat, Struct TLI_DeviceInfo);
       (102%nat, Struct TLI_HardwareInformation);
       (126%nat, PragmaPack None);
       (129%nat, Enum LS_InputSourceFlags);
       (137%nat, Struct KLS_MMIParams);
       (146%nat, Enum KLS_OpMode);
       (153%nat, Enum KLS_TriggerMode);
       (168%nat, Enum KLS_TrigPolarity);
       (175%nat, Struct KLS_TrigIOParams);
       (231%nat, Func TLI_BuildDeviceList);
       (243%nat, Func TLI_GetDeviceListSize);
       (256%nat, Func TLI_GetDeviceList);
       (270%nat, Func TLI_GetDeviceListByType);
       (285%nat, Func TLI_GetDeviceListByTypes);
       (299%nat, Func TLI_GetDeviceListExt);
       (314%nat, Func TLI_GetDeviceListByTypeExt);
       (330%nat, Func TLI_GetDeviceListByTypesExt);
       (346%nat, Func TLI_GetDeviceInfo);
       (353%nat, Func LS_Open);
       (359%nat, Func LS_Close);
       (365%nat, Func LS_CheckConnection);
       (369%nat, Func LS_Identify);
       (384%nat, Func LS_GetHardwareInfo);
       (392%nat, Func LS_GetHardwareInfoBlock);
       (398%nat, Func LS_GetFirmwareVersion);
       (404%nat, Func LS_GetSoftwareVersion);
       (410%nat, Func LS_LoadSettings);
       (415%nat, Func LS_PersistSettings);
       (421%nat, Func LS_Disable);
       (427%nat, Func LS_Enable);
       (432%nat, Func LS_ClearMessageQueue);
       (441%nat, Func LS_RegisterMessageCallback);
       (450%nat, Func LS_MessageQueueSize);
       (462%nat, Func LS_GetNextMessage);
       (474%nat, Func LS_WaitForMessage);
       (480%nat, Func LS_DisableOutput);
       (487%nat, Func LS_EnableOutput);
       (494%nat, Func LS_RequestControlSource);
       (506%nat, Func LS_GetControlSource);
       (519%nat, Func LS_SetControlSource);
       (528%nat, Func LS_RequestMMIParams);
       (537%nat, Func LS_GetMMIParams);
       (547%nat, Func LS_SetMMIParams);
       (557%nat, Func LS_GetMMIParamsBlock);
       (567%nat, Func LS_SetMMIParamsBlock);
       (574%nat, Func LS_RequestOPMode);
       (585%nat, Func LS_GetOPMode);
       (596%nat, Func LS_SetOPMode);
       (605%nat, Func LS_RequestTrigIOParams);
       (648%nat, Func LS_GetTrigIOParams);
       (691%nat, Func LS_SetTrigIOParams);
       (701%nat, Func LS_GetTrigIOParamsBlock);
       (711%nat, Func LS_SetTrigIOParamsBlock);
       (720%nat, Func LS_GetInterlockState);
       (726%nat, Func LS_RequestLimits);
       (732%nat, Func LS_RequestWavelength);
       (738%nat, Func LS_GetWavelength);
       (746%nat, Func LS_GetLimits);
       (753%nat, Func LS_RequestSetPower);
       (761%nat, Func LS_GetPowerSet);
       (770%nat, Func LS_SetPower);
       (783%nat, Func LS_RequestStatus);
       (795%nat, Func LS_RequestReadings);
       (806%nat, Func LS_RequestStatusBits);
       (821%nat, Func LS_GetPowerReading);
       (836%nat, Func LS_GetCurrentReading);
       (860%nat, Func LS_GetStatusBits);
       (872%nat, Func LS_StartPolling);
       (880%nat, Func LS_PollingDuration);
       (887%nat, Func LS_StopPolling);
       (897%nat, Func LS_TimeSinceLastMsgReceived);
       (907%nat, Func LS_EnableLastMsgTimer);
       (916%nat, Func LS_HasLastMsgTimerOverrun);
       (922%nat, Func LS_RequestSettings) ] |}.

End LaserSource.

(** ** The declarations of [Thorlabs.MotionControl.KCube.Solenoid.h] *)

Module Solenoid.
Import CDecl.
Local Open Scope Z_scope.

(* line 38 *)
Definition FT_Status : enum_decl :=
  {| e_name := "FT_Status";
     e_underlying := Some TShort;
     e_enumerators := [
       {| en_name := "FT_OK"; en_value := 0x00; en_doc := "OK - no error." |};
       {| en_name := "FT_InvalidHandle"; en_value := 0x01; en_doc := "Invalid handle." |};
       {| en_name := "FT_DeviceNotFound"; en_value := 0x02; en_doc := "Device not found." |};
       {| en_name := "FT_DeviceNotOpened"; en_value := 0x03; en_doc := "Device not opened." |};
       {| en_name := "FT_IOError"; en_value := 0x04; en_doc := "I/O error." |};
       {| en_name := "FT_InsufficientResources"; en_value := 0x05; en_doc := "Insufficient resources." |};
       {| en_name := "FT_InvalidParameter"; en_value := 0x06; en_doc := "Invalid parameter." |};
       {| en_name := "FT_DeviceNotPresent"; en_value := 0x07; en_doc := "Device not present." |};
       {| en_name := "FT_IncorrectDevice"; en_value := 0x08; en_doc := "Incorrect device." |} ] |}.

(* line 52 *)
Definition MOT_MotorTypes : enum_decl :=
  {| e_name := "MOT_MotorTypes";
     e_underlying := None;
     e_enumerators := [
       {| en_name := "MOT_NotMotor"; en_value := 0; en_doc := "" |};
       {| en_name := "MOT_DCMotor"; en_value := 1; en_doc := "" |};
       {| en_name := "MOT_StepperMotor"; en_value := 2; en_doc := "" |};
       {| en_name := "MOT_BrushlessMotor"; en_value := 3; en_doc := "" |};
       {| en_name := "MOT_CustomMotor"; en_value := 100; en_doc := "" |} ] |}.

(* line 64 *)
Definition TLI_DeviceInfo : struct_decl :=
  {| s_name := "TLI_DeviceInfo";
     s_fields := [
       {| fld_type := TNamed "DWORD"; fld_name := "typeID"; fld_array := None |};
       {| fld_type := TChar; fld_name := "description"; fld_array := Some 65%N |};
       {| fld_type := TChar; fld_name := "serialNo"; fld_array := Some 9%N |};
       {| fld_type := TNamed "DWORD"; fld_name := "PID"; fld_array := None |};
       {| fld_type := TBool; fld_name := "isKnownType"; fld_array := None |};
       {| fld_type := TNamed "MOT_MotorTypes"; fld_name := "motorType"; fld_array := None |};
       {| fld_type := TBool; fld_name := "isPiezoDevice"; fld_array := None |};
       {| fld_type := TBool; fld_name := "isLaser"; fld_array := None |};
       {| fld_type := TBool; fld_name := "isCustomType"; fld_array := None |};
       {| fld_type := TBool; fld_name := "isRack"; fld_array := None |};
       {| fld_type := TShort; fld_name := "maxChannels"; fld_array := None |} ] |}.

(* line 101 *)
Definition TLI_HardwareInformation : struct_decl :=
  {| s_name := "TLI_HardwareInformation";
     s_fields := [
       {| fld_type := TNamed "DWORD"; fld_name := "serialNumber"; fld_array := None |};
       {| fld_type := TChar; fld_name := "modelNumber"; fld_array := Some 8%N |};
       {| fld_type := TNamed "WORD"; fld_name := "type"; fld_array := None |};
       {| fld_type := TNamed "DWORD"; fld_name := "firmwareVersion"; fld_array := None |};
       {| fld_type := TChar; fld_name := "notes"; fld_array := Some 48%N |};
       {| fld_type := TNamed "BYTE"; fld_name := "deviceDependantData"; fld_array := Some 12%N |};
       {| fld_type := TNamed "WORD"; fld_name := "hardwareVersion"; fld_array := None |};
       {| fld_type := TNamed "WORD"; fld_name := "modificationState"; fld_array := None |};
       {| fld_type := TShort; fld_name := "numChannels"; fld_array := None |} ] |}.

(* line 128 *)
Definition SC_CycleParameters : struct_decl :=
  {| s_name := "SC_CycleParameters";
     s_fields := [
       {| fld_type := TUnsignedInt; fld_name := "openTime"; fld_array := None |};
       {| fld_type := TUnsignedInt; fld_name := "closedTime"; fld_array := None |};
       {| fld_type := TUnsignedInt; fld_name := "numCycles"; fld_array := None |} ] |}.

(* line 142 *)
Definition SC_OperatingModes : enum_decl :=
  {| e_name := "SC_OperatingModes";
     e_underlying := Some (TNamed "byte");
     e_enumerators := [
       {| en_name := "SC_Manual"; en_value := 0x01; en_doc := "" |};
       {| en_name := "SC_Single"; en_value := 0x02; en_doc := "" |};
       {| en_name := "SC_Auto"; en_value := 0x03; en_doc := "" |};
       {| en_name := "SC_Triggered"; en_value := 0x04; en_doc := "" |} ] |}.

(* line 155 *)
Definition SC_OperatingStates : enum_decl :=
  {| e_name := "SC_OperatingStates";
     e_underlying := Some (TNamed "byte");
     e_enumerators := [
       {| en_name := "SC_Active"; en_value := 0x01; en_doc := "" |};
       {| en_name := "SC_Inactive"; en_value := 0x02; en_doc := "" |} ] |}.

(* line 175 *)
Definition SC_SolenoidStates : enum_decl :=
  {| e_name := "SC_SolenoidStates";
     e_underlying := Some (TNamed "byte");
     e_enumerators := [
       {| en_name := "SC_SolenoidOpen"; en_value := 0x01; en_doc := "The solenoid is open" |};
       {| en_name := "SC_SolenoidClosed"; en_value := 0x02; en_doc := "The solenoid is closed" |} ] |}.

(* line 182 *)
Definition KSC_TriggerPortMode : enum_decl :=
  {| e_name := "KSC_TriggerPortMode";
     e_underlying := Some TInt16;
     e_enumerators := [
       {| en_name := "KSC_TrigDisabled"; en_value := 0x00; en_doc := "Trigger Disabled" |};
       {| en_name := "KSC_TrigIn_GPI"; en_value := 0x01; en_doc := "General purpose logic input" |};
       {| en_name := "KSC_TrigOut_GPO"; en_value := 0x0A; en_doc := "General purpose output" |} ] |}.

(* line 190 *)
Definition KSC_TriggerPortPolarity : enum_decl :=
  {| e_name := "KSC_TriggerPortPolarity";
     e_underlying := Some TInt16;
     e_enumerators := [
       {| en_name := "KSC_TrigPolarityHigh"; en_value := 0x01; en_doc := "Trigger Polarity high" |};
       {| en_name := "KSC_TrigPolarityLow"; en_value := 0x02; en_doc := "Trigger Polarity Low" |} ] |}.

(* line 198 *)
Definition KSC_MMIParams : struct_decl :=
  {| s_name := "KSC_MMIParams";
     s_fields := [
       {| fld_type := TInt16; fld_name := "unused"; fld_array := Some 10%N |};
       {| fld_type := TInt16; fld_name := "DisplayIntensity"; fld_array := None |};
       {| fld_type := TInt16; fld_name := "DisplayTimeout"; fld_array := None |};
       {| fld_type := TInt16; fld_name := "DisplayDimIntensity"; fld_array := None |};
       {| fld_type := TInt16; fld_name := "reserved"; fld_array := Some 4%N |} ] |}.

(* line 213 *)
Definition KSC_TriggerConfig : struct_decl :=
  {| s_name := "KSC_TriggerConfig";
     s_fields := [
       {| fld_type := TNamed "KSC_TriggerPortMode"; fld_name := "Trigger1Mode"; fld_array := None |};
       {| fld_type := TNamed "KSC_TriggerPortPolarity"; fld_name := "Trigger1Polarity"; fld_array := None |};
       {| fld_type := TNamed "KSC_TriggerPortMode"; fld_name := "Trigger2Mode"; fld_array := None |};
       {| fld_type := TNamed "KSC_TriggerPortPolarity"; fld_name := "Trigger2Polarity"; fld_array := None |};
       {| fld_type := TInt16; fld_name := "reserved"; fld_array := Some 6%N |} ] |}.

(* line 267 *)
Definition TLI_BuildDeviceList : func_decl :=
  {| f_api := Some "KCUBESOLENOID_API";
     f_ret := TShort;
     f_cc := Some Cdecl;
     f_name := "TLI_BuildDeviceList";
     f_params := [];
     f_body := None;
     f_summary := [Txt "Build the DeviceList."];
     f_returns := Some ErrorCodeOrZero |}.

(* line 279 *)
Definition TLI_GetDeviceListSize : func_decl :=
  {| f_api := Some "KCUBESOLENOID_API";
     f_ret := TShort;
     f_cc := Some Cdecl;
     f_name := "TLI_GetDeviceListSize";
     f_params := [];
     f_body := None;
     f_summary := [Txt "Gets the device list size."];
     f_returns := Some (Describes "Number of devices in device list.") |}.

(* line 292 *)
Definition TLI_GetDeviceList : func_decl :=
  {| f_api := Some "KCUBESOLENOID_API";
     f_ret := TShort;
     f_cc := Some Cdecl;
     f_name := "TLI_GetDeviceList";
     f_params := [(TPtr (TPtr (TNamed "SAFEARRAY")), "stringsReceiver")];
     f_body := None;
     f_summary := [Txt "Get the entire contents of the device list."];
     f_returns := Some ErrorCodeOrZero |}.

(* line 306 *)
Definition TLI_GetDeviceListByType : func_decl :=
  {| f_api := Some "KCUBESOLENOID_API";
     f_ret := TShort;
     f_cc := Some Cdecl;
     f_name := "TLI_GetDeviceListByType";
     f_params := [(TPtr (TPtr (TNamed "SAFEARRAY")), "stringsReceiver");
                   (TInt, "typeID")];
     f_body := None;
     f_summary := [Txt "Get the contents of the device list which match the supplied typeID."];
     f_returns := Some ErrorCodeOrZero |}.

(* line 321 *)
Definition TLI_GetDeviceListByTypes : func_decl :=
  {| f_api := Some "KCUBESOLENOID_API";
     f_ret := TShort;
     f_cc := Some Cdecl;
     f_name := "TLI_GetDeviceListByTypes";
     f_params := [(TPtr (TPtr (TNamed "SAFEARRAY")), "stringsReceiver");
                   (TPtr TInt, "typeIDs");
                   (TInt, "length")];
     f_body := None;
     f_summary := [Txt "Get the contents of the device list which match the supplied typeIDs."];
     f_returns := Some ErrorCodeOrZero |}.

(* line 335 *)
Definition TLI_GetDeviceListExt : func_decl :=
  {| f_api := Some "KCUBESOLENOID_API";
     f_ret := TShort;
     f_cc := Some Cdecl;
     f_name := "TLI_GetDeviceListExt";
     f_params := [(TPtr TChar, "receiveBuffer");
                   (TNamed "DWORD", "sizeOfBuffer")];
     f_body := None;
     f_summary := [Txt "Get the entire contents of the device list."];
     f_returns := Some ErrorCodeOrZero |}.

(* line 350 *)
Definition TLI_GetDeviceListByTypeExt : func_decl :=
  {| f_api := Some "KCUBESOLENOID_API";
     f_ret := TShort;
     f_cc := Some Cdecl;
     f_name := "TLI_GetDeviceListByTypeExt";
     f_params := [(TPtr TChar, "receiveBuffer");
                   (TNamed "DWORD", "sizeOfBuffer");
                   (TInt, "typeID")];
     f_body := None;
     f_summary := [Txt "Get the contents of the device list which match the supplied typeID."];
     f_returns := Some ErrorCodeOrZero |}.

(* line 366 *)
Definition TLI_GetDeviceListByTypesExt : func_decl :=
  {| f_api := Some "KCUBESOLENOID_API";
     f_ret := TShort;
     f_cc := Some Cdecl;
     f_name := "TLI_GetDeviceListByTypesExt";
     f_params := [(TPtr TChar, "receiveBuffer");
                   (TNamed "DWORD", "sizeOfBuffer");
                   (TPtr TInt, "typeIDs");
                   (TInt, "length")];
     f_body := None;
     f_summary := [Txt "Get the contents of the device list which match the supplied typeIDs."];
     f_returns := Some ErrorCodeOrZero |}.

(* line 382 *)
Definition TLI_GetDeviceInfo : func_decl :=
  {| f_api := Some "KCUBESOLENOID_API";
     f_ret := TShort;
     f_cc := Some Cdecl;
     f_name := "TLI_GetDeviceInfo";
     f_params := [(TPtr (TConst TChar), "serialNo");
                   (TPtr (TNamed "TLI_DeviceInfo"), "info")];
     f_body := None;
     f_summary := [Txt "Get the device information from the USB port."];
     f_returns := Some OneIfSuccessful |}.

(* line 389 *)
Definition SC_Open : func_decl :=
  {| f_api := Some "KCUBESOLENOID_API";
     f_ret := TShort;
     f_cc := Some Cdecl;
     f_name := "SC_Open";
     f_params := [(TPtr (TConst TChar), "serialNo")];
     f_body := None;
     f_summary := [Txt "Open the device for communications."];
     f_returns := Some ErrorCodeOrZero |}.

(* line 395 *)
Definition SC_Close : func_decl :=
  {| f_api := Some "KCUBESOLENOID_API";
     f_ret := TVoid;
     f_cc := Some Cdecl;
     f_name := "SC_Close";
     f_params := [(TPtr (TConst TChar), "serialNo")];
     f_body := None;
     f_summary := [Txt "Disconnect and close the device."];
     f_returns := None |}.

(* line 401 *)
Definition SC_CheckConnection : func_decl :=
  {| f_api := Some "KCUBESOLENOID_API";
     f_ret := TBool;
     f_cc := Some Cdecl;
     f_name := "SC_CheckConnection";
     f_params := [(TPtr (TConst TChar), "serialNo")];
     f_body := None;
     f_summary := [Txt "Check connection."];
     f_returns := Some (Describes "true if the USB is listed by the ftdi controller") |}.

(* line 405 *)
Definition SC_Identify : func_decl :=
  {| f_api := Some "KCUBESOLENOID_API";
     f_ret := TVoid;
     f_cc := Some Cdecl;
     f_name := "SC_Identify";
     f_params := [(TPtr (TConst TChar), "serialNo")];
     f_body := None;
     f_summary := [Txt "Sends a command to the device to make it identify iteself."];
     f_returns := None |}.

(* line 412 *)
Definition SC_RequestLEDswitches : func_decl :=
  {| f_api := Some "KCUBESOLENOID_API";
     f_ret := TShort;
     f_cc := Some Cdecl;
     f_name := "SC_RequestLEDswitches";
     f_params := [(TPtr (TConst TChar), "serialNo")];
     f_body := None;
     f_summary := [Txt "Requests the LED indicator bits on cube."];
     f_returns := Some ErrorCodeOrZero |}.

(* line 419 *)
Definition SC_GetLEDswitches : func_decl :=
  {| f_api := Some "KCUBESOLENOID_API";
     f_ret := TNamed "WORD";
     f_cc := Some Cdecl;
     f_name := "SC_GetLEDswitches";
     f_params := [(TPtr (TConst TChar), "serialNo")];
     f_body := None;
     f_summary := [Txt "Get the LED indicator bits on cube."];
     f_returns := Some (Describes "Sum of: 8 to indicate moving 2 to indicate end of track and 1 to flash on identify command.") |}.

(* line 427 *)
Definition SC_SetLEDswitches : func_decl :=
  {| f_api := Some "KCUBESOLENOID_API";
     f_ret := TShort;
     f_cc := Some Cdecl;
     f_name := "SC_SetLEDswitches";
     f_params := [(TPtr (TConst TChar), "serialNo");
                   (TNamed "WORD", "LEDswitches")];
     f_body := None;
     f_summary := [Txt "Set the LED indicator bits on cube."];
     f_returns := Some ErrorCodeOrZero |}.

(* line 442 *)
Definition SC_GetHardwareInfo : func_decl :=
  {| f_api := Some "KCUBESOLENOID_API";
     f_ret := TShort;
     f_cc := Some Cdecl;
     f_name := "SC_GetHardwareInfo";
     f_params := [(TPtr (TConst TChar), "serialNo");
                   (TPtr TChar, "modelNo");
                   (TNamed "DWORD", "sizeOfModelNo");
                   (TPtr (TNamed "WORD"), "type");
                   (TPtr (TNamed "WORD"), "numChannels");
                   (TPtr TChar, "notes");
                   (TNamed "DWORD", "sizeOfNotes");
                   (TPtr (TNamed "DWORD"), "firmwareVersion");
                   (TPtr (TNamed "WORD"), "hardwareVersion");
                   (TPtr (TNamed "WORD"), "modificationState")];
     f_body := None;
     f_summary := [Txt "Gets the hardware information from the device."];
     f_returns := Some ErrorCodeOrZero |}.

(* line 450 *)
Definition SC_GetHardwareInfoBlock : func_decl :=
  {| f_api := Some "KCUBESOLENOID_API";
     f_ret := TShort;
     f_cc := Some Cdecl;
     f_name := "SC_GetHardwareInfoBlock";
     f_params := [(TPtr (TConst TChar), "serialNo");
                   (TPtr (TNamed "TLI_HardwareInformation"), "hardwareInfo")];
     f_body := None;
     f_summary := [Txt "Gets the hardware information in a block."];
     f_returns := Some ErrorCodeOrZero |}.

(* line 456 *)
Definition SC_RequestHubBay : func_decl :=
  {| f_api := Some "KCUBESOLENOID_API";
     f_ret := TShort;
     f_cc := Some Cdecl;
     f_name := "SC_RequestHubBay";
     f_params := [(TPtr (TConst TChar), "serialNo")];
     f_body := None;
     f_summary := [Txt "Requests the hub bay number this device is fitted to."];
     f_returns := Some ErrorCodeOrZero |}.

(* line 462 *)
Definition SC_GetHubBay : func_decl :=
  {| f_api := Some "KCUBESOLENOID_API";
     f_ret := TChar;
     f_cc := Some Cdecl;
     f_name := "SC_GetHubBay";
     f_params := [(TPtr (TConst TChar), "serialNo")];
     f_body := None;
     f_summary := [Txt "Gets the hub bay number this device is fitted to."];
     f_returns := Some (Describes "The number, 0x00 if unknown or 0xff if not on a hub.") |}.

(* line 468 *)
Definition SC_GetSoftwareVersion : func_decl :=
  {| f_api := Some "KCUBESOLENOID_API";
     f_ret := TNamed "DWORD";
     f_cc := Some Cdecl;
     f_name := "SC_GetSoftwareVersion";
     f_params := [(TPtr (TConst TChar), "serialNo")];
     f_body := None;
     f_summary := [Txt "Gets version number of the device software."];
     f_returns := Some (Describes "The device software version number made up of 4 byte parts.") |}.

(* line 474 *)
Definition SC_LoadSettings : func_decl :=
  {| f_api := Some "KCUBESOLENOID_API";
     f_ret := TBool;
     f_cc := Some Cdecl;
     f_name := "SC_LoadSettings";
     f_params := [(TPtr (TConst TChar), "serialNo")];
     f_body := None;
     f_summary := [Txt "Update device with stored settings."];
     f_returns := Some TrueIfSuccessful |}.

(* line 479 *)
Definition SC_PersistSettings : func_decl :=
  {| f_api := Some "KCUBESOLENOID_API";
     f_ret := TBool;
     f_cc := Some Cdecl;
     f_name := "SC_PersistSettings";
     f_params := [(TPtr (TConst TChar), "serialNo")];
     f_body := None;
     f_summary := [Txt "persist the devices current settings."];
     f_returns := Some TrueIfSuccessful |}.

(* line 484 *)
Definition SC_ClearMessageQueue : func_decl :=
  {| f_api := Some "KCUBESOLENOID_API";
     f_ret := TVoid;
     f_cc := Some Cdecl;
     f_name := "SC_ClearMessageQueue";
     f_params := [(TPtr (TConst TChar), "serialNo")];
     f_body := None;
     f_summary := [Txt "Clears the device message queue."];
     f_returns := None |}.

(* line 493 *)
Definition SC_RegisterMessageCallback : func_decl :=
  {| f_api := Some "KCUBESOLENOID_API";
     f_ret := TVoid;
     f_cc := Some Cdecl;
     f_name := "SC_RegisterMessageCallback";
     f_params := [(TPtr (TConst TChar), "serialNo");
                   (TFunPtr TVoid, "functionPointer")];
     f_body := None;
     f_summary := [Txt "Registers a callback on the message queue."];
     f_returns := None |}.

(* line 502 *)
Definition SC_MessageQueueSize : func_decl :=
  {| f_api := Some "KCUBESOLENOID_API";
     f_ret := TInt;
     f_cc := Some Cdecl;
     f_name := "SC_MessageQueueSize";
     f_params := [(TPtr (TConst TChar), "serialNo")];
     f_body := None;
     f_summary := [Txt "Gets the MessageQueue size."];
     f_returns := Some (Describes "number of messages in the queue.") |}.

(* line 514 *)
Definition SC_GetNextMessage : func_decl :=
  {| f_api := Some "KCUBESOLENOID_API";
     f_ret := TBool;
     f_cc := Some Cdecl;
     f_name := "SC_GetNextMessage";
     f_params := [(TPtr (TConst TChar), "serialNo");
                   (TPtr (TNamed "WORD"), "messageType");
                   (TPtr (TNamed "WORD"), "messageID");
                   (TPtr (TNamed "DWORD"), "messageData")];
     f_body := None;
     f_summary := [Txt "Get the next MessageQueue item."];
     f_returns := Some TrueIfSuccessful |}.

(* line 526 *)
Definition SC_WaitForMessage : func_decl :=
  {| f_api := Some "KCUBESOLENOID_API";
     f_ret := TBool;
     f_cc := Some Cdecl;
     f_name := "SC_WaitForMessage";
     f_params := [(TPtr (TConst TChar), "serialNo");
                   (TPtr (TNamed "WORD"), "messageType");
                   (TPtr (TNamed "WORD"), "messageID");
                   (TPtr (TNamed "DWORD"), "messageData")];
     f_body := None;
     f_summary := [Txt "Wait for next MessageQueue item."];
     f_returns := Some TrueIfSuccessful |}.

(* line 536 *)
Definition SC_StartPolling : func_decl :=
  {| f_api := Some "KCUBESOLENOID_API";
     f_ret := TBool;
     f_cc := Some Cdecl;
     f_name := "SC_StartPolling";
     f_params := [(TPtr (TConst TChar), "serialNo");
                   (TInt, "milliseconds")];
     f_body := None;
     f_summary := [Txt "Starts the internal polling loop which continuously requests position and status."];
     f_returns := Some TrueIfSuccessful |}.

(* line 544 *)
Definition SC_PollingDuration : func_decl :=
  {| f_api := Some "KCUBESOLENOID_API";
     f_ret := TLong;
     f_cc := Some Cdecl;
     f_name := "SC_PollingDuration";
     f_params := [(TPtr (TConst TChar), "serialNo")];
     f_body := None;
     f_summary := [Txt "Gets the polling loop duration."];
     f_returns := Some (Describes "The time between polls in milliseconds or 0 if polling is not active.") |}.

(* line 551 *)
Definition SC_StopPolling : func_decl :=
  {| f_api := Some "KCUBESOLENOID_API";
     f_ret := TVoid;
     f_cc := Some Cdecl;
     f_name := "SC_StopPolling";
     f_params := [(TPtr (TConst TChar), "serialNo")];
     f_body := None;
     f_summary := [Txt "Stops the internal polling loop."];
     f_returns := None |}.

(* line 561 *)
Definition SC_TimeSinceLastMsgReceived : func_decl :=
  {| f_api := Some "KCUBESOLENOID_API";
     f_ret := TBool;
     f_cc := Some Cdecl;
     f_name := "SC_TimeSinceLastMsgReceived";
     f_params := [(TPtr (TConst TChar), "serialNo");
                   (TRef TInt64, "lastUpdateTimeMS")];
     f_body := None;
     f_summary := [Txt "Gets the time in milliseconds since tha last message was received from the device."];
     f_returns := Some (Describes "True if monitoring is enabled otherwize False.") |}.

(* line 571 *)
Definition SC_EnableLastMsgTimer : func_decl :=
  {| f_api := Some "KCUBESOLENOID_API";
     f_ret := TVoid;
     f_cc := Some Cdecl;
     f_name := "SC_EnableLastMsgTimer";
     f_params := [(TPtr (TConst TChar), "serialNo");
                   (TBool, "enable");
                   (TInt32, "lastMsgTimeout")];
     f_body := None;
     f_summary := [Txt "Enables the last message monitoring timer."];
     f_returns := None |}.

(* line 580 *)
Definition SC_HasLastMsgTimerOverrun : func_decl :=
  {| f_api := Some "KCUBESOLENOID_API";
     f_ret := TBool;
     f_cc := Some Cdecl;
     f_name := "SC_HasLastMsgTimerOverrun";
     f_params := [(TPtr (TConst TChar), "serialNo")];
     f_body := None;
     f_summary := [Txt "Queries if the time since the last message has exceeded the lastMsgTimeout set by "; See "SC_EnableLastMsgTimer(char const * serialNo, bool enable, __int32 lastMsgTimeout )"; Txt "."];
     f_returns := Some (Describes "True if last message timer has elapsed, False if monitoring is not enabled or if time of last message received is less than lastMsgTimeout.") |}.

(* line 586 *)
Definition SC_RequestSettings : func_decl :=
  {| f_api := Some "KCUBESOLENOID_API";
     f_ret := TShort;
     f_cc := Some Cdecl;
     f_name := "SC_RequestSettings";
     f_params := [(TPtr (TConst TChar), "serialNo")];
     f_body := None;
     f_summary := [Txt "Requests that all settings are download from device."];
     f_returns := Some ErrorCodeOrZero |}.

(* line 596 *)
Definition SC_RequestStatus : func_decl :=
  {| f_api := Some "KCUBESOLENOID_API";
     f_ret := TShort;
     f_cc := Some Cdecl;
     f_name := "SC_RequestStatus";
     f_params := [(TPtr (TConst TChar), "serialNo")];
     f_body := None;
     f_summary := [Txt "Requests the status from the device."];
     f_returns := Some ErrorCodeOrZero |}.

(* line 606 *)
Definition SC_RequestStatusBits : func_decl :=
  {| f_api := Some "KCUBESOLENOID_API";
     f_ret := TShort;
     f_cc := Some Cdecl;
     f_name := "SC_RequestStatusBits";
     f_params := [(TPtr (TConst TChar), "serialNo")];
     f_body := None;
     f_summary := [Txt "Request the status bits which identify the current device state."];
     f_returns := Some ErrorCodeOrZero |}.

(* line 628 *)
Definition SC_GetStatusBits : func_decl :=
  {| f_api := Some "KCUBESOLENOID_API";
     f_ret := TNamed "DWORD";
     f_cc := Some Cdecl;
     f_name := "SC_GetStatusBits";
     f_params := [(TPtr (TConst TChar), "serialNo")];
     f_body := None;
     f_summary := [Txt "Get the current status bits."];
     f_returns := Some (Describes "The status bits from the device") |}.

(* line 635 *)
Definition SC_RequestOperatingMode : func_decl :=
  {| f_api := Some "KCUBESOLENOID_API";
     f_ret := TShort;
     f_cc := Some Cdecl;
     f_name := "SC_RequestOperatingMode";
     f_params := [(TPtr (TConst TChar), "serialNo")];
     f_body := None;
     f_summary := [Txt "Requests the Operating Mode."];
     f_returns := Some ErrorCodeOrZero |}.

(* line 648 *)
Definition SC_GetOperatingMode : func_decl :=
  {| f_api := Some "KCUBESOLENOID_API";
     f_ret := TNamed "SC_OperatingModes";
     f_cc := Some Cdecl;
     f_name := "SC_GetOperatingMode";
     f_params := [(TPtr (TConst TChar), "serialNo")];
     f_body := None;
     f_summary := [Txt "Gets the Operating Mode."];
     f_returns := Some (Describes "The current operating mode.") |}.

(* line 662 *)
Definition SC_SetOperatingMode : func_decl :=
  {| f_api := Some "KCUBESOLENOID_API";
     f_ret := TShort;
     f_cc := Some Cdecl;
     f_name := "SC_SetOperatingMode";
     f_params := [(TPtr (TConst TChar), "serialNo");
                   (TNamed "SC_OperatingModes", "mode")];
     f_body := None;
     f_summary := [Txt "Sets the Operating Mode."];
     f_returns := Some ErrorCodeOrZero |}.

(* line 671 *)
Definition SC_GetSolenoidState : func_decl :=
  {| f_api := Some "KCUBESOLENOID_API";
     f_ret := TNamed "SC_SolenoidStates";
     f_cc := Some Cdecl;
     f_name := "SC_GetSolenoidState";
     f_params := [(TPtr (TConst TChar), "serialNo")];
     f_body := None;
     f_summary := [Txt "Gets the current solenoid state."];
     f_returns := Some (Describes "The current solenoid state.") |}.

(* line 678 *)
Definition SC_RequestOperatingState : func_decl :=
  {| f_api := Some "KCUBESOLENOID_API";
     f_ret := TShort;
     f_cc := Some Cdecl;
     f_name := "SC_RequestOperatingState";
     f_params := [(TPtr (TConst TChar), "serialNo")];
     f_body := None;
     f_summary := [Txt "Requests the operating state."];
     f_returns := Some ErrorCodeOrZero |}.

(* line 689 *)
Definition SC_GetOperatingState : func_decl :=
  {| f_api := Some "KCUBESOLENOID_API";
     f_ret := TNamed "SC_OperatingStates";
     f_cc := Some Cdecl;
     f_name := "SC_GetOperatingState";
     f_params := [(TPtr (TConst TChar), "serialNo")];
     f_body := None;
     f_summary := [Txt "Gets the current operating state."];
     f_returns := Some (Describes "The current operating state.") |}.

(* line 701 *)
Definition SC_SetOperatingState : func_decl :=
  {| f_api := Some "KCUBESOLENOID_API";
     f_ret := TShort;
     f_cc := Some Cdecl;
     f_name := "SC_SetOperatingState";
     f_params := [(TPtr (TConst TChar), "serialNo");
                   (TNamed "SC_OperatingStates", "state")];
     f_body := None;
     f_summary := [Txt "Sets the operating state."];
     f_returns := Some ErrorCodeOrZero |}.

(* line 710 *)
Definition SC_RequestCycleParams : func_decl :=
  {| f_api := Some "KCUBESOLENOID_API";
     f_ret := TShort;
     f_cc := Some Cdecl;
     f_name := "SC_RequestCycleParams";
     f_params := [(TPtr (TConst TChar), "serialNo")];
     f_body := None;
     f_summary := [Txt "Requests the cycle parameters."];
     f_returns := Some ErrorCodeOrZero |}.

(* line 725 *)
Definition SC_GetCycleParams : func_decl :=
  {| f_api := Some "KCUBESOLENOID_API";
     f_ret := TShort;
     f_cc := Some Cdecl;
     f_name := "SC_GetCycleParams";
     f_params := [(TPtr (TConst TChar), "serialNo");
                   (TPtr TUnsignedInt, "onTime");
                   (TPtr TUnsignedInt, "offTime");
                   (TPtr TUnsignedInt, "numCycles")];
     f_body := None;
     f_summary := [Txt "Gets the cycle parameters."];
     f_returns := Some ErrorCodeOrZero |}.

(* line 740 *)
Definition SC_SetCycleParams : func_decl :=
  {| f_api := Some "KCUBESOLENOID_API";
     f_ret := TShort;
     f_cc := Some Cdecl;
     f_name := "SC_SetCycleParams";
     f_params := [(TPtr (TConst TChar), "serialNo");
                   (TUnsignedInt, "onTime");
                   (TUnsignedInt, "offTime");
                   (TUnsignedInt, "numCycles")];
     f_body := None;
     f_summary := [Txt "Sets the cycle parameters."];
     f_returns := Some ErrorCodeOrZero |}.

(* line 750 *)
Definition SC_GetCycleParamsBlock : func_decl :=
  {| f_api := Some "KCUBESOLENOID_API";
     f_ret := TShort;
     f_cc := Some Cdecl;
     f_name := "SC_GetCycleParamsBlock";
     f_params := [(TPtr (TConst TChar), "serialNo");
                   (TPtr (TNamed "SC_CycleParameters"), "cycleParams")];
     f_body := None;
     f_summary := [Txt "Gets the cycle parameters."];
     f_returns := Some ErrorCodeOrZero |}.

(* line 760 *)
Definition SC_SetCycleParamsBlock : func_decl :=
  {| f_api := Some "KCUBESOLENOID_API";
     f_ret := TShort;
     f_cc := Some Cdecl;
     f_name := "SC_SetCycleParamsBlock";
     f_params := [(TPtr (TConst TChar), "serialNo");
                   (TPtr (TNamed "SC_CycleParameters"), "cycleParams")];
     f_body := None;
     f_summary := [Txt "Sets the cycle parameters."];
     f_returns := Some ErrorCodeOrZero |}.

(* line 768 *)
Definition SC_RequestMMIParams : func_decl :=
  {| f_api := Some "KCUBESOLENOID_API";
     f_ret := TShort;
     f_cc := Some Cdecl;
     f_name := "SC_RequestMMIParams";
     f_params := [(TPtr (TConst TChar), "serialNo")];
     f_body := None;
     f_summary := [Txt "Requests the MMI Parameters for the KCube Display Interface."];
     f_returns := Some ErrorCodeOrZero |}.

(* line 780 *)
Definition SC_GetMMIParamsExt : func_decl :=
  {| f_api := Some "KCUBESOLENOID_API";
     f_ret := TShort;
     f_cc := Some Cdecl;
     f_name := "SC_GetMMIParamsExt";
     f_params := [(TPtr (TConst TChar), "serialNo");
                   (TPtr TInt16, "displayIntensity");
                   (TPtr TInt16, "displayTimeout");
                   (TPtr TInt16, "displayDimIntensity")];
     f_body := None;
     f_summary := [Txt "Get the MMI Parameters for the KCube Display Interface."];
     f_returns := Some ErrorCodeOrZero |}.

(* line 791 *)
Definition SC_GetMMIParams : func_decl :=
  {| f_api := Some "KCUBESOLENOID_API";
     f_ret := TShort;
     f_cc := Some Cdecl;
     f_name := "SC_GetMMIParams";
     f_params := [(TPtr (TConst TChar), "serialNo");
                   (TPtr TInt16, "displayIntensity")];
     f_body := None;
     f_summary := [Txt "Get the MMI Parameters for the KCube Display Interface."];
     f_returns := Some ErrorCodeOrZero |}.

(* line 803 *)
Definition SC_SetMMIParamsExt : func_decl :=
  {| f_api := Some "KCUBESOLENOID_API";
     f_ret := TShort;
     f_cc := Some Cdecl;
     f_name := "SC_SetMMIParamsExt";
     f_params := [(TPtr (TConst TChar), "serialNo");
                   (TInt16, "displayIntensity");
                   (TInt16, "displayTimeout");
                   (TInt16, "displayDimIntensity")];
     f_body := None;
     f_summary := [Txt "Set the MMI Parameters for the KCube Display Interface."];
     f_returns := Some ErrorCodeOrZero |}.

(* line 814 *)
Definition SC_SetMMIParams : func_decl :=
  {| f_api := Some "KCUBESOLENOID_API";
     f_ret := TShort;
     f_cc := Some Cdecl;
     f_name := "SC_SetMMIParams";
     f_params := [(TPtr (TConst TChar), "serialNo");
                   (TInt16, "displayIntensity")];
     f_body := None;
     f_summary := [Txt "Set the MMI Parameters for the KCube Display Interface."];
     f_returns := Some ErrorCodeOrZero |}.

(* line 824 *)
Definition SC_GetMMIParamsBlock : func_decl :=
  {| f_api := Some "KCUBESOLENOID_API";
     f_ret := TShort;
     f_cc := Some Cdecl;
     f_name := "SC_GetMMIParamsBlock";
     f_params := [(TPtr (TConst TChar), "serialNo");
                   (TPtr (TNamed "KSC_MMIParams"), "mmiParams")];
     f_body := None;
     f_summary := [Txt "Gets the MMI parameters for the device."];
     f_returns := Some ErrorCodeOrZero |}.

(* line 834 *)
Definition SC_SetMMIParamsBlock : func_decl :=
  {| f_api := Some "KCUBESOLENOID_API";
     f_ret := TShort;
     f_cc := Some Cdecl;
     f_name := "SC_SetMMIParamsBlock";
     f_params := [(TPtr (TConst TChar), "serialNo");
                   (TPtr (TNamed "KSC_MMIParams"), "mmiParams")];
     f_body := None;
     f_summary := [Txt "Sets the MMI parameters for the device."];
     f_returns := Some ErrorCodeOrZero |}.

(* line 843 *)
Definition SC_RequestTriggerConfigParams : func_decl :=
  {| f_api := Some "KCUBESOLENOID_API";
     f_ret := TShort;
     f_cc := Some Cdecl;
     f_name := "SC_RequestTriggerConfigParams";
     f_params := [(TPtr (TConst TChar), "serialNo")];
     f_body := None;
     f_summary := [Txt "Requests the Trigger Configuration Parameters."];
     f_returns := Some ErrorCodeOrZero |}.

(* line 870 *)
Definition SC_GetTriggerConfigParams : func_decl :=
  {| f_api := Some "KCUBESOLENOID_API";
     f_ret := TShort;
     f_cc := Some Cdecl;
     f_name := "SC_GetTriggerConfigParams";
     f_params := [(TPtr (TConst TChar), "serialNo");
                   (TPtr (TNamed "KSC_TriggerPortMode"), "trigger1Mode");
                   (TPtr (TNamed "KSC_TriggerPortPolarity"), "trigger1Polarity");
                   (TPtr (TNamed "KSC_TriggerPortMode"), "trigger2Mode");
                   (TPtr (TNamed "KSC_TriggerPortPolarity"), "trigger2Polarity")];
     f_body := None;
     f_summary := [Txt "Get the Trigger Configuration Parameters."];
     f_returns := Some ErrorCodeOrZero |}.

(* line 897 *)
Definition SC_SetTriggerConfigParams : func_decl :=
  {| f_api := Some "KCUBESOLENOID_API";
     f_ret := TShort;
     f_cc := Some Cdecl;
     f_name := "SC_SetTriggerConfigParams";
     f_params := [(TPtr (TConst TChar), "serialNo");
                   (TNamed "KSC_TriggerPortMode", "trigger1Mode");
                   (TNamed "KSC_TriggerPortPolarity", "trigger1Polarity");
                   (TNamed "KSC_TriggerPortMode", "trigger2Mode");
                   (TNamed "KSC_TriggerPortPolarity", "trigger2Polarity")];
     f_body := None;
     f_summary := [Txt "Set the Trigger Configuration Parameters."];
     f_returns := Some ErrorCodeOrZero |}.

(* line 907 *)
Definition SC_GetTriggerConfigParamsBlock : func_decl :=
  {| f_api := Some "KCUBESOLENOID_API";
     f_ret := TShort;
     f_cc := Some Cdecl;
     f_name := "SC_GetTriggerConfigParamsBlock";
     f_params := [(TPtr (TConst TChar), "serialNo");
                   (TPtr (TNamed "KSC_TriggerConfig"), "triggerConfigParams")];
     f_body := None;
     f_summary := [Txt "Gets the trigger configuration parameters block."];
     f_returns := Some ErrorCodeOrZero |}.

(* line 917 *)
Definition SC_SetTriggerConfigParamsBlock : func_decl :=
  {| f_api := Some "KCUBESOLENOID_API";
     f_ret := TShort;
     f_cc := Some Cdecl;
     f_name := "SC_SetTriggerConfigParamsBlock";
     f_params := [(TPtr (TConst TChar), "serialNo");
                   (TPtr (TNamed "KSC_TriggerConfig"), "triggerConfigParams")];
     f_body := None;
     f_summary := [Txt "Sets the trigger configuration parameters block."];
     f_returns := Some ErrorCodeOrZero |}.

(* line 924 *)
Definition SC_RequestDigitalOutputs : func_decl :=
  {| f_api := Some "KCUBESOLENOID_API";
     f_ret := TShort;
     f_cc := Some Cdecl;
     f_name := "SC_RequestDigitalOutputs";
     f_params := [(TPtr (TConst TChar), "serialNo")];
     f_body := None;
     f_summary := [Txt "Requests the digital output bits."];
     f_returns := Some ErrorCodeOrZero |}.

(* line 931 *)
Definition SC_GetDigitalOutputs : func_decl :=
  {| f_api := Some "KCUBESOLENOID_API";
     f_ret := TNamed "byte";
     f_cc := Some Cdecl;
     f_name := "SC_GetDigitalOutputs";
     f_params := [(TPtr (TConst TChar), "serialNo")];
     f_body := None;
     f_summary := [Txt "Gets the digital output bits."];
     f_returns := Some (Describes "Bit mask of states of the 4 digital output pins.") |}.

(* line 939 *)
Definition SC_SetDigitalOutputs : func_decl :=
  {| f_api := Some "KCUBESOLENOID_API";
     f_ret := TShort;
     f_cc := Some Cdecl;
     f_name := "SC_SetDigitalOutputs";
     f_params := [(TPtr (TConst TChar), "serialNo");
                   (TNamed "byte", "outputsBits")];
     f_body := None;
     f_summary := [Txt "Sets the digital output bits."];
     f_returns := Some ErrorCodeOrZero |}.

(** The header file, item by item. *)
Definition h : header :=
  {| h_prelude := [
       (8%nat, IfdefDefine "KCUBESOLENOIDDLL_EXPORTS" "KCUBESOLENOID_API" DllExport DllImport);
       (14%nat, Include "OaIdl.h");
       (16%nat, PragmaOnce) ];
     h_extern_c := [
       (38%nat, Enum FT_Status);
       (52%nat, Enum MOT_MotorTypes);
       (63%nat, PragmaPack (Some Pack1));
       (64%nat, Struct TLI_DeviceInfo);
       (101%nat, Struct TLI_HardwareInformation);
       (128%nat, Struct SC_CycleParameters);
       (142%nat, Enum SC_OperatingModes);
       (155%nat, Enum SC_OperatingStates);
       (175%nat, Enum SC_SolenoidStates);
       (182%nat, Enum KSC_TriggerPortMode);
       (190%nat, Enum KSC_TriggerPortPolarity);
       (198%nat, Struct KSC_MMIParams);
       (213%nat, Struct KSC_TriggerConfig);
       (253%nat, PragmaPack None);
       (267%nat, Func TLI_BuildDeviceList);
       (279%nat, Func TLI_GetDeviceListSize);
       (292%nat, Func TLI_GetDeviceList);
       (306%nat, Func TLI_GetDeviceListByType);
       (321%nat, Func TLI_GetDeviceListByTypes);
       (335%nat, Func TLI_GetDeviceListExt);
       (350%nat, Func TLI_GetDeviceListByTypeExt);
       (366%nat, Func TLI_GetDeviceListByTypesExt);
       (382%nat, Func TLI_GetDeviceInfo);
       (389%nat, Func SC_Open);
       (395%nat, Func SC_Close);
       (401%nat, Func SC_CheckConnection);
       (405%nat, Func SC_Identify);
       (412%nat, Func SC_RequestLEDswitches);
       (419%nat, Func SC_GetLEDswitches);
       (427%nat, Func SC_SetLEDswitches);
       (442%nat, Func SC_GetHardwareInfo);
       (450%nat, Func SC_GetHardwareInfoBlock);
       (456%nat, Func SC_RequestHubBay);
       (462%nat, Func SC_GetHubBay);
       (468%nat, Func SC_GetSoftwareVersion);
       (474%nat, Func SC_LoadSettings);
       (479%nat, Func SC_PersistSettings);
       (484%nat, Func SC_ClearMessageQueue);
       (493%nat, Func SC_RegisterMessageCallback);
       (502%nat, Func SC_MessageQueueSize);
       (514%nat, Func SC_GetNextMessage);
       (526%nat, Func SC_WaitForMessage);
       (536%nat, Func SC_StartPolling);
       (544%nat, Func SC_PollingDuration);
       (551%nat, Func SC_StopPolling);
       (561%nat, Func SC_TimeSinceLastMsgReceived);
       (571%nat, Func SC_EnableLastMsgTimer);
       (580%nat, Func SC_HasLastMsgTimerOverrun);
       (586%nat, Func SC_RequestSettings);
       (596%nat, Func SC_RequestStatus);
       (606%nat, Func SC_RequestStatusBits);
       (628%nat, Func SC_GetStatusBits);
       (635%nat, Func SC_RequestOperatingMode);
       (648%nat, Func SC_GetOperatingMode);
       (662%nat, Func SC_SetOperatingMode);
       (671%nat, Func SC_GetSolenoidState);
       (678%nat, Func SC_RequestOperatingState);
       (689%nat, Func SC_GetOperatingState);
       (701%nat, Func SC_SetOperatingState);
       (710%nat, Func SC_RequestCycleParams);
       (725%nat, Func SC_GetCycleParams);
       (740%nat, Func SC_SetCycleParams);
       (750%nat, Func SC_GetCycleParamsBlock);
       (760%nat, Func SC_SetCycleParamsBlock);
       (768%nat, Func SC_RequestMMIParams);
       (780%nat, Func SC_GetMMIParamsExt);
       (791%nat, Func SC_GetMMIParams);
       (803%nat, Func SC_SetMMIParamsExt);
       (814%nat, Func SC_SetMMIParams);
       (824%nat, Func SC_GetMMIParamsBlock);
       (834%nat, Func SC_SetMMIParamsBlock);
       (843%nat, Func SC_RequestTriggerConfigParams);
       (870%nat, Func SC_GetTriggerConfigParams);
       (897%nat, Func SC_SetTriggerConfigParams);
       (907%nat, Func SC_GetTriggerConfigParamsBlock);
       (917%nat, Func SC_SetTriggerConfigParamsBlock);
       (924%nat, Func SC_RequestDigitalOutputs);
       (931%nat, Func SC_GetDigitalOutputs);
       (939%nat, Func SC_SetDigitalOutputs) ] |}.

End Solenoid.

(** ** Reading the function surface *)

Module Surface.
Import CDecl.

Definition lower (c : ascii) : ascii :=
  let n := N_of_ascii c in
  if (N.leb 65 n && N.leb n 90)%bool then ascii_of_N (n + 32) else c.

Fixpoint lowercase (s : string) : string :=
  match s with
  | EmptyString => EmptyString
  | String c r => String (lower c) (lowercase r)
  end.

(** [mentions w s]: [s] contains the word [w], whatever the case. *)
Definition mentions (w s : string) : bool :=
  contains (lowercase w) (lowercase s).

Definition declares (h : header) (n : string) : bool :=
  mem n (names (functions h)).

(** The functions a header declares under the names [prefix ++ n],
    for [n] in [l]. *)
Definition declares_all (h : header) (prefix : string) (l : list string) : bool :=
  forallb (fun n => declares h (prefix ++ n)) l.

(** The device-list family: [TLI_BuildDeviceList] and the
    [TLI_GetDeviceList*] functions. *)
Definition discovery_family (h : header) : list string :=
  filter (fun n => starts_with "TLI_BuildDeviceList" n
                   || starts_with "TLI_GetDeviceList" n)
         (names (functions h)).

(** The parameters [X] for which both [prefix Get X] and [prefix Set X]
    are declared. *)
Definition getset_pairs (h : header) (prefix : string) : list string :=
  flat_map (fun n => match drop_prefix (prefix ++ "Get") n with
                     | Some x => if declares h (prefix ++ "Set" ++ x)
                                 then [x] else []
                     | None => []
                     end)
           (names (functions h)).

Definition takes_callback (f : func_decl) : bool :=
  existsb (fun p => match fst p with TFunPtr _ => true | _ => false end)
          (f_params f).

Definition returns_void (f : func_decl) : bool :=
  match f_ret f with TVoid => true | _ => false end.

Definition returns_short (f : func_decl) : bool :=
  match f_ret f with TShort => true | _ => false end.

Definition documents (r : returns_doc) (f : func_decl) : bool :=
  match f_returns f, r with
  | Some ErrorCodeOrZero, ErrorCodeOrZero => true
  | Some OneIfSuccessful, OneIfSuccessful => true
  | Some TrueIfSuccessful, TrueIfSuccessful => true
  | _, _ => false
  end.

Definition describes_value (f : func_decl) : bool :=
  match f_returns f with Some (Describes _) => true | _ => false end.

(** The number a status convention returns on success, and whether a
    returned number reports a failure under it. *)
Definition success_code (r : returns_doc) : option Z :=
  match r with
  | ErrorCodeOrZero => Some 0%Z
  | OneIfSuccessful => Some 1%Z
  | _ => None
  end.

Definition failure_code (r : returns_doc) : option Z :=
  match r with
  | OneIfSuccessful => Some 0%Z
  | _ => None
  end.

(** The value of an enumerator, by name. *)
Definition value_of (e : enum_decl) (n : string) : option Z :=
  option_map en_value
    (find (fun x => String.eqb (en_name x) n) (e_enumerators e)).

(** The enumerators as (remark, value), and as (name, value). *)
Definition meanings (e : enum_decl) : list (string * Z) :=
  map (fun x => (en_doc x, en_value x)) (e_enumerators e).

Definition values (e : enum_decl) : list (string * Z) :=
  map (fun x => (en_name x, en_value x)) (e_enumerators e).

(** Names of the enumerations and structures a header declares. *)
Definition type_names (h : header) : list string :=
  map e_name (enums h) ++ map s_name (structs h).

Definition shared_type_names (a b : header) : list string :=
  filter (fun n => mem n (type_names b)) (type_names a).

(** The five groups of calls of a device library whose functions carry
    [prefix]. *)
Record capability_groups (h : header) (prefix : string) : Prop := {
  cap_discovery :
    discovery_family h =
      ["TLI_BuildDeviceList"; "TLI_GetDeviceListSize"; "TLI_GetDeviceList";
       "TLI_GetDeviceListByType"; "TLI_GetDeviceListByTypes";
       "TLI_GetDeviceListExt"; "TLI_GetDeviceListByTypeExt";
       "TLI_GetDeviceListByTypesExt"];
  cap_connection :
    declares_all h prefix ["Open"; "Close"; "CheckConnection"] = true;
  cap_getset :
    getset_pairs h prefix <> [];
  cap_polling :
    declares_all h prefix ["StartPolling"; "StopPolling"; "PollingDuration"]
    = true;
  cap_queue :
    declares_all h prefix
      ["ClearMessageQueue"; "RegisterMessageCallback"; "MessageQueueSize";
       "GetNextMessage"; "WaitForMessage"] = true
}.

(** Every function of the header carries the import/export macro [macro]
    and [__cdecl], and [macro] stands for [__declspec(dllexport)] when
    [guard] is defined and for [__declspec(dllimport)] otherwise. *)
Record exported_cdecl (h : header) (macro guard : string) : Prop := {
  exp_marked :
    Forall (fun f => f_api f = Some macro /\ f_cc f = Some Cdecl)
           (functions_of (items h));
  exp_expand :
    forall defined : string -> bool,
      expand h defined macro
      = Some (if defined guard then DllExport else DllImport)
}.

(** The vendor's error taxonomy, as the remarks of [FT_Status] give it. *)
Definition error_taxonomy : list (string * Z) :=
  [("OK - no error.", 0); ("Invalid handle.", 1); ("Device not found.", 2);
   ("Device not opened.", 3); ("I/O error.", 4);
   ("Insufficient resources.", 5); ("Invalid parameter.", 6);
   ("Device not present.", 7); ("Incorrect device.", 8)]%Z.

Definition nonzero_codes (e : enum_decl) : list Z :=
  filter (fun v => negb (Z.eqb v 0)) (map en_value (e_enumerators e)).

(** [TLI_GetDeviceInfo] returns [short] and documents 1 for success and
    0 for failure; it is the only function of the header that does; and
    every other function returning [short] documents the error code
    convention or describes a returned value. *)
Record inverted_status (h : header) : Prop := {
  inv_contract :
    exists f, find_function h "TLI_GetDeviceInfo" = Some f
              /\ f_ret f = TShort
              /\ f_returns f = Some OneIfSuccessful;
  inv_unique :
    names (filter (documents OneIfSuccessful) (functions h))
    = ["TLI_GetDeviceInfo"];
  inv_others :
    Forall (fun f => f_name f = "TLI_GetDeviceInfo"
                     \/ f_returns f = Some ErrorCodeOrZero
                     \/ describes_value f = true)
           (filter returns_short (functions h));
  inv_error_codes_are_short :
    forallb returns_short (filter (documents ErrorCodeOrZero) (functions h))
    = true
}.

(** The operations declared [void] are those named [prefix ++ n] for [n]
    in [l], all of them are declared, and none of them documents a
    returned value, while each of the others does. *)
Record void_operations (h : header) (prefix : string) (l : list string)
  : Prop := {
  void_exact :
    Forall (fun f => returns_void f
                     = mem (f_name f) (map (String.append prefix) l))
           (functions h);
  void_declared :
    declares_all h prefix l = true;
  void_silent :
    Forall (fun f => f_returns f = None) (filter returns_void (functions h));
  void_others :
    Forall (fun f => f_returns f <> None)
           (filter (fun f => negb (returns_void f)) (functions h))
}.

End Surface.

(** ** Reading the declarations as an interface *)

Module Interface.
Import CDecl Layout Surface.

(** *** Names *)

Fixpoint nodupb (l : list string) : bool :=
  match l with
  | [] => true
  | x :: r => negb (mem x r) && nodupb r
  end.

Definition enumerator_names (h : header) : list string :=
  flat_map (fun e => map en_name (e_enumerators e)) (enums h).

(** *** Type names and where they are declared *)

Fixpoint named_in (t : ctype) : list string :=
  match t with
  | TNamed n => [n]
  | TConst u | TPtr u | TRef u | TFunPtr u => named_in u
  | _ => []
  end.

(** The type names an item refers to. *)
Definition mentioned_types (i : item) : list string :=
  match i with
  | Enum e => match e_underlying e with Some u => named_in u | None => [] end
  | Struct s => flat_map (fun f => named_in (fld_type f)) (s_fields s)
  | Func f => named_in (f_ret f)
              ++ flat_map (fun p => named_in (fst p)) (f_params f)
  | _ => []
  end.

(** The names both headers take from the Windows SDK by way of
    [#include <OaIdl.h>]. *)
Definition sdk_names : list string :=
  ["DWORD"; "WORD"; "BYTE"; "byte"; "SAFEARRAY"].

Definition declared_name (i : item) : option string :=
  match i with
  | Enum e => Some (e_name e)
  | Struct s => Some (s_name s)
  | _ => None
  end.

(** [n] is declared by an item of [h] that starts before [line]. *)
Definition declared_before (h : header) (line : nat) (n : string) : bool :=
  existsb (fun li => Nat.ltb (fst li) line
                     && match declared_name (snd li) with
                        | Some m => String.eqb m n
                        | None => false
                        end)
          (items h).

Definition included_before (h : header) (line : nat) (file : string) : bool :=
  existsb (fun li => Nat.ltb (fst li) line
                     && match snd li with
                        | Include f => String.eqb f file
                        | _ => false
                        end)
          (items h).

(** A type name is in scope at [line]: it is an SDK name and the include
    precedes, or the header declares it earlier. *)
Definition in_scope (h : header) (line : nat) (n : string) : bool :=
  (mem n sdk_names && included_before h line "OaIdl.h")
  || declared_before h line n.

Definition well_scoped (h : header) : bool :=
  forallb (fun li => forallb (in_scope h (fst li)) (mentioned_types (snd li)))
          (items h).

(** The declared types some structure field or function signature uses. *)
Definition used_types (h : header) : list string :=
  flat_map (fun li => match snd li with
                      | Enum _ => []
                      | i => mentioned_types i
                      end) (items h).

Definition unused_types (h : header) : list string :=
  filter (fun n => negb (mem n (used_types h))) (type_names h).

(** *** Enumerations as codes *)

(** The enumerator that has value [v]. *)
Definition name_of (e : enum_decl) (v : Z) : option string :=
  option_map en_name
    (find (fun x => Z.eqb (en_value x) v) (e_enumerators e)).

(** Values an integral type holds (Microsoft compiler). *)
Definition integral_range (t : ctype) : option (Z * Z) :=
  match t with
  | TBool => Some (0, 1)
  | TChar => Some (-128, 127)
  | TShort | TInt16 => Some (-32768, 32767)
  | TUnsignedShort => Some (0, 65535)
  | TInt | TLong | TInt32 => Some (-2147483648, 2147483647)
  | TUnsignedInt => Some (0, 4294967295)
  | TInt64 => Some (-9223372036854775808, 9223372036854775807)
  | TNamed n =>
      if String.eqb n "DWORD" then Some (0, 4294967295)
      else if String.eqb n "WORD" then Some (0, 65535)
      else if String.eqb n "BYTE" then Some (0, 255)
      else if String.eqb n "byte" then Some (0, 255)
      else None
  | _ => None
  end%Z.

Definition enum_range (e : enum_decl) : option (Z * Z) :=
  match e_underlying e with
  | None => integral_range TInt
  | Some u => integral_range u
  end.

Definition in_enum_range (e : enum_decl) (v : Z) : bool :=
  match enum_range e with
  | Some (lo, hi) => (Z.leb lo v && Z.leb v hi)%bool
  | None => false
  end.

Definition decodes (e : enum_decl) (x : enumerator) : bool :=
  match name_of e (en_value x), value_of e (en_name x) with
  | Some n, Some v => String.eqb n (en_name x) && Z.eqb v (en_value x)
  | _, _ => false
  end.

(** *** Signatures *)

Fixpoint ctype_eqb (a b : ctype) : bool :=
  match a, b with
  | TVoid, TVoid | TBool, TBool | TChar, TChar | TShort, TShort
  | TInt, TInt | TLong, TLong | TUnsignedShort, TUnsignedShort
  | TUnsignedInt, TUnsignedInt | TInt16, TInt16 | TInt32, TInt32
  | TInt64, TInt64 => true
  | TNamed n, TNamed m => String.eqb n m
  | TConst u, TConst v | TPtr u, TPtr v | TRef u, TRef v
  | TFunPtr u, TFunPtr v => ctype_eqb u v
  | _, _ => false
  end.

Definition param_eqb (p q : ctype * string) : bool :=
  ctype_eqb (fst p) (fst q) && String.eqb (snd p) (snd q).

Fixpoint params_eqb (l m : list (ctype * string)) : bool :=
  match l, m with
  | [], [] => true
  | p :: l', q :: m' => param_eqb p q && params_eqb l' m'
  | _, _ => false
  end.

(** The parameter by which every device call names its device. *)
Definition serial_param : ctype * string := (TPtr (TConst TChar), "serialNo").

Definition takes_serial (f : func_decl) : bool :=
  match f_params f with
  | p :: _ => param_eqb p serial_param
  | [] => false
  end.

(** The parameters behind the first one. *)
Definition value_params (f : func_decl) : list (ctype * string) :=
  tl (f_params f).

Definition has_prefix (prefix : string) (f : func_decl) : bool :=
  starts_with prefix (f_name f).

Fixpoint has_const (t : ctype) : bool :=
  match t with
  | TConst _ => true
  | TPtr u | TRef u | TFunPtr u => has_const u
  | _ => false
  end.

Definition is_reference (t : ctype) : bool :=
  match t with TRef _ => true | _ => false end.

Definition is_indirection (t : ctype) : bool :=
  match t with TPtr _ | TRef _ | TFunPtr _ => true | _ => false end.

(** A type is passed by value in at most 4 bytes. *)
Definition small_scalar (h : header) (t : ctype) : bool :=
  match sizeof h t with
  | Some k => N.leb k 4
  | None => false
  end.

(** *** Getters and setters *)

(** How a [Get] call hands out what the [Set] call takes: as its returned
    value, through pointers to the same types under the same names, or in
    a structure both calls take by pointer. *)
Inductive accessor_shape : Type := ByReturn | ByPointers | ByBlock.

Inductive mirrors (h : header) (g s : func_decl) : accessor_shape -> Prop :=
| mirrors_return (n : string) :
    value_params g = [] ->
    value_params s = [(f_ret g, n)] ->
    mirrors h g s ByReturn
| mirrors_pointers :
    value_params s <> [] ->
    value_params g = map (fun p => (TPtr (fst p), snd p)) (value_params s) ->
    mirrors h g s ByPointers
| mirrors_block (n p : string) (st : struct_decl) :
    find_struct h n = Some st ->
    value_params g = [(TPtr (TNamed n), p)] ->
    value_params s = [(TPtr (TNamed n), p)] ->
    mirrors h g s ByBlock.

Definition shape_of (h : header) (g s : func_decl) : option accessor_shape :=
  match value_params g, value_params s with
  | [], [(t, _)] => if ctype_eqb t (f_ret g) then Some ByReturn else None
  | [(TPtr (TNamed n), p)], [(TPtr (TNamed m), q)] =>
      match find_struct h n with
      | Some _ => if String.eqb n m && String.eqb p q
                  then Some ByBlock else None
      | None => None
      end
  | gp, (_ :: _) as sp =>
      if params_eqb gp (map (fun p => (TPtr (fst p), snd p)) sp)
      then Some ByPointers else None
  | _, _ => None
  end.

(** *** The calls two libraries have in common *)

Definition suffixes (h : header) (prefix : string) : list string :=
  flat_map (fun n => match drop_prefix prefix n with
                     | Some x => [x]
                     | None => []
                     end)
           (names (functions h)).

Definition common_suffixes (a : header) (pa : string) (b : header)
    (pb : string) : list string :=
  filter (fun x => mem x (suffixes b pb)) (suffixes a pa).

Definition same_signature (f g : func_decl) : Prop :=
  f_ret f = f_ret g /\ f_params f = f_params g.

Definition same_signatureb (f g : func_decl) : bool :=
  ctype_eqb (f_ret f) (f_ret g) && params_eqb (f_params f) (f_params g).

(** The common calls whose signatures differ. *)
Definition differing (a : header) (pa : string) (b : header) (pb : string)
  : list string :=
  filter (fun x => match find_function a (pa ++ x),
                         find_function b (pb ++ x) with
                   | Some f, Some g => negb (same_signatureb f g)
                   | _, _ => true
                   end)
         (common_suffixes a pa b pb).

(** *** Properties of a header, stated for its prefix *)

(** Every call with the device prefix, and [TLI_GetDeviceInfo], names its
    device by the serial number in first position; the calls without it
    are the device-list family. *)
Definition addressed_by_serial (h : header) (prefix : string) : Prop :=
  Forall (fun f => hd_error (f_params f) = Some serial_param)
         (filter (fun f => has_prefix prefix f
                           || String.eqb (f_name f) "TLI_GetDeviceInfo")
                 (functions h))
  /\ names (filter (fun f => negb (takes_serial f)) (functions h))
     = discovery_family h.

(** Every [Request] call takes the serial number alone and returns an
    error code. *)
Definition requests_uniform (h : header) (prefix : string) : Prop :=
  Forall (fun f => f_ret f = TShort
                   /\ f_params f = [serial_param]
                   /\ f_returns f = Some ErrorCodeOrZero)
         (filter (has_prefix (prefix ++ "Request")) (functions h)).

(** Nothing larger than 4 bytes is passed or returned by value. *)
Definition word_sized (h : header) (f : func_decl) : bool :=
  (returns_void f || small_scalar h (f_ret f))
  && forallb (fun p => is_indirection (fst p) || small_scalar h (fst p))
             (f_params f).

Definition by_value_small (h : header) : Prop :=
  Forall (fun f =>
            (f_ret f = TVoid \/ small_scalar h (f_ret f) = true)
            /\ Forall (fun p => is_indirection (fst p) = true
                                \/ small_scalar h (fst p) = true)
                      (f_params f))
         (functions h).

Definition takes_reference (f : func_decl) : bool :=
  existsb (fun p => is_reference (fst p)) (f_params f).

(** A cross reference resolves when the header declares a function or a
    type of that name. *)
Definition resolves (h : header) (n : string) : bool :=
  declares h n || mem n (type_names h).

Definition dangling (h : header) (refs : list (nat * string))
  : list (nat * string) :=
  filter (fun r => negb (resolves h (snd r))) refs.

End Interface.

(** ** The documentation comments *)

Module Documentation.
Import CDecl Layout Surface Interface.

(** *** Comments as token lists *)

(** The documentation comment in front of a function, read from left to
    right: text (white space collapsed), opening tags [<t k=v>], empty
    tags [<t k=v />], closing tags [</t>], page references
    [\ref page 'title'] and [\include file]. *)
Inductive doc_token : Type :=
| DText (s : string)
| DOpen (tag : string) (attr : option (string * string))
| DEmpty (tag : string) (attr : option (string * string))
| DClose (tag : string)
| DRef (page title : string)
| DInclude (file : string).

Record comment : Type := {
  c_function : string;
  c_line : nat;                 (* first line of the comment *)
  c_tokens : list doc_token
}.

Definition comment_of (cs : list comment) (n : string) : option comment :=
  find (fun c => String.eqb (c_function c) n) cs.

(** Everything a token says: its text, the value of its attribute, page
    and title of a reference, the included file. *)
Definition token_texts (t : doc_token) : list string :=
  match t with
  | DText s => [s]
  | DOpen _ (Some (_, v)) | DEmpty _ (Some (_, v)) => [v]
  | DRef p ti => [p; ti]
  | DInclude f => [f]
  | _ => []
  end.

(** The elements a comment is made of. *)
Definition element_tags : list string :=
  ["summary"; "remarks"; "param"; "returns"].

(** Every token with the element it stands in: one of [element_tags],
    [seealso] for a [<seealso />] tag, or the empty string outside of
    all elements.  [cur] is the element open so far. *)
Fixpoint elements_from (cur : string) (ts : list doc_token)
  : list (string * doc_token) :=
  match ts with
  | [] => []
  | t :: r =>
      match t with
      | DOpen tag _ =>
          if mem tag element_tags
          then (tag, t) :: elements_from tag r
          else (cur, t) :: elements_from cur r
      | DClose tag =>
          if mem tag element_tags
          then (cur, t) :: elements_from "" r
          else (cur, t) :: elements_from cur r
      | DEmpty tag _ =>
          if String.eqb tag "seealso"
          then ("seealso", t) :: elements_from cur r
          else (cur, t) :: elements_from cur r
      | _ => (cur, t) :: elements_from cur r
      end
  end.

Definition elements (c : comment) : list (string * doc_token) :=
  elements_from "" (c_tokens c).

(** [w] occurs somewhere in the comment, whatever the case. *)
Definition mentioned (w : string) (c : comment) : bool :=
  existsb (fun t => existsb (mentions w) (token_texts t)) (c_tokens c).

(** [w] occurs in one of the elements [els]. *)
Definition mentioned_in (els : list string) (w : string) (c : comment) : bool :=
  existsb (fun et => mem (fst et) els
                     && existsb (mentions w) (token_texts (snd et)))
          (elements c).

(** The cross references of a comment, by the name in front of the
    parameter list. *)
Fixpoint before_paren (s : string) : string :=
  match s with
  | EmptyString => EmptyString
  | String c r => if Ascii.eqb c "("%char then EmptyString
                  else String c (before_paren r)
  end.

Definition cref_of (t : doc_token) : option string :=
  match t with
  | DOpen _ (Some (k, v)) | DEmpty _ (Some (k, v)) =>
      if String.eqb k "cref" then Some (before_paren v) else None
  | _ => None
  end.

Definition cref_names (c : comment) : list string :=
  flat_map (fun t => match cref_of t with Some n => [n] | None => [] end)
           (c_tokens c).

(** The summary of a comment as [func_decl] keeps it. *)
Definition summary_of (c : comment) : list doc_frag :=
  flat_map (fun et =>
              if String.eqb (fst et) "summary"
              then match snd et with
                   | DText s => [Txt s]
                   | DEmpty _ (Some (_, v)) => [See v]
                   | _ => []
                   end
              else [])
           (elements c).

(** *** What the documentation ties a function to *)

(** [w] occurs in what says what the function is, takes and returns: its
    name, the names of its parameters, and the summary, the parameter
    descriptions and the description of the returned value. *)
Definition described_as (cs : list comment) (w : string) (f : func_decl)
  : bool :=
  mentions w (f_name f)
  || existsb (fun p => mentions w (snd p)) (f_params f)
  || match comment_of cs (f_name f) with
     | Some c => mentioned_in ["summary"; "param"; "returns"] w c
     | None => false
     end.

(** [w] occurs anywhere: in the name, in a parameter name or in any
    token of the comment, remarks and cross references included. *)
Definition tied_to (cs : list comment) (w : string) (f : func_decl) : bool :=
  mentions w (f_name f)
  || existsb (fun p => mentions w (snd p)) (f_params f)
  || match comment_of cs (f_name f) with
     | Some c => mentioned w c
     | None => false
     end.

(** The two remarks by which comments of other functions point to the
    polling calls: the function is what polling calls by itself, or it
    returns the latest value, which polling is one way to refresh. *)
Inductive polling_remark : Type := CalledByPolling | RefreshedByPolling.

Definition polling_remark_of (c : comment) : option polling_remark :=
  if mentioned_in ["remarks"]
       "this is called automatically if Polling is enabled" c
  then Some CalledByPolling
  else if mentioned_in ["remarks"] "or use the polling functions" c
  then Some RefreshedByPolling
  else None.

(** A function that is no polling call but whose comment points to
    polling: it takes the serial number alone, nothing that describes it
    mentions polling, its remarks carry one of the two remarks above, and
    the only polling call its comment cross-references is
    [StartPolling]. *)
Definition points_to_polling (cs : list comment) (prefix : string)
    (f : func_decl) : Prop :=
  exists c role,
    comment_of cs (f_name f) = Some c
    /\ polling_remark_of c = Some role
    /\ described_as cs "poll" f = false
    /\ f_params f = [serial_param]
    /\ Forall (fun n => n = prefix ++ "StartPolling")
              (filter (mentions "poll") (cref_names c)).

Definition points_to_pollingb (cs : list comment) (prefix : string)
    (f : func_decl) : bool :=
  match comment_of cs (f_name f) with
  | Some c =>
      match polling_remark_of c with
      | Some _ =>
          negb (described_as cs "poll" f)
          && params_eqb (f_params f) [serial_param]
          && forallb (fun n => String.eqb n (prefix ++ "StartPolling"))
                     (filter (mentions "poll") (cref_names c))
      | None => false
      end
  | None => false
  end.

(** The message-queue and polling calls of a device library whose
    functions carry [prefix]; [others] are the functions outside the
    polling calls whose comments point to polling. *)
Record queue_and_polling_calls (h : header) (cs : list comment)
    (prefix : string) (others : list string) : Prop := {
  (* every function has its comment *)
  qc_documented :
    map c_function cs = names (functions h);
  (* one function takes a callback, and one is described as doing so *)
  qc_callback :
    names (filter (fun f => takes_callback f || described_as cs "callback" f)
                  (functions h))
    = [prefix ++ "RegisterMessageCallback"];
  (* the functions tied to the queue by anything at all *)
  qc_queue :
    names (filter (tied_to cs "queue") (functions h))
    = map (String.append prefix)
          ["ClearMessageQueue"; "RegisterMessageCallback"; "MessageQueueSize";
           "GetNextMessage"; "WaitForMessage"];
  (* the functions tied to messages by anything at all: those five and
     the three of the last-message timer, which the line above shows not
     to be tied to the queue *)
  qc_messages :
    names (filter (fun f => tied_to cs "messag" f || tied_to cs "msg" f
                            || tied_to cs "callback" f)
                  (functions h))
    = map (String.append prefix)
          ["ClearMessageQueue"; "RegisterMessageCallback"; "MessageQueueSize";
           "GetNextMessage"; "WaitForMessage"; "TimeSinceLastMsgReceived";
           "EnableLastMsgTimer"; "HasLastMsgTimerOverrun"];
  (* the functions described as polling calls *)
  qc_polling :
    names (filter (described_as cs "poll") (functions h))
    = map (String.append prefix)
          ["StartPolling"; "PollingDuration"; "StopPolling"];
  (* every other function tied to polling by anything at all *)
  qc_polling_others :
    names (filter (fun f => tied_to cs "poll" f
                            && negb (described_as cs "poll" f))
                  (functions h))
    = map (String.append prefix) others;
  qc_others_point :
    Forall (fun n => exists f, find_function h (prefix ++ n) = Some f
                               /\ points_to_polling cs prefix f)
           others;
  (* of all functions tied to polling one takes a value: the interval *)
  qc_interval :
    map (fun f => (f_name f, value_params f))
        (filter (fun f => tied_to cs "poll" f
                          && negb (params_eqb (f_params f) [serial_param]))
                (functions h))
    = [(prefix ++ "StartPolling", [(TInt, "milliseconds")])]
}.

(** *** Setters and their getters *)

(** The parameters [X] with a call [prefix Set X]. *)
Definition setters (h : header) (prefix : string) : list string :=
  suffixes h (prefix ++ "Set").

(** The getter of [prefix Set X]: [prefix Get X], or [prefix Get X Set]
    where that is not declared (as for [LS_SetPower], whose getter is
    [LS_GetPowerSet]). *)
Definition getter_for (h : header) (prefix x : string) : option func_decl :=
  match find_function h (prefix ++ "Get" ++ x) with
  | Some g => Some g
  | None => find_function h (prefix ++ "Get" ++ x ++ "Set")
  end.

(** Every setter has a getter that mirrors it in one of the three
    shapes and whose comment cross-references the setter, and the setter
    returns an error code. *)
Definition setters_mirrored (h : header) (cs : list comment)
    (prefix : string) : Prop :=
  Forall (fun x => exists g s sh c,
              getter_for h prefix x = Some g
              /\ find_function h (prefix ++ "Set" ++ x) = Some s
              /\ mirrors h g s sh
              /\ f_ret s = TShort
              /\ f_returns s = Some ErrorCodeOrZero
              /\ comment_of cs (f_name g) = Some c
              /\ In (f_name s) (cref_names c))
         (setters h prefix).

Definition setter_ok (h : header) (cs : list comment) (prefix x : string)
  : bool :=
  match getter_for h prefix x, find_function h (prefix ++ "Set" ++ x) with
  | Some g, Some s =>
      match shape_of h g s, comment_of cs (f_name g) with
      | Some _, Some c =>
          returns_short s && documents ErrorCodeOrZero s
          && mem (f_name s) (cref_names c)
      | _, _ => false
      end
  | _, _ => false
  end.

(** Setter, getter and shape, for every setter. *)
Definition setter_shapes (h : header) (prefix : string)
  : list (string * option string * option accessor_shape) :=
  map (fun x =>
         (prefix ++ "Set" ++ x,
          option_map f_name (getter_for h prefix x),
          match getter_for h prefix x,
                find_function h (prefix ++ "Set" ++ x) with
          | Some g, Some s => shape_of h g s
          | _, _ => None
          end))
      (setters h prefix).

(** *** Tables of the documentation comments *)

(** What a table documents: a structure field, a parameter or the
    returned value of a function, or an enumerator. *)
Inductive doc_target : Type :=
| OfField (structure field : string)
| OfParam (function parameter : string)
| OfReturn (function : string)
| OfEnumerator (enumeration enumerator : string).

(** A row [<item><term>a</term><term>b</term>c</item>]: the two terms
    and the text outside of them, markup removed and white space
    collapsed. *)
Record table_row : Type := {
  r_first : string;
  r_second : string;
  r_rest : string
}.

(** A [<list type=table>] with the line it starts at. *)
Record doc_table : Type := {
  dt_line : nat;
  dt_target : doc_target;
  dt_rows : list table_row
}.

Definition digit_of (c : ascii) : option Z :=
  let n := Z.of_N (N_of_ascii c) in
  if (Z.leb 48 n && Z.leb n 57)%bool then Some (n - 48)%Z else None.

Definition hex_digit_of (c : ascii) : option Z :=
  let n := Z.of_N (N_of_ascii c) in
  if (Z.leb 48 n && Z.leb n 57)%bool then Some (n - 48)%Z
  else if (Z.leb 65 n && Z.leb n 70)%bool then Some (n - 55)%Z
  else if (Z.leb 97 n && Z.leb n 102)%bool then Some (n - 87)%Z
  else None.

Fixpoint parse_digits (base : Z) (digit : ascii -> option Z) (s : string)
    (acc : Z) : option Z :=
  match s with
  | EmptyString => Some acc
  | String c r =>
      match digit c with
      | Some d => parse_digits base digit r (acc * base + d)%Z
      | None => None
      end
  end.

(** A decimal number, or a hexadecimal one behind [0x]. *)
Definition parse_number (s : string) : option Z :=
  match drop_prefix "0x" s with
  | Some EmptyString => None
  | Some r => parse_digits 16 hex_digit_of r 0
  | None =>
      match s with
      | EmptyString => None
      | _ => parse_digits 10 digit_of s 0
      end
  end.

(** The number of a row: the text outside the terms, else the second
    term, else the first, whichever is a number. *)
Definition row_value (r : table_row) : option Z :=
  match parse_number (r_rest r) with
  | Some v => Some v
  | None =>
      match parse_number (r_second r) with
      | Some v => Some v
      | None => parse_number (r_first r)
      end
  end.

Definition numbered (t : doc_table) : bool :=
  existsb (fun r => match row_value r with Some _ => true | None => false end)
          (dt_rows t).

Definition target_type (h : header) (t : doc_target) : option ctype :=
  match t with
  | OfField s f =>
      match find_struct h s with
      | Some st => option_map fld_type
                     (find (fun x => String.eqb (fld_name x) f) (s_fields st))
      | None => None
      end
  | OfParam fn p =>
      match find_function h fn with
      | Some f => option_map fst
                    (find (fun x => String.eqb (snd x) p) (f_params f))
      | None => None
      end
  | OfReturn fn => option_map f_ret (find_function h fn)
  | OfEnumerator _ _ => None
  end.

(** The enumeration a target is typed by, directly or through a pointer. *)
Definition target_enum (h : header) (t : doc_target) : option enum_decl :=
  match target_type h t with
  | Some (TNamed n) | Some (TPtr (TNamed n)) => find_enum h n
  | _ => None
  end.

(** What a table is found to list: the values of the enumeration that
    types its target, row by row in the order of the enumerators; or,
    the target being of an integral type, numbers of that type (rows
    without a number aside); or no number at all. *)
Inductive table_reading (h : header) (t : doc_table) : Prop :=
| lists_enumeration (e : enum_decl) :
    target_enum h (dt_target t) = Some e ->
    map row_value (dt_rows t)
    = map (fun x => Some (en_value x)) (e_enumerators e) ->
    table_reading h t
| lists_integers (ty : ctype) (lo hi : Z) :
    target_enum h (dt_target t) = None ->
    target_type h (dt_target t) = Some ty ->
    integral_range ty = Some (lo, hi) ->
    numbered t = true ->
    Forall (fun r => forall v, row_value r = Some v -> (lo <= v <= hi)%Z)
           (dt_rows t) ->
    table_reading h t
| lists_text :
    target_type h (dt_target t) = None ->
    numbered t = false ->
    table_reading h t.

Fixpoint opt_values_eqb (l m : list (option Z)) : bool :=
  match l, m with
  | [], [] => true
  | Some x :: l', Some y :: m' => Z.eqb x y && opt_values_eqb l' m'
  | None :: l', None :: m' => opt_values_eqb l' m'
  | _, _ => false
  end.

Definition table_ok (h : header) (t : doc_table) : bool :=
  match target_enum h (dt_target t) with
  | Some e =>
      opt_values_eqb (map row_value (dt_rows t))
                     (map (fun x => Some (en_value x)) (e_enumerators e))
  | None =>
      match target_type h (dt_target t) with
      | Some ty =>
          match integral_range ty with
          | Some (lo, hi) =>
              numbered t
              && forallb (fun r => match row_value r with
                                   | Some v => Z.leb lo v && Z.leb v hi
                                   | None => true
                                   end) (dt_rows t)
          | None => false
          end
      | None => negb (numbered t)
      end
  end.

(** The tables whose target no enumeration types. *)
Definition untyped_tables (h : header) (ts : list doc_table)
  : list (nat * doc_target) :=
  map (fun t => (dt_line t, dt_target t))
      (filter (fun t => match target_enum h (dt_target t) with
                        | Some _ => false
                        | None => true
                        end) ts).

Definition table_at (ts : list doc_table) (line : nat) : option doc_table :=
  find (fun t => Nat.eqb (dt_line t) line) ts.

(** The numbers of a table, rows without a number left out. *)
Definition table_numbers (t : doc_table) : list Z :=
  flat_map (fun r => match row_value r with Some v => [v] | None => [] end)
           (dt_rows t).

(** Masks of one bit each, in increasing order. *)
Definition single_bit (v : Z) : bool :=
  (Z.ltb 0 v && Z.eqb (Z.land v (v - 1)) 0)%bool.

Fixpoint increasing (l : list Z) : bool :=
  match l with
  | x :: ((y :: _) as r) => Z.ltb x y && increasing r
  | _ => true
  end.

(** Text without its blanks, to compare two transcriptions of a
    summary whatever white space they keep at the ends of a fragment. *)
Fixpoint squeeze (s : string) : string :=
  match s with
  | EmptyString => EmptyString
  | String c r => if Ascii.eqb c " "%char then squeeze r
                  else String c (squeeze r)
  end.

Definition frag_text (d : list doc_frag) : string :=
  squeeze (String.concat ""
             (map (fun x => match x with Txt t => t | See r => r end) d)).

End Documentation.

(** ** The documentation comments of [Thorlabs.MotionControl.KCube.LaserSource.h] *)

Module LaserSourceDocs.
Import CDecl Interface Documentation.
Local Open Scope Z_scope.

(** Every [<list type=table>] of the file. *)
Definition tables : list doc_table :=
  [
    {| dt_line := 79; dt_target := OfField "TLI_DeviceInfo" "motorType";
       dt_rows := [
         {| r_first := "MOT_NotMotor"; r_second := "0"; r_rest := "" |};
         {| r_first := "MOT_DCMotor"; r_second := "1"; r_rest := "" |};
         {| r_first := "MOT_StepperMotor"; r_second := "2"; r_rest := "" |};
         {| r_first := "MOT_BrushlessMotor"; r_second := "3"; r_rest := "" |};
         {| r_first := "MOT_CustomMotor"; r_second := "100"; r_rest := "" |} ] |};
    {| dt_line := 177; dt_target := OfField "KLS_TrigIOParams" "mode1";
       dt_rows := [
         {| r_first := "Disabled"; r_second := ""; r_rest := "0" |};
         {| r_first := "General Input"; r_second := ""; r_rest := "1" |};
         {| r_first := "Modulation Trigger"; r_second := ""; r_rest := "2" |};
         {| r_first := "Set Power Trigger"; r_second := ""; r_rest := "3" |};
         {| r_first := "General Output"; r_second := ""; r_rest := "10" |};
         {| r_first := "Laser Output On"; r_second := ""; r_rest := "11" |};
         {| r_first := "Interlock enabled"; r_second := ""; r_rest := "12" |};
         {| r_first := "Set Power changed"; r_second := ""; r_rest := "13" |};
         {| r_first := "High Stability Out"; r_second := ""; r_rest := "14" |};
         {| r_first := "Low Stability Out"; r_second := ""; r_rest := "15" |} ] |};
    {| dt_line := 190; dt_target := OfField "KLS_TrigIOParams" "polarity1";
       dt_rows := [
         {| r_first := "Active High"; r_second := ""; r_rest := "1" |};
         {| r_first := "Active Low"; r_second := ""; r_rest := "2" |} ] |};
    {| dt_line := 197; dt_target := OfField "KLS_TrigIOParams" "mode2";
       dt_rows := [
         {| r_first := "Disabled"; r_second := ""; r_rest := "0" |};
         {| r_first := "General Input"; r_second := ""; r_rest := "1" |};
         {| r_first := "Modulation Trigger"; r_second := ""; r_rest := "2" |};
         {| r_first := "Set Power Trigger"; r_second := ""; r_rest := "3" |};
         {| r_first := "General Output"; r_second := ""; r_rest := "10" |};
         {| r_first := "Laser Output On"; r_second := ""; r_rest := "11" |};
         {| r_first := "Interlock enabled"; r_second := ""; r_rest := "12" |};
         {| r_first := "Set Power changed"; r_second := ""; r_rest := "13" |};
         {| r_first := "High Stability Out"; r_second := ""; r_rest := "14" |};
         {| r_first := "Low Stability Out"; r_second := ""; r_rest := "15" |} ] |};
    {| dt_line := 210; dt_target := OfField "KLS_TrigIOParams" "polarity2";
       dt_rows := [
         {| r_first := "Active High"; r_second := ""; r_rest := "1" |};
         {| r_first := "Active Low"; r_second := ""; r_rest := "2" |} ] |};
    {| dt_line := 499; dt_target := OfReturn "LS_GetControlSource";
       dt_rows := [
         {| r_first := "Software only"; r_second := ""; r_rest := "0" |};
         {| r_first := "External signal"; r_second := ""; r_rest := "1" |};
         {| r_first := "Potentiometer"; r_second := ""; r_rest := "4" |} ] |};
    {| dt_line := 511; dt_target := OfParam "LS_SetControlSource" "source";
       dt_rows := [
         {| r_first := "Software only"; r_second := ""; r_rest := "0" |};
         {| r_first := "External signal"; r_second := ""; r_rest := "1" |};
         {| r_first := "Potentiometer"; r_second := ""; r_rest := "4" |} ] |};
    {| dt_line := 578; dt_target := OfParam "LS_GetOPMode" "mode";
       dt_rows := [
         {| r_first := "Constant Power"; r_second := ""; r_rest := "0" |};
         {| r_first := "Constant Current"; r_second := ""; r_rest := "1" |} ] |};
    {| dt_line := 589; dt_target := OfParam "LS_SetOPMode" "mode";
       dt_rows := [
         {| r_first := "Constant Power"; r_second := ""; r_rest := "0" |};
         {| r_first := "Constant Current"; r_second := ""; r_rest := "1" |} ] |};
    {| dt_line := 609; dt_target := OfParam "LS_GetTrigIOParams" "mode1";
       dt_rows := [
         {| r_first := "Disabled"; r_second := "0"; r_rest := "" |};
         {| r_first := "General Input"; r_second := "1"; r_rest := "" |};
         {| r_first := "Modulation Trigger"; r_second := "2"; r_rest := "" |};
         {| r_first := "Set Power Trigger"; r_second := "3"; r_rest := "" |};
         {| r_first := "General Output"; r_second := "10"; r_rest := "" |};
         {| r_first := "Laser Output On"; r_second := "11"; r_rest := "" |};
         {| r_first := "Interlock enabled"; r_second := "12"; r_rest := "" |};
         {| r_first := "Set Power changed"; r_second := "13"; r_rest := "" |};
         {| r_first := "High Stability Out"; r_second := "14"; r_rest := "" |};
         {| r_first := "Low Stability Out"; r_second := "15"; r_rest := "" |} ] |};
    {| dt_line := 621; dt_target := OfParam "LS_GetTrigIOParams" "polarity1";
       dt_rows := [
         {| r_first := "Active High"; r_second := "1"; r_rest := "" |};
         {| r_first := "Active Low"; r_second := "2"; r_rest := "" |} ] |};
    {| dt_line := 626; dt_target := OfParam "LS_GetTrigIOParams" "mode2";
       dt_rows := [
         {| r_first := "Disabled"; r_second := "0"; r_rest := "" |};
         {| r_first := "General Input"; r_second := "1"; r_rest := "" |};
         {| r_first := "Modulation Trigger"; r_second := "2"; r_rest := "" |};
         {| r_first := "Set Power Trigger"; r_second := "3"; r_rest := "" |};
         {| r_first := "General Output"; r_second := "10"; r_rest := "" |};
         {| r_first := "Laser Output On"; r_second := "11"; r_rest := "" |};
         {| r_first := "Interlock enabled"; r_second := "12"; r_rest := "" |};
         {| r_first := "Set Power changed"; r_second := "13"; r_rest := "" |};
         {| r_first := "High Stability Out"; r_second := "14"; r_rest := "" |};
         {| r_first := "Low Stability Out"; r_second := "15"; r_rest := "" |} ] |};
    {| dt_line := 638; dt_target := OfParam "LS_GetTrigIOParams" "polarity2";
       dt_rows := [
         {| r_first := "Active High"; r_second := "1"; r_rest := "" |};
         {| r_first := "Active Low"; r_second := "2"; r_rest := "" |} ] |};
    {| dt_line := 652; dt_target := OfParam "LS_SetTrigIOParams" "mode1";
       dt_rows := [
         {| r_first := "Disabled"; r_second := "0"; r_rest := "" |};
         {| r_first := "General Input"; r_second := "1"; r_rest := "" |};
         {| r_first := "Modulation Trigger"; r_second := "2"; r_rest := "" |};
         {| r_first := "Set Power Trigger"; r_second := "3"; r_rest := "" |};
         {| r_first := "General Output"; r_second := "10"; r_rest := "" |};
         {| r_first := "Laser Output On"; r_second := "11"; r_rest := "" |};
         {| r_first := "Interlock enabled"; r_second := "12"; r_rest := "" |};
         {| r_first := "Set Power changed"; r_second := "13"; r_rest := "" |};
         {| r_first := "High Stability Out"; r_second := "14"; r_rest := "" |};
         {| r_first := "Low Stability Out"; r_second := "15"; r_rest := "" |} ] |};
    {| dt_line := 664; dt_target := OfParam "LS_SetTrigIOParams" "polarity1";
       dt_rows := [
         {| r_first := "Active High"; r_second := "1"; r_rest := "" |};
         {| r_first := "Active Low"; r_second := "2"; r_rest := "" |} ] |};
    {| dt_line := 669; dt_target := OfParam "LS_SetTrigIOParams" "mode2";
       dt_rows := [
         {| r_first := "Disabled"; r_second := "0"; r_rest := "" |};
         {| r_first := "General Input"; r_second := "1"; r_rest := "" |};
         {| r_first := "Modulation Trigger"; r_second := "2"; r_rest := "" |};
         {| r_first := "Set Power Trigger"; r_second := "3"; r_rest := "" |};
         {| r_first := "General Output"; r_second := "10"; r_rest := "" |};
         {| r_first := "Laser Output On"; r_second := "11"; r_rest := "" |};
         {| r_first := "Interlock enabled"; r_second := "12"; r_rest := "" |};
         {| r_first := "Set Power changed"; r_second := "13"; r_rest := "" |};
         {| r_first := "High Stability Out"; r_second := "14"; r_rest := "" |};
         {| r_first := "Low Stability Out"; r_second := "15"; r_rest := "" |} ] |};
    {| dt_line := 681; dt_target := OfParam "LS_SetTrigIOParams" "polarity2";
       dt_rows := [
         {| r_first := "Active High"; r_second := "1"; r_rest := "" |};
         {| r_first := "Active Low"; r_second := "2"; r_rest := "" |} ] |};
    {| dt_line := 716; dt_target := OfReturn "LS_GetInterlockState";
       dt_rows := [
         {| r_first := "Enabled"; r_second := ""; r_rest := "1" |};
         {| r_first := "Disabled"; r_second := ""; r_rest := "2" |} ] |};
    {| dt_line := 844; dt_target := OfReturn "LS_GetStatusBits";
       dt_rows := [
         {| r_first := "0x00000001"; r_second := "Laser output enabled state (1=Enabled, 0=Disabled)."; r_rest := "" |};
         {| r_first := "0x00000002"; r_second := "Key switch enabled state (1=Enabled, 0=Disabled)."; r_rest := "" |};
         {| r_first := "0x00000004"; r_second := "Laser control mode (1=Constant P (Closed Loop), 0=Constant I (Open Loop))."; r_rest := "" |};
         {| r_first := "0x00000008"; r_second := "Safety interlock enabled state (1=Enabled, 0=Disabled)."; r_rest := "" |};
         {| r_first := "..."; r_second := ""; r_rest := "" |};
         {| r_first := "0x00000080"; r_second := "For Future Use"; r_rest := "" |};
         {| r_first := "0x00000100"; r_second := ""; r_rest := "" |};
         {| r_first := "..."; r_second := ""; r_rest := "" |};
         {| r_first := "0x20000000"; r_second := ""; r_rest := "" |};
         {| r_first := "0x40000000"; r_second := "Error"; r_rest := "" |};
         {| r_first := "0x80000000"; r_second := ""; r_rest := "For Future Use" |} ] |} ].

(** The comment in front of every function. *)
Definition comments : list comment :=
  [
    {| c_function := "TLI_BuildDeviceList"; c_line := 219;
       c_tokens := [
        DOpen "summary" None;
        DText "Build the DeviceList.";
        DClose "summary";
        DOpen "remarks" None;
        DText "This function builds an internal collection of all devices found on the USB that are not currently open.";
        DEmpty "br" None;
        DText "NOTE, if a device is open, it will not appear in the list until the device has been closed.";
        DClose "remarks";
        DOpen "returns" None;
        DText "The error code (see";
        DRef "C_DLL_ERRORCODES_page" "Error Codes";
        DText ") or zero if successful.";
        DClose "returns";
        DInclude "CodeSnippet_identification.cpp";
        DEmpty "seealso" (Some ("cref", "TLI_GetDeviceListSize()"));
        DEmpty "seealso" (Some ("cref", "TLI_GetDeviceList(SAFEARRAY** stringsReceiver)"));
        DEmpty "seealso" (Some ("cref", "TLI_GetDeviceListByType(SAFEARRAY** stringsReceiver, int typeID)"));
        DEmpty "seealso" (Some ("cref", "TLI_GetDeviceListByTypes(SAFEARRAY** stringsReceiver, int * typeIDs, int length)"));
        DEmpty "seealso" (Some ("cref", "TLI_GetDeviceListExt(char *receiveBuffer, DWORD sizeOfBuffer)"));
        DEmpty "seealso" (Some ("cref", "TLI_GetDeviceListByTypeExt(char *receiveBuffer, DWORD sizeOfBuffer, int typeID)"));
        DEmpty "seealso" (Some ("cref", "TLI_GetDeviceListByTypesExt(char *receiveBuffer, DWORD sizeOfBuffer, int * typeIDs, int length)")) ] |};
    {| c_function := "TLI_GetDeviceListSize"; c_line := 233;
       c_tokens := [
        DOpen "summary" None;
        DText "Gets the device list size.";
        DClose "summary";
        DInclude "CodeSnippet_identification.cpp";
        DOpen "returns" None;
        DText "Number of devices in device list.";
        DClose "returns";
        DEmpty "seealso" (Some ("cref", "TLI_BuildDeviceList()"));
        DEmpty "seealso" (Some ("cref", "TLI_GetDeviceList(SAFEARRAY** stringsReceiver)"));
        DEmpty "seealso" (Some ("cref", "TLI_GetDeviceListByType(SAFEARRAY** stringsReceiver, int typeID)"));
        DEmpty "seealso" (Some ("cref", "TLI_GetDeviceListByTypes(SAFEARRAY** stringsReceiver, int * typeIDs, int length)"));
        DEmpty "seealso" (Some ("cref", "TLI_GetDeviceListExt(char *receiveBuffer, DWORD sizeOfBuffer)"));
        DEmpty "seealso" (Some ("cref", "TLI_GetDeviceListByTypeExt(char *receiveBuffer, DWORD sizeOfBuffer, int typeID)"));
        DEmpty "seealso" (Some ("cref", "TLI_GetDeviceListByTypesExt(char *receiveBuffer, DWORD sizeOfBuffer, int * typeIDs, int length)")) ] |};
    {| c_function := "TLI_GetDeviceList"; c_line := 245;
       c_tokens := [
        DOpen "summary" None;
        DText "Get the entire contents of the device list.";
        DClose "summary";
        DOpen "param" (Some ("name", "stringsReceiver"));
        DText "Outputs a SAFEARRAY of strings holding device serial numbers.";
        DClose "param";
        DOpen "returns" None;
        DText "The error code (see";
        DRef "C_DLL_ERRORCODES_page" "Error Codes";
        DText ") or zero if successful.";
        DClose "returns";
        DInclude "CodeSnippet_identification.cpp";
        DEmpty "seealso" (Some ("cref", "TLI_GetDeviceListSize()"));
        DEmpty "seealso" (Some ("cref", "TLI_BuildDeviceList()"));
        DEmpty "seealso" (Some ("cref", "TLI_GetDeviceListByType(SAFEARRAY** stringsReceiver, int typeID)"));
        DEmpty "seealso" (Some ("cref", "TLI_GetDeviceListByTypes(SAFEARRAY** stringsReceiver, int * typeIDs, int length)"));
        DEmpty "seealso" (Some ("cref", "TLI_GetDeviceListExt(char *receiveBuffer, DWORD sizeOfBuffer)"));
        DEmpty "seealso" (Some ("cref", "TLI_GetDeviceListByTypeExt(char *receiveBuffer, DWORD sizeOfBuffer, int typeID)"));
        DEmpty "seealso" (Some ("cref", "TLI_GetDeviceListByTypesExt(char *receiveBuffer, DWORD sizeOfBuffer, int * typeIDs, int length)")) ] |};
    {| c_function := "TLI_GetDeviceListByType"; c_line := 258;
       c_tokens := [
        DOpen "summary" None;
        DText "Get the contents of the device list which match the supplied typeID.";
        DClose "summary";
        DOpen "param" (Some ("name", "stringsReceiver"));
        DText "Outputs a SAFEARRAY of strings holding device serial numbers.";
        DClose "param";
        DOpen "param" (Some ("name", "typeID"));
        DText "The typeID of devices to match, see";
        DRef "C_DEVICEID_page" "Device serial numbers";
        DText ".";
        DClose "param";
        DOpen "returns" None;
        DText "The error code (see";
        DRef "C_DLL_ERRORCODES_page" "Error Codes";
        DText ") or zero if successful.";
        DClose "returns";
        DInclude "CodeSnippet_identification.cpp";
        DEmpty "seealso" (Some ("cref", "TLI_GetDeviceListSize()"));
        DEmpty "seealso" (Some ("cref", "TLI_BuildDeviceList()"));
        DEmpty "seealso" (Some ("cref", "TLI_GetDeviceList(SAFEARRAY** stringsReceiver)"));
        DEmpty "seealso" (Some ("cref", "TLI_GetDeviceListByTypes(SAFEARRAY** stringsReceiver, int * typeIDs, int length)"));
        DEmpty "seealso" (Some ("cref", "TLI_GetDeviceListExt(char *receiveBuffer, DWORD sizeOfBuffer)"));
        DEmpty "seealso" (Some ("cref", "TLI_GetDeviceListByTypeExt(char *receiveBuffer, DWORD sizeOfBuffer, int typeID)"));
        DEmpty "seealso" (Some ("cref", "TLI_GetDeviceListByTypesExt(char *receiveBuffer, DWORD sizeOfBuffer, int * typeIDs, int length)")) ] |};
    {| c_function := "TLI_GetDeviceListByTypes"; c_line := 272;
       c_tokens := [
        DOpen "summary" None;
        DText "Get the contents of the device list which match the supplied typeIDs.";
        DClose "summary";
        DOpen "param" (Some ("name", "stringsReceiver"));
        DText "Outputs a SAFEARRAY of strings holding device serial numbers.";
        DClose "param";
        DOpen "param" (Some ("name", "typeIDs"));
        DText "list of typeIDs of devices to be matched, see";
        DRef "C_DEVICEID_page" "Device serial numbers";
        DClose "param";
        DOpen "param" (Some ("name", "length"));
        DText "length of type list";
        DClose "param";
        DOpen "returns" None;
        DText "The error code (see";
        DRef "C_DLL_ERRORCODES_page" "Error Codes";
        DText ") or zero if successful.";
        DClose "returns";
        DInclude "CodeSnippet_identification.cpp";
        DEmpty "seealso" (Some ("cref", "TLI_GetDeviceListSize()"));
        DEmpty "seealso" (Some ("cref", "TLI_BuildDeviceList()"));
        DEmpty "seealso" (Some ("cref", "TLI_GetDeviceList(SAFEARRAY** stringsReceiver)"));
        DEmpty "seealso" (Some ("cref", "TLI_GetDeviceListByType(SAFEARRAY** stringsReceiver, int typeID)"));
        DEmpty "seealso" (Some ("cref", "TLI_GetDeviceListExt(char *receiveBuffer, DWORD sizeOfBuffer)"));
        DEmpty "seealso" (Some ("cref", "TLI_GetDeviceListByTypeExt(char *receiveBuffer, DWORD sizeOfBuffer, int typeID)"));
        DEmpty "seealso" (Some ("cref", "TLI_GetDeviceListByTypesExt(char *receiveBuffer, DWORD sizeOfBuffer, int * typeIDs, int length)")) ] |};
    {| c_function := "TLI_GetDeviceListExt"; c_line := 287;
       c_tokens := [
        DOpen "summary" None;
        DText "Get the entire contents of the device list.";
        DClose "summary";
        DOpen "param" (Some ("name", "receiveBuffer"));
        DText "a buffer in which to receive the list as a comma separated string.";
        DClose "param";
        DOpen "param" (Some ("name", "sizeOfBuffer"));
        DText "The size of the output string buffer.";
        DClose "param";
        DOpen "returns" None;
        DText "The error code (see";
        DRef "C_DLL_ERRORCODES_page" "Error Codes";
        DText ") or zero if successful.";
        DClose "returns";
        DInclude "CodeSnippet_identification.cpp";
        DEmpty "seealso" (Some ("cref", "TLI_GetDeviceListSize()"));
        DEmpty "seealso" (Some ("cref", "TLI_BuildDeviceList()"));
        DEmpty "seealso" (Some ("cref", "TLI_GetDeviceList(SAFEARRAY** stringsReceiver)"));
        DEmpty "seealso" (Some ("cref", "TLI_GetDeviceListByType(SAFEARRAY** stringsReceiver, int typeID)"));
        DEmpty "seealso" (Some ("cref", "TLI_GetDeviceListByTypes(SAFEARRAY** stringsReceiver, int * typeIDs, int length)"));
        DEmpty "seealso" (Some ("cref", "TLI_GetDeviceListByTypeExt(char *receiveBuffer, DWORD sizeOfBuffer, int typeID)"));
        DEmpty "seealso" (Some ("cref", "TLI_GetDeviceListByTypesExt(char *receiveBuffer, DWORD sizeOfBuffer, int * typeIDs, int length)")) ] |};
    {| c_function := "TLI_GetDeviceListByTypeExt"; c_line := 301;
       c_tokens := [
        DOpen "summary" None;
        DText "Get the contents of the device list which match the supplied typeID.";
        DClose "summary";
        DOpen "param" (Some ("name", "receiveBuffer"));
        DText "a buffer in which to receive the list as a comma separated string.";
        DClose "param";
        DOpen "param" (Some ("name", "sizeOfBuffer"));
        DText "The size of the output string buffer.";
        DClose "param";
        DOpen "param" (Some ("name", "typeID"));
        DText "The typeID of devices to be matched, see";
        DRef "C_DEVICEID_page" "Device serial numbers";
        DClose "param";
        DOpen "returns" None;
        DText "The error code (see";
        DRef "C_DLL_ERRORCODES_page" "Error Codes";
        DText ") or zero if successful.";
        DClose "returns";
        DInclude "CodeSnippet_identification.cpp";
        DEmpty "seealso" (Some ("cref", "TLI_GetDeviceListSize()"));
        DEmpty "seealso" (Some ("cref", "TLI_BuildDeviceList()"));
        DEmpty "seealso" (Some ("cref", "TLI_GetDeviceList(SAFEARRAY** stringsReceiver)"));
        DEmpty "seealso" (Some ("cref", "TLI_GetDeviceListByType(SAFEARRAY** stringsReceiver, int typeID)"));
        DEmpty "seealso" (Some ("cref", "TLI_GetDeviceListByTypes(SAFEARRAY** stringsReceiver, int * typeIDs, int length)"));
        DEmpty "seealso" (Some ("cref", "TLI_GetDeviceListExt(char *receiveBuffer, DWORD sizeOfBuffer)"));
        DEmpty "seealso" (Some ("cref", "TLI_GetDeviceListByTypesExt(char *receiveBuffer, DWORD sizeOfBuffer, int * typeIDs, int length)")) ] |};
    {| c_function := "TLI_GetDeviceListByTypesExt"; c_line := 316;
       c_tokens := [
        DOpen "summary" None;
        DText "Get the contents of the device list which match the supplied typeIDs.";
        DClose "summary";
        DOpen "param" (Some ("name", "receiveBuffer"));
        DText "a buffer in which to receive the list as a comma separated string.";
        DClose "param";
        DOpen "param" (Some ("name", "sizeOfBuffer"));
        DText "The size of the output string buffer.";
        DClose "param";
        DOpen "param" (Some ("name", "typeIDs"));
        DText "list of typeIDs of devices to be matched, see";
        DRef "C_DEVICEID_page" "Device serial numbers";
        DClose "param";
        DOpen "param" (Some ("name", "length"));
        DText "length of type list";
        DClose "param";
        DOpen "returns" None;
        DText "The error code (see";
        DRef "C_DLL_ERRORCODES_page" "Error Codes";
        DText ") or zero if successful.";
        DClose "returns";
        DInclude "CodeSnippet_identification.cpp";
        DEmpty "seealso" (Some ("cref", "TLI_GetDeviceListSize()"));
        DEmpty "seealso" (Some ("cref", "TLI_BuildDeviceList()"));
        DEmpty "seealso" (Some ("cref", "TLI_GetDeviceList(SAFEARRAY** stringsReceiver)"));
        DEmpty "seealso" (Some ("cref", "TLI_GetDeviceListByType(SAFEARRAY** stringsReceiver, int typeID)"));
        DEmpty "seealso" (Some ("cref", "TLI_GetDeviceListByTypes(SAFEARRAY** stringsReceiver, int * typeIDs, int length)"));
        DEmpty "seealso" (Some ("cref", "TLI_GetDeviceListExt(char *receiveBuffer, DWORD sizeOfBuffer)"));
        DEmpty "seealso" (Some ("cref", "TLI_GetDeviceListByTypeExt(char *receiveBuffer, DWORD sizeOfBuffer, int typeID)")) ] |};
    {| c_function := "TLI_GetDeviceInfo"; c_line := 332;
       c_tokens := [
        DOpen "summary" None;
        DText "Get the device information from the USB port.";
        DClose "summary";
        DOpen "remarks" None;
        DText "The Device Info is read from the USB port not from the device itself.";
        DOpen "remarks" None;
        DOpen "param" (Some ("name", "serialNo"));
        DText "The serial number of the device.";
        DClose "param";
        DOpen "param" (Some ("name", "info"));
        DText "The";
        DEmpty "see" (Some ("cref", "TLI_DeviceInfo"));
        DText "device information.";
        DClose "param";
        DOpen "returns" None;
        DText "1 if successful, 0 if not.";
        DClose "returns";
        DInclude "CodeSnippet_identification.cpp";
        DEmpty "seealso" (Some ("cref", "TLI_GetDeviceListSize()"));
        DEmpty "seealso" (Some ("cref", "TLI_BuildDeviceList()"));
        DEmpty "seealso" (Some ("cref", "TLI_GetDeviceList(SAFEARRAY** stringsReceiver)"));
        DEmpty "seealso" (Some ("cref", "TLI_GetDeviceListByType(SAFEARRAY** stringsReceiver, int typeID)"));
        DEmpty "seealso" (Some ("cref", "TLI_GetDeviceListByTypes(SAFEARRAY** stringsReceiver, int * typeIDs, int length)"));
        DEmpty "seealso" (Some ("cref", "TLI_GetDeviceListExt(char *receiveBuffer, DWORD sizeOfBuffer)"));
        DEmpty "seealso" (Some ("cref", "TLI_GetDeviceListByTypeExt(char *receiveBuffer, DWORD sizeOfBuffer, int typeID)"));
        DEmpty "seealso" (Some ("cref", "TLI_GetDeviceListByTypesExt(char *receiveBuffer, DWORD sizeOfBuffer, int * typeIDs, int length)")) ] |};
    {| c_function := "LS_Open"; c_line := 348;
       c_tokens := [
        DOpen "summary" None;
        DText "Open the device for communications.";
        DClose "summary";
        DOpen "param" (Some ("name", "serialNo"));
        DText "The serial no of the device to be connected.";
        DClose "param";
        DOpen "returns" None;
        DText "The error code (see";
        DRef "C_DLL_ERRORCODES_page" "Error Codes";
        DText ") or zero if successful.";
        DClose "returns";
        DInclude "CodeSnippet_connection1.cpp";
        DEmpty "seealso" (Some ("cref", "LS_Close(char const * serialNo)")) ] |};
    {| c_function := "LS_Close"; c_line := 355;
       c_tokens := [
        DOpen "summary" None;
        DText "Disconnect and close the device.";
        DClose "summary";
        DOpen "param" (Some ("name", "serialNo"));
        DText "The serial no of the device to be disconnected.";
        DClose "param";
        DInclude "CodeSnippet_connection1.cpp";
        DEmpty "seealso" (Some ("cref", "LS_Open(char const * serialNo)")) ] |};
    {| c_function := "LS_CheckConnection"; c_line := 361;
       c_tokens := [
        DOpen "summary" None;
        DText "Check connection.";
        DClose "summary";
        DOpen "param" (Some ("name", "serialNo"));
        DText "The device serial no.";
        DClose "param";
        DOpen "returns" None;
        DText "true if the USB is listed by the ftdi controller";
        DClose "returns";
        DInclude "CodeSnippet_CheckConnection.cpp" ] |};
    {| c_function := "LS_Identify"; c_line := 367;
       c_tokens := [
        DOpen "summary" None;
        DText "Sends a command to the device to make it identify iteself.";
        DClose "summary";
        DOpen "param" (Some ("name", "serialNo"));
        DText "The device serial no.";
        DClose "param" ] |};
    {| c_function := "LS_GetHardwareInfo"; c_line := 371;
       c_tokens := [
        DOpen "summary" None;
        DText "Gets the hardware information from the device.";
        DClose "summary";
        DOpen "param" (Some ("name", "serialNo"));
        DText "The device serial no.";
        DClose "param";
        DOpen "param" (Some ("name", "modelNo"));
        DText "Address of a buffer to receive the model number string. Minimum 8 characters";
        DClose "param";
        DOpen "param" (Some ("name", "sizeOfModelNo"));
        DText "The size of the model number buffer, minimum of 8 characters.";
        DClose "param";
        DOpen "param" (Some ("name", "type"));
        DText "Address of a WORD to receive the hardware type number.";
        DClose "param";
        DOpen "param" (Some ("name", "numChannels"));
        DText "Address of a short to receive the number of channels.";
        DClose "param";
        DOpen "param" (Some ("name", "notes"));
        DText "Address of a buffer to receive the notes describing the device.";
        DClose "param";
        DOpen "param" (Some ("name", "sizeOfNotes"));
        DText "The size of the notes buffer, minimum of 48 characters.";
        DClose "param";
        DOpen "param" (Some ("name", "firmwareVersion"));
        DText "Address of a DWORD to receive the firmware version number made up of 4 byte parts.";
        DClose "param";
        DOpen "param" (Some ("name", "hardwareVersion"));
        DText "Address of a WORD to receive the hardware version number.";
        DClose "param";
        DOpen "param" (Some ("name", "modificationState"));
        DText "Address of a WORD to receive the hardware modification state number.";
        DClose "param";
        DOpen "returns" None;
        DText "The error code (see";
        DRef "C_DLL_ERRORCODES_page" "Error Codes";
        DText ") or zero if successful.";
        DClose "returns";
        DInclude "CodeSnippet_identify.cpp" ] |};
    {| c_function := "LS_GetHardwareInfoBlock"; c_line := 387;
       c_tokens := [
        DOpen "summary" None;
        DText "Gets the hardware information in a block.";
        DClose "summary";
        DOpen "param" (Some ("name", "serialNo"));
        DText "The device serial no.";
        DClose "param";
        DOpen "param" (Some ("name", "hardwareInfo"));
        DText "Address of a TLI_HardwareInformation structure to receive the hardware information.";
        DClose "param";
        DOpen "returns" None;
        DText "The error code (see";
        DRef "C_DLL_ERRORCODES_page" "Error Codes";
        DText ") or zero if successful.";
        DClose "returns";
        DInclude "CodeSnippet_identify.cpp" ] |};
    {| c_function := "LS_GetFirmwareVersion"; c_line := 394;
       c_tokens := [
        DOpen "summary" None;
        DText "Gets version number of the device firmware.";
        DClose "summary";
        DOpen "param" (Some ("name", "serialNo"));
        DText "The device serial no.";
        DClose "param";
        DOpen "returns" None;
        DText "The device firmware version number made up of 4 byte parts.";
        DClose "returns";
        DInclude "CodeSnippet_identify.cpp" ] |};
    {| c_function := "LS_GetSoftwareVersion"; c_line := 400;
       c_tokens := [
        DOpen "summary" None;
        DText "Gets version number of the device software.";
        DClose "summary";
        DOpen "param" (Some ("name", "serialNo"));
        DText "The device serial no.";
        DClose "param";
        DOpen "returns" None;
        DText "The device software version number made up of 4 byte parts.";
        DClose "returns";
        DInclude "CodeSnippet_identify.cpp" ] |};
    {| c_function := "LS_LoadSettings"; c_line := 406;
       c_tokens := [
        DOpen "summary" None;
        DText "Update device with stored settings.";
        DClose "summary";
        DOpen "param" (Some ("name", "serialNo"));
        DText "The device serial no.";
        DClose "param";
        DOpen "returns" None;
        DOpen "c" None;
        DText "true";
        DClose "c";
        DText "if successful, false if not.";
        DClose "returns";
        DInclude "CodeSnippet_connection1.cpp" ] |};
    {| c_function := "LS_PersistSettings"; c_line := 412;
       c_tokens := [
        DOpen "summary" None;
        DText "persist the devices current settings.";
        DClose "summary";
        DOpen "param" (Some ("name", "serialNo"));
        DText "The device serial no.";
        DClose "param";
        DOpen "returns" None;
        DOpen "c" None;
        DText "true";
        DClose "c";
        DText "if successful, false if not.";
        DClose "returns" ] |};
    {| c_function := "LS_Disable"; c_line := 417;
       c_tokens := [
        DOpen "summary" None;
        DText "Disable laser.";
        DClose "summary";
        DOpen "param" (Some ("name", "serialNo"));
        DText "The device serial no.";
        DClose "param";
        DOpen "returns" None;
        DText "The error code (see";
        DRef "C_DLL_ERRORCODES_page" "Error Codes";
        DText ") or zero if successful.";
        DClose "returns";
        DEmpty "seealso" (Some ("cref", "LS_Enable(char const * serialNo)")) ] |};
    {| c_function := "LS_Enable"; c_line := 423;
       c_tokens := [
        DOpen "summary" None;
        DText "Enable laser for computer control.";
        DClose "summary";
        DOpen "param" (Some ("name", "serialNo"));
        DText "The device serial no.";
        DClose "param";
        DOpen "returns" None;
        DText "The error code (see";
        DRef "C_DLL_ERRORCODES_page" "Error Codes";
        DText ") or zero if successful.";
        DClose "returns";
        DEmpty "seealso" (Some ("cref", "LS_Disable(char const * serialNo)")) ] |};
    {| c_function := "LS_ClearMessageQueue"; c_line := 429;
       c_tokens := [
        DOpen "summary" None;
        DText "Clears the device message queue.";
        DClose "summary";
        DOpen "remarks" None;
        DText "see";
        DRef "C_MESSAGES_page" "Device Messages";
        DText "for details on how to use messages.";
        DClose "remarks";
        DOpen "param" (Some ("name", "serialNo"));
        DText "The device serial no.";
        DClose "param" ] |};
    {| c_function := "LS_RegisterMessageCallback"; c_line := 434;
       c_tokens := [
        DOpen "summary" None;
        DText "Registers a callback on the message queue.";
        DClose "summary";
        DOpen "remarks" None;
        DText "see";
        DRef "C_MESSAGES_page" "Device Messages";
        DText "for details on how to use messages.";
        DClose "remarks";
        DOpen "param" (Some ("name", "serialNo"));
        DText "The device serial no.";
        DClose "param";
        DOpen "param" (Some ("name", "functionPointer"));
        DText "A function pointer to be called whenever messages are received.";
        DClose "param";
        DEmpty "seealso" (Some ("cref", "LS_MessageQueueSize(char const * serialNo)"));
        DEmpty "seealso" (Some ("cref", "LS_GetNextMessage(char const * serialNo, WORD * messageType, WORD * messageID, DWORD *messageData)"));
        DEmpty "seealso" (Some ("cref", "LS_WaitForMessage(char const * serialNo, WORD * messageType, WORD * messageID, DWORD *messageData)")) ] |};
    {| c_function := "LS_MessageQueueSize"; c_line := 443;
       c_tokens := [
        DOpen "summary" None;
        DText "Gets the MessageQueue size.";
        DClose "summary";
        DOpen "remarks" None;
        DText "see";
        DRef "C_MESSAGES_page" "Device Messages";
        DText "for details on how to use messages.";
        DClose "remarks";
        DOpen "param" (Some ("name", "serialNo"));
        DText "The device serial no.";
        DClose "param";
        DOpen "returns" None;
        DText "number of messages in the queue.";
        DClose "returns";
        DEmpty "seealso" (Some ("cref", "LS_RegisterMessageCallback(char const * serialNo, void (* functionPointer)())"));
        DEmpty "seealso" (Some ("cref", "LS_GetNextMessage(char const * serialNo, WORD * messageType, WORD * messageID, DWORD *messageData)"));
        DEmpty "seealso" (Some ("cref", "LS_WaitForMessage(char const * serialNo, WORD * messageType, WORD * messageID, DWORD *messageData)")) ] |};
    {| c_function := "LS_GetNextMessage"; c_line := 452;
       c_tokens := [
        DOpen "summary" None;
        DText "Get the next MessageQueue item.";
        DClose "summary";
        DOpen "remarks" None;
        DText "see";
        DRef "C_MESSAGES_page" "Device Messages";
        DText "for details on how to use messages.";
        DClose "remarks";
        DOpen "param" (Some ("name", "serialNo"));
        DText "The device serial no.";
        DClose "param";
        DOpen "param" (Some ("name", "messageType"));
        DText "The address of the parameter to receive the message Type.";
        DClose "param";
        DOpen "param" (Some ("name", "messageID"));
        DText "The address of the parameter to receive the message id.";
        DClose "param";
        DOpen "param" (Some ("name", "messageData"));
        DText "The address of the parameter to receive the message data.";
        DClose "param";
        DOpen "returns" None;
        DOpen "c" None;
        DText "true";
        DClose "c";
        DText "if successful, false if not.";
        DClose "returns";
        DEmpty "seealso" (Some ("cref", "LS_RegisterMessageCallback(char const * serialNo, void (* functionPointer)())"));
        DEmpty "seealso" (Some ("cref", "LS_MessageQueueSize(char const * serialNo)"));
        DEmpty "seealso" (Some ("cref", "LS_WaitForMessage(char const * serialNo, WORD * messageType, WORD * messageID, DWORD *messageData)")) ] |};
    {| c_function := "LS_WaitForMessage"; c_line := 464;
       c_tokens := [
        DOpen "summary" None;
        DText "Wait for next MessageQueue item.";
        DClose "summary";
        DOpen "remarks" None;
        DText "see";
        DRef "C_MESSAGES_page" "Device Messages";
        DText "for details on how to use messages.";
        DClose "remarks";
        DOpen "param" (Some ("name", "serialNo"));
        DText "The device serial no.";
        DClose "param";
        DOpen "param" (Some ("name", "messageType"));
        DText "The address of the parameter to receive the message Type.";
        DClose "param";
        DOpen "param" (Some ("name", "messageID"));
        DText "The address of the parameter to receive the message id.";
        DClose "param";
        DOpen "param" (Some ("name", "messageData"));
        DText "The address of the parameter to receive the message data.";
        DClose "param";
        DOpen "returns" None;
        DOpen "c" None;
        DText "true";
        DClose "c";
        DText "if successful, false if not.";
        DClose "returns";
        DEmpty "seealso" (Some ("cref", "LS_RegisterMessageCallback(char const * serialNo, void (* functionPointer)())"));
        DEmpty "seealso" (Some ("cref", "LS_MessageQueueSize(char const * serialNo)"));
        DEmpty "seealso" (Some ("cref", "LS_GetNextMessage(char const * serialNo, WORD * messageType, WORD * messageID, DWORD *messageData)")) ] |};
    {| c_function := "LS_DisableOutput"; c_line := 476;
       c_tokens := [
        DOpen "summary" None;
        DText "Switch laser off.";
        DClose "summary";
        DOpen "param" (Some ("name", "serialNo"));
        DText "The device serial no.";
        DClose "param";
        DOpen "returns" None;
        DText "The error code (see";
        DRef "C_DLL_ERRORCODES_page" "Error Codes";
        DText ") or zero if successful.";
        DClose "returns";
        DEmpty "seealso" (Some ("cref", "LS_EnableOutput(char const * serialNo)")) ] |};
    {| c_function := "LS_EnableOutput"; c_line := 482;
       c_tokens := [
        DOpen "summary" None;
        DText "Switch laser on.";
        DClose "summary";
        DOpen "remarks" None;
        DText "Laser will be enabled only if interlock is in place AND keyswitch is at ON position.";
        DClose "remarks";
        DOpen "param" (Some ("name", "serialNo"));
        DText "The device serial no.";
        DClose "param";
        DOpen "returns" None;
        DText "The error code (see";
        DRef "C_DLL_ERRORCODES_page" "Error Codes";
        DText ") or zero if successful.";
        DClose "returns";
        DEmpty "seealso" (Some ("cref", "LS_DisableOutput(char const * serialNo)")) ] |};
    {| c_function := "LS_RequestControlSource"; c_line := 489;
       c_tokens := [
        DOpen "summary" None;
        DText "Gets the control input source.";
        DClose "summary";
        DOpen "param" (Some ("name", "serialNo"));
        DText "The device serial no.";
        DClose "param";
        DOpen "returns" None;
        DText "The error code (see";
        DRef "C_DLL_ERRORCODES_page" "Error Codes";
        DText ") or zero if successful.";
        DClose "returns";
        DEmpty "seealso" (Some ("cref", "LS_SetControlSource(char const * serialNo, LS_InputSourceFlags source)"));
        DEmpty "seealso" (Some ("cref", "LS_GetControlSource(char const * serialNo)")) ] |};
    {| c_function := "LS_GetControlSource"; c_line := 496;
       c_tokens := [
        DOpen "summary" None;
        DText "Gets the control input source.";
        DClose "summary";
        DOpen "param" (Some ("name", "serialNo"));
        DText "The device serial no.";
        DClose "param";
        DOpen "returns" None;
        DText "The control input source.";
        DOpen "list" (Some ("type", "table"));
        DOpen "item" None;
        DOpen "term" None;
        DText "Software only";
        DClose "term";
        DOpen "term" None;
        DClose "term";
        DText "0";
        DClose "item";
        DOpen "item" None;
        DOpen "term" None;
        DText "External signal";
        DClose "term";
        DOpen "term" None;
        DClose "term";
        DText "1";
        DClose "item";
        DOpen "item" None;
        DOpen "term" None;
        DText "Potentiometer";
        DClose "term";
        DOpen "term" None;
        DClose "term";
        DText "4";
        DClose "item";
        DClose "list";
        DClose "returns";
        DEmpty "seealso" (Some ("cref", "LS_SetControlSource(char const * serialNo, LS_InputSourceFlags source)"));
        DEmpty "seealso" (Some ("cref", "LS_RequestControlSource(char const * serialNo)")) ] |};
    {| c_function := "LS_SetControlSource"; c_line := 508;
       c_tokens := [
        DOpen "summary" None;
        DText "Sets the control input source.";
        DClose "summary";
        DOpen "param" (Some ("name", "serialNo"));
        DText "The device serial no.";
        DClose "param";
        DOpen "param" (Some ("name", "source"));
        DText "The control input source.";
        DOpen "list" (Some ("type", "table"));
        DOpen "item" None;
        DOpen "term" None;
        DText "Software only";
        DClose "term";
        DOpen "term" None;
        DClose "term";
        DText "0";
        DClose "item";
        DOpen "item" None;
        DOpen "term" None;
        DText "External signal";
        DClose "term";
        DOpen "term" None;
        DClose "term";
        DText "1";
        DClose "item";
        DOpen "item" None;
        DOpen "term" None;
        DText "Potentiometer";
        DClose "term";
        DOpen "term" None;
        DClose "term";
        DText "4";
        DClose "item";
        DClose "list";
        DClose "param";
        DOpen "returns" None;
        DText "The error code (see";
        DRef "C_DLL_ERRORCODES_page" "Error Codes";
        DText ") or zero if successful.";
        DClose "returns";
        DEmpty "seealso" (Some ("cref", "LS_GetControlSource(char const * serialNo)"));
        DEmpty "seealso" (Some ("cref", "LS_RequestControlSource(char const * serialNo)")) ] |};
    {| c_function := "LS_RequestMMIParams"; c_line := 521;
       c_tokens := [
        DOpen "summary" None;
        DText "Requests the MMI parameters.";
        DClose "summary";
        DOpen "param" (Some ("name", "serialNo"));
        DText "The device serial no.";
        DClose "param";
        DOpen "returns" None;
        DText "The error code (see";
        DRef "C_DLL_ERRORCODES_page" "Error Codes";
        DText ") or zero if successful.";
        DClose "returns";
        DEmpty "seealso" (Some ("cref", "LS_GetMMIParams(char const * serialNo)"));
        DEmpty "seealso" (Some ("cref", "LS_SetMMIParams(char const * serialNo, short dispIntensity)"));
        DEmpty "seealso" (Some ("cref", "LS_GetMMIParamsBlock(char const * serialNo, KLS_MMIParams *params)"));
        DEmpty "seealso" (Some ("cref", "LS_SetMMIParamsBlock(char const * serialNo, KLS_MMIParams *params)")) ] |};
    {| c_function := "LS_GetMMIParams"; c_line := 530;
       c_tokens := [
        DOpen "summary" None;
        DText "Gets the MMI parameters.";
        DClose "summary";
        DOpen "param" (Some ("name", "serialNo"));
        DText "The device serial no.";
        DClose "param";
        DOpen "returns" None;
        DText "The Display Intensity.";
        DClose "returns";
        DEmpty "seealso" (Some ("cref", "LS_RequestMMIParams(char const * serialNo)"));
        DEmpty "seealso" (Some ("cref", "LS_SetMMIParams(char const * serialNo, short dispIntensity)"));
        DEmpty "seealso" (Some ("cref", "LS_GetMMIParamsBlock(char const * serialNo, KLS_MMIParams *params)"));
        DEmpty "seealso" (Some ("cref", "LS_SetMMIParamsBlock(char const * serialNo, KLS_MMIParams *params)")) ] |};
    {| c_function := "LS_SetMMIParams"; c_line := 539;
       c_tokens := [
        DOpen "summary" None;
        DText "Sets the MMI parameters.";
        DClose "summary";
        DOpen "param" (Some ("name", "serialNo"));
        DText "The device serial no.";
        DClose "param";
        DOpen "param" (Some ("name", "dispIntensity"));
        DText "The display intensity, range 30 to 100%.";
        DClose "param";
        DOpen "returns" None;
        DText "The error code (see";
        DRef "C_DLL_ERRORCODES_page" "Error Codes";
        DText ") or zero if successful.";
        DClose "returns";
        DEmpty "seealso" (Some ("cref", "LS_RequestMMIParams(char const * serialNo)"));
        DEmpty "seealso" (Some ("cref", "LS_GetMMIParams(char const * serialNo)"));
        DEmpty "seealso" (Some ("cref", "LS_GetMMIParamsBlock(char const * serialNo, KLS_MMIParams *params)"));
        DEmpty "seealso" (Some ("cref", "LS_SetMMIParamsBlock(char const * serialNo, KLS_MMIParams *params)")) ] |};
    {| c_function := "LS_GetMMIParamsBlock"; c_line := 549;
       c_tokens := [
        DOpen "summary" None;
        DText "Gets the MMI parameters.";
        DClose "summary";
        DOpen "param" (Some ("name", "serialNo"));
        DText "The device serial no.";
        DClose "param";
        DOpen "param" (Some ("name", "params"));
        DText "The MMI parameters structure.";
        DClose "param";
        DOpen "returns" None;
        DText "The error code (see";
        DRef "C_DLL_ERRORCODES_page" "Error Codes";
        DText ") or zero if successful.";
        DClose "returns";
        DEmpty "seealso" (Some ("cref", "LS_RequestMMIParams(char const * serialNo)"));
        DEmpty "seealso" (Some ("cref", "LS_GetMMIParams(char const * serialNo)"));
        DEmpty "seealso" (Some ("cref", "LS_SetMMIParams(char const * serialNo, short dispIntensity)"));
        DEmpty "seealso" (Some ("cref", "LS_SetMMIParamsBlock(char const * serialNo, KLS_MMIParams *params)")) ] |};
    {| c_function := "LS_SetMMIParamsBlock"; c_line := 559;
       c_tokens := [
        DOpen "summary" None;
        DText "Sets the MMI parameters.";
        DClose "summary";
        DOpen "param" (Some ("name", "serialNo"));
        DText "The device serial no.";
        DClose "param";
        DOpen "param" (Some ("name", "params"));
        DText "The MMI parameters structure.";
        DClose "param";
        DOpen "returns" None;
        DText "The error code (see";
        DRef "C_DLL_ERRORCODES_page" "Error Codes";
        DText ") or zero if successful.";
        DClose "returns";
        DEmpty "seealso" (Some ("cref", "LS_RequestMMIParams(char const * serialNo)"));
        DEmpty "seealso" (Some ("cref", "LS_GetMMIParams(char const * serialNo)"));
        DEmpty "seealso" (Some ("cref", "LS_SetMMIParams(char const * serialNo, short dispIntensity)"));
        DEmpty "seealso" (Some ("cref", "LS_GetMMIParamsBlock(char const * serialNo, KLS_MMIParams *params)")) ] |};
    {| c_function := "LS_RequestOPMode"; c_line := 569;
       c_tokens := [
        DOpen "summary" None;
        DText "Requests the Operation Mode parameters.";
        DClose "summary";
        DOpen "param" (Some ("name", "serialNo"));
        DText "The device serial no.";
        DClose "param";
        DOpen "returns" None;
        DText "The error code (see";
        DRef "C_DLL_ERRORCODES_page" "Error Codes";
        DText ") or zero if successful.";
        DClose "returns";
        DEmpty "seealso" (Some ("cref", "LS_GetOPMode(char const * serialNo, KLS_OpMode *mode)"));
        DEmpty "seealso" (Some ("cref", "LS_SetOPMode(char const * serialNo, KLS_OpMode mode)")) ] |};
    {| c_function := "LS_GetOPMode"; c_line := 576;
       c_tokens := [
        DOpen "summary" None;
        DText "Gets the Operation Mode parameters.";
        DClose "summary";
        DOpen "param" (Some ("name", "serialNo"));
        DText "The device serial no.";
        DClose "param";
        DOpen "param" (Some ("name", "mode"));
        DText "The operating mode.";
        DOpen "list" (Some ("type", "table"));
        DOpen "item" None;
        DOpen "term" None;
        DText "Constant Power";
        DClose "term";
        DOpen "term" None;
        DClose "term";
        DText "0";
        DClose "item";
        DOpen "item" None;
        DOpen "term" None;
        DText "Constant Current";
        DClose "term";
        DOpen "term" None;
        DClose "term";
        DText "1";
        DClose "item";
        DClose "list";
        DClose "param";
        DOpen "returns" None;
        DText "The error code (see";
        DRef "C_DLL_ERRORCODES_page" "Error Codes";
        DText ") or zero if successful.";
        DClose "returns";
        DEmpty "seealso" (Some ("cref", "LS_RequestOPMode(char const * serialNo)"));
        DEmpty "seealso" (Some ("cref", "LS_SetOPMode(char const * serialNo, KLS_OpMode mode)")) ] |};
    {| c_function := "LS_SetOPMode"; c_line := 587;
       c_tokens := [
        DOpen "summary" None;
        DText "Sets the Operation Mode parameters.";
        DClose "summary";
        DOpen "param" (Some ("name", "serialNo"));
        DText "The device serial no.";
        DClose "param";
        DOpen "param" (Some ("name", "mode"));
        DText "The operating mode.";
        DOpen "list" (Some ("type", "table"));
        DOpen "item" None;
        DOpen "term" None;
        DText "Constant Power";
        DClose "term";
        DOpen "term" None;
        DClose "term";
        DText "0";
        DClose "item";
        DOpen "item" None;
        DOpen "term" None;
        DText "Constant Current";
        DClose "term";
        DOpen "term" None;
        DClose "term";
        DText "1";
        DClose "item";
        DClose "list";
        DClose "param";
        DOpen "returns" None;
        DText "The error code (see";
        DRef "C_DLL_ERRORCODES_page" "Error Codes";
        DText ") or zero if successful.";
        DClose "returns";
        DEmpty "seealso" (Some ("cref", "LS_RequestOPMode(char const * serialNo)"));
        DEmpty "seealso" (Some ("cref", "LS_GetOPMode(char const * serialNo, KLS_OpMode *mode)")) ] |};
    {| c_function := "LS_RequestTrigIOParams"; c_line := 598;
       c_tokens := [
        DOpen "summary" None;
        DText "Requests the Trigger IO parameters.";
        DClose "summary";
        DOpen "param" (Some ("name", "serialNo"));
        DText "The device serial no.";
        DClose "param";
        DOpen "returns" None;
        DText "The error code (see";
        DRef "C_DLL_ERRORCODES_page" "Error Codes";
        DText ") or zero if successful.";
        DClose "returns";
        DEmpty "seealso" (Some ("cref", "LS_GetTrigIOParams(char const * serialNo, KLS_TriggerMode *mode1, KLS_TrigPolarity *polarity1, short *power1, KLS_TriggerMode *mode2, KLS_TrigPolarity *polarity2, short *power2)"));
        DEmpty "seealso" (Some ("cref", "LS_SetTrigIOParams(char const * serialNo, KLS_TriggerMode mode1, KLS_TrigPolarity polarity1, short power1, KLS_TriggerMode mode2, KLS_TrigPolarity polarity2, short power2)"));
        DEmpty "seealso" (Some ("cref", "LS_GetTrigIOParamsBlock(char const * serialNo, KLS_TrigIOParams *params)"));
        DEmpty "seealso" (Some ("cref", "LS_SetTrigIOParamsBlock(char const * serialNo, KLS_TrigIOParams *params)")) ] |};
    {| c_function := "LS_GetTrigIOParams"; c_line := 607;
       c_tokens := [
        DOpen "summary" None;
        DText "Gets the Trigger IO parameters.";
        DClose "summary";
        DOpen "param" (Some ("name", "serialNo"));
        DText "The device serial no.";
        DClose "param";
        DOpen "param" (Some ("name", "mode1"));
        DText "The Trigger1 mode.";
        DOpen "list" (Some ("type", "table"));
        DOpen "item" None;
        DOpen "term" None;
        DText "Disabled";
        DClose "term";
        DOpen "term" None;
        DText "0";
        DClose "term";
        DClose "item";
        DOpen "item" None;
        DOpen "term" None;
        DText "General Input";
        DClose "term";
        DOpen "term" None;
        DText "1";
        DClose "term";
        DClose "item";
        DOpen "item" None;
        DOpen "term" None;
        DText "Modulation Trigger";
        DClose "term";
        DOpen "term" None;
        DText "2";
        DClose "term";
        DClose "item";
        DOpen "item" None;
        DOpen "term" None;
        DText "Set Power Trigger";
        DClose "term";
        DOpen "term" None;
        DText "3";
        DClose "term";
        DClose "item";
        DOpen "item" None;
        DOpen "term" None;
        DText "General Output";
        DClose "term";
        DOpen "term" None;
        DText "10";
        DClose "term";
        DClose "item";
        DOpen "item" None;
        DOpen "term" None;
        DText "Laser Output On";
        DClose "term";
        DOpen "term" None;
        DText "11";
        DClose "term";
        DClose "item";
        DOpen "item" None;
        DOpen "term" None;
        DText "Interlock enabled";
        DClose "term";
        DOpen "term" None;
        DText "12";
        DClose "term";
        DClose "item";
        DOpen "item" None;
        DOpen "term" None;
        DText "Set Power changed";
        DClose "term";
        DOpen "term" None;
        DText "13";
        DClose "term";
        DClose "item";
        DOpen "item" None;
        DOpen "term" None;
        DText "High Stability Out";
        DClose "term";
        DOpen "term" None;
        DText "14";
        DClose "term";
        DClose "item";
        DOpen "item" None;
        DOpen "term" None;
        DText "Low Stability Out";
        DClose "term";
        DOpen "term" None;
        DText "15";
        DClose "term";
        DClose "item";
        DClose "list";
        DClose "param";
        DOpen "param" (Some ("name", "polarity1"));
        DText "The Trigger1 polarity.";
        DOpen "list" (Some ("type", "table"));
        DOpen "item" None;
        DOpen "term" None;
        DText "Active High";
        DClose "term";
        DOpen "term" None;
        DText "1";
        DClose "term";
        DClose "item";
        DOpen "item" None;
        DOpen "term" None;
        DText "Active Low";
        DClose "term";
        DOpen "term" None;
        DText "2";
        DClose "term";
        DClose "item";
        DClose "list";
        DClose "param";
        DOpen "param" (Some ("name", "power1"));
        DText "The Trigger1 power. Range 0 to 32767 equivalent to 0 to 100% power.";
        DClose "param";
        DOpen "param" (Some ("name", "mode2"));
        DText "The Trigger2 mode.";
        DOpen "list" (Some ("type", "table"));
        DOpen "item" None;
        DOpen "term" None;
        DText "Disabled";
        DClose "term";
        DOpen "term" None;
        DText "0";
        DClose "term";
        DClose "item";
        DOpen "item" None;
        DOpen "term" None;
        DText "General Input";
        DClose "term";
        DOpen "term" None;
        DText "1";
        DClose "term";
        DClose "item";
        DOpen "item" None;
        DOpen "term" None;
        DText "Modulation Trigger";
        DClose "term";
        DOpen "term" None;
        DText "2";
        DClose "term";
        DClose "item";
        DOpen "item" None;
        DOpen "term" None;
        DText "Set Power Trigger";
        DClose "term";
        DOpen "term" None;
        DText "3";
        DClose "term";
        DClose "item";
        DOpen "item" None;
        DOpen "term" None;
        DText "General Output";
        DClose "term";
        DOpen "term" None;
        DText "10";
        DClose "term";
        DClose "item";
        DOpen "item" None;
        DOpen "term" None;
        DText "Laser Output On";
        DClose "term";
        DOpen "term" None;
        DText "11";
        DClose "term";
        DClose "item";
        DOpen "item" None;
        DOpen "term" None;
        DText "Interlock enabled";
        DClose "term";
        DOpen "term" None;
        DText "12";
        DClose "term";
        DClose "item";
        DOpen "item" None;
        DOpen "term" None;
        DText "Set Power changed";
        DClose "term";
        DOpen "term" None;
        DText "13";
        DClose "term";
        DClose "item";
        DOpen "item" None;
        DOpen "term" None;
        DText "High Stability Out";
        DClose "term";
        DOpen "term" None;
        DText "14";
        DClose "term";
        DClose "item";
        DOpen "item" None;
        DOpen "term" None;
        DText "Low Stability Out";
        DClose "term";
        DOpen "term" None;
        DText "15";
        DClose "term";
        DClose "item";
        DClose "list";
        DClose "param";
        DOpen "param" (Some ("name", "polarity2"));
        DText "The Trigger2 polarity.";
        DOpen "list" (Some ("type", "table"));
        DOpen "item" None;
        DOpen "term" None;
        DText "Active High";
        DClose "term";
        DOpen "term" None;
        DText "1";
        DClose "term";
        DClose "item";
        DOpen "item" None;
        DOpen "term" None;
        DText "Active Low";
        DClose "term";
        DOpen "term" None;
        DText "2";
        DClose "term";
        DClose "item";
        DClose "list";
        DClose "param";
        DOpen "param" (Some ("name", "power2"));
        DText "The Trigger2 power. Range 0 to 32767 equivalent to 0 to 100% power.";
        DClose "param";
        DOpen "returns" None;
        DText "The error code (see";
        DRef "C_DLL_ERRORCODES_page" "Error Codes";
        DText ") or zero if successful.";
        DClose "returns";
        DEmpty "seealso" (Some ("cref", "LS_RequestTrigIOParams(char const * serialNo)"));
        DEmpty "seealso" (Some ("cref", "LS_SetTrigIOParams(char const * serialNo, KLS_TriggerMode mode1, KLS_TrigPolarity polarity1, short power1, KLS_TriggerMode mode2, KLS_TrigPolarity polarity2, short power2)"));
        DEmpty "seealso" (Some ("cref", "LS_GetTrigIOParamsBlock(char const * serialNo, KLS_TrigIOParams *params)"));
        DEmpty "seealso" (Some ("cref", "LS_SetTrigIOParamsBlock(char const * serialNo, KLS_TrigIOParams *params)")) ] |};
    {| c_function := "LS_SetTrigIOParams"; c_line := 650;
       c_tokens := [
        DOpen "summary" None;
        DText "Sets the Trigger IO parameters.";
        DClose "summary";
        DOpen "param" (Some ("name", "serialNo"));
        DText "The device serial no.";
        DClose "param";
        DOpen "param" (Some ("name", "mode1"));
        DText "The Trigger1 mode.";
        DOpen "list" (Some ("type", "table"));
        DOpen "item" None;
        DOpen "term" None;
        DText "Disabled";
        DClose "term";
        DOpen "term" None;
        DText "0";
        DClose "term";
        DClose "item";
        DOpen "item" None;
        DOpen "term" None;
        DText "General Input";
        DClose "term";
        DOpen "term" None;
        DText "1";
        DClose "term";
        DClose "item";
        DOpen "item" None;
        DOpen "term" None;
        DText "Modulation Trigger";
        DClose "term";
        DOpen "term" None;
        DText "2";
        DClose "term";
        DClose "item";
        DOpen "item" None;
        DOpen "term" None;
        DText "Set Power Trigger";
        DClose "term";
        DOpen "term" None;
        DText "3";
        DClose "term";
        DClose "item";
        DOpen "item" None;
        DOpen "term" None;
        DText "General Output";
        DClose "term";
        DOpen "term" None;
        DText "10";
        DClose "term";
        DClose "item";
        DOpen "item" None;
        DOpen "term" None;
        DText "Laser Output On";
        DClose "term";
        DOpen "term" None;
        DText "11";
        DClose "term";
        DClose "item";
        DOpen "item" None;
        DOpen "term" None;
        DText "Interlock enabled";
        DClose "term";
        DOpen "term" None;
        DText "12";
        DClose "term";
        DClose "item";
        DOpen "item" None;
        DOpen "term" None;
        DText "Set Power changed";
        DClose "term";
        DOpen "term" None;
        DText "13";
        DClose "term";
        DClose "item";
        DOpen "item" None;
        DOpen "term" None;
        DText "High Stability Out";
        DClose "term";
        DOpen "term" None;
        DText "14";
        DClose "term";
        DClose "item";
        DOpen "item" None;
        DOpen "term" None;
        DText "Low Stability Out";
        DClose "term";
        DOpen "term" None;
        DText "15";
        DClose "term";
        DClose "item";
        DClose "list";
        DClose "param";
        DOpen "param" (Some ("name", "polarity1"));
        DText "The Trigger1 polarity.";
        DOpen "list" (Some ("type", "table"));
        DOpen "item" None;
        DOpen "term" None;
        DText "Active High";
        DClose "term";
        DOpen "term" None;
        DText "1";
        DClose "term";
        DClose "item";
        DOpen "item" None;
        DOpen "term" None;
        DText "Active Low";
        DClose "term";
        DOpen "term" None;
        DText "2";
        DClose "term";
        DClose "item";
        DClose "list";
        DClose "param";
        DOpen "param" (Some ("name", "power1"));
        DText "The Trigger1 power. Range 0 to 32767 equivalent to 0 to 100% power.";
        DClose "param";
        DOpen "param" (Some ("name", "mode2"));
        DText "The Trigger2 mode.";
        DOpen "list" (Some ("type", "table"));
        DOpen "item" None;
        DOpen "term" None;
        DText "Disabled";
        DClose "term";
        DOpen "term" None;
        DText "0";
        DClose "term";
        DClose "item";
        DOpen "item" None;
        DOpen "term" None;
        DText "General Input";
        DClose "term";
        DOpen "term" None;
        DText "1";
        DClose "term";
        DClose "item";
        DOpen "item" None;
        DOpen "term" None;
        DText "Modulation Trigger";
        DClose "term";
        DOpen "term" None;
        DText "2";
        DClose "term";
        DClose "item";
        DOpen "item" None;
        DOpen "term" None;
        DText "Set Power Trigger";
        DClose "term";
        DOpen "term" None;
        DText "3";
        DClose "term";
        DClose "item";
        DOpen "item" None;
        DOpen "term" None;
        DText "General Output";
        DClose "term";
        DOpen "term" None;
        DText "10";
        DClose "term";
        DClose "item";
        DOpen "item" None;
        DOpen "term" None;
        DText "Laser Output On";
        DClose "term";
        DOpen "term" None;
        DText "11";
        DClose "term";
        DClose "item";
        DOpen "item" None;
        DOpen "term" None;
        DText "Interlock enabled";
        DClose "term";
        DOpen "term" None;
        DText "12";
        DClose "term";
        DClose "item";
        DOpen "item" None;
        DOpen "term" None;
        DText "Set Power changed";
        DClose "term";
        DOpen "term" None;
        DText "13";
        DClose "term";
        DClose "item";
        DOpen "item" None;
        DOpen "term" None;
        DText "High Stability Out";
        DClose "term";
        DOpen "term" None;
        DText "14";
        DClose "term";
        DClose "item";
        DOpen "item" None;
        DOpen "term" None;
        DText "Low Stability Out";
        DClose "term";
        DOpen "term" None;
        DText "15";
        DClose "term";
        DClose "item";
        DClose "list";
        DClose "param";
        DOpen "param" (Some ("name", "polarity2"));
        DText "The Trigger2 polarity.";
        DOpen "list" (Some ("type", "table"));
        DOpen "item" None;
        DOpen "term" None;
        DText "Active High";
        DClose "term";
        DOpen "term" None;
        DText "1";
        DClose "term";
        DClose "item";
        DOpen "item" None;
        DOpen "term" None;
        DText "Active Low";
        DClose "term";
        DOpen "term" None;
        DText "2";
        DClose "term";
        DClose "item";
        DClose "list";
        DClose "param";
        DOpen "param" (Some ("name", "power2"));
        DText "The Trigger2 power. Range 0 to 32767 equivalent to 0 to 100% power.";
        DClose "param";
        DOpen "returns" None;
        DText "The error code (see";
        DRef "C_DLL_ERRORCODES_page" "Error Codes";
        DText ") or zero if successful.";
        DClose "returns";
        DEmpty "seealso" (Some ("cref", "LS_RequestTrigIOParams(char const * serialNo)"));
        DEmpty "seealso" (Some ("cref", "LS_GetTrigIOParams(char const * serialNo, KLS_TriggerMode *mode1, KLS_TrigPolarity *polarity1, short *power1, KLS_TriggerMode *mode2, KLS_TrigPolarity *polarity2, short *power2)"));
        DEmpty "seealso" (Some ("cref", "LS_GetTrigIOParamsBlock(char const * serialNo, KLS_TrigIOParams *params)"));
        DEmpty "seealso" (Some ("cref", "LS_SetTrigIOParamsBlock(char const * serialNo, KLS_TrigIOParams *params)")) ] |};
    {| c_function := "LS_GetTrigIOParamsBlock"; c_line := 693;
       c_tokens := [
        DOpen "summary" None;
        DText "Gets the Trigger IO parameters.";
        DClose "summary";
        DOpen "param" (Some ("name", "serialNo"));
        DText "The device serial no.";
        DClose "param";
        DOpen "param" (Some ("name", "params"));
        DText "The trigger IO structure.";
        DClose "param";
        DOpen "returns" None;
        DText "The error code (see";
        DRef "C_DLL_ERRORCODES_page" "Error Codes";
        DText ") or zero if successful.";
        DClose "returns";
        DEmpty "seealso" (Some ("cref", "LS_RequestTrigIOParams(char const * serialNo)"));
        DEmpty "seealso" (Some ("cref", "LS_GetTrigIOParams(char const * serialNo, KLS_TriggerMode *mode1, KLS_TrigPolarity *polarity1, short *power1, KLS_TriggerMode *mode2, KLS_TrigPolarity *polarity2, short *power2)"));
        DEmpty "seealso" (Some ("cref", "LS_SetTrigIOParams(char const * serialNo, KLS_TriggerMode mode1, KLS_TrigPolarity polarity1, short power1, KLS_TriggerMode mode2, KLS_TrigPolarity polarity2, short power2)"));
        DEmpty "seealso" (Some ("cref", "LS_SetTrigIOParamsBlock(char const * serialNo, KLS_TrigIOParams *params)")) ] |};
    {| c_function := "LS_SetTrigIOParamsBlock"; c_line := 703;
       c_tokens := [
        DOpen "summary" None;
        DText "Ls set trig i/o parameters block.";
        DClose "summary";
        DOpen "param" (Some ("name", "serialNo"));
        DText "The serial no.";
        DClose "param";
        DOpen "param" (Some ("name", "params"));
        DText "The trigger IO structure.";
        DClose "param";
        DOpen "returns" None;
        DText "The error code (see";
        DRef "C_DLL_ERRORCODES_page" "Error Codes";
        DText ") or zero if successful.";
        DClose "returns";
        DEmpty "seealso" (Some ("cref", "LS_RequestTrigIOParams(char const * serialNo)"));
        DEmpty "seealso" (Some ("cref", "LS_GetTrigIOParams(char const * serialNo, KLS_TriggerMode *mode1, KLS_TrigPolarity *polarity1, short *power1, KLS_TriggerMode *mode2, KLS_TrigPolarity *polarity2, short *power2)"));
        DEmpty "seealso" (Some ("cref", "LS_SetTrigIOParams(char const * serialNo, KLS_TriggerMode mode1, KLS_TrigPolarity polarity1, short power1, KLS_TriggerMode mode2, KLS_TrigPolarity polarity2, short power2)"));
        DEmpty "seealso" (Some ("cref", "LS_GetTrigIOParamsBlock(char const * serialNo, KLS_TrigIOParams *params)")) ] |};
    {| c_function := "LS_GetInterlockState"; c_line := 713;
       c_tokens := [
        DOpen "summary" None;
        DText "Gets the Interlock State.";
        DClose "summary";
        DOpen "param" (Some ("name", "serialNo"));
        DText "The device serial no.";
        DClose "param";
        DOpen "returns" None;
        DText "The interlock state.";
        DOpen "list" (Some ("type", "table"));
        DOpen "item" None;
        DOpen "term" None;
        DText "Enabled";
        DClose "term";
        DOpen "term" None;
        DClose "term";
        DText "1";
        DClose "item";
        DOpen "item" None;
        DOpen "term" None;
        DText "Disabled";
        DClose "term";
        DOpen "term" None;
        DClose "term";
        DText "2";
        DClose "item";
        DClose "list";
        DClose "returns" ] |};
    {| c_function := "LS_RequestLimits"; c_line := 722;
       c_tokens := [
        DOpen "summary" None;
        DText "Requests the limits MaxPower and MaxCurrent.";
        DClose "summary";
        DOpen "param" (Some ("name", "serialNo"));
        DText "The serial no.";
        DClose "param";
        DOpen "returns" None;
        DText "The error code (see";
        DRef "C_DLL_ERRORCODES_page" "Error Codes";
        DText ") or zero if successful.";
        DClose "returns";
        DEmpty "seealso" (Some ("cref", "LS_GetLimits(char const * serialNo, WORD &maxPower, WORD &maxCurrent)")) ] |};
    {| c_function := "LS_RequestWavelength"; c_line := 728;
       c_tokens := [
        DOpen "summary" None;
        DText "Requests the device Wavelength.";
        DClose "summary";
        DOpen "param" (Some ("name", "serialNo"));
        DText "The serial no.";
        DClose "param";
        DOpen "returns" None;
        DText "The error code (see";
        DRef "C_DLL_ERRORCODES_page" "Error Codes";
        DText ") or zero if successful.";
        DClose "returns";
        DEmpty "seealso" (Some ("cref", "LS_GetWavelength(char const * serialNo)")) ] |};
    {| c_function := "LS_GetWavelength"; c_line := 734;
       c_tokens := [
        DOpen "summary" None;
        DText "Gets the operating wavelength.";
        DClose "summary";
        DOpen "param" (Some ("name", "serialNo"));
        DText "The device serial no.";
        DClose "param";
        DOpen "returns" None;
        DText "The operating Wavelength in nm.";
        DClose "returns";
        DEmpty "seealso" (Some ("cref", "LS_RequestWavelength(char const * serialNo)")) ] |};
    {| c_function := "LS_GetLimits"; c_line := 740;
       c_tokens := [
        DOpen "summary" None;
        DText "Gets the max power and current limits for the device.";
        DClose "summary";
        DOpen "param" (Some ("name", "serialNo"));
        DText "The device serial no.";
        DClose "param";
        DOpen "param" (Some ("name", "maxPower"));
        DText "The power limit, range 0 to 65535 equivalent to (0 to 6.5535mW).";
        DClose "param";
        DOpen "param" (Some ("name", "maxCurrent"));
        DText "The current limit, range 0 to 65535 equivalent to (0 to 655.35mA).";
        DClose "param";
        DOpen "returns" None;
        DText "The error code (see";
        DRef "C_DLL_ERRORCODES_page" "Error Codes";
        DText ") or zero if successful.";
        DClose "returns";
        DEmpty "seealso" (Some ("cref", "LS_RequestLimits(char const * serialNo)")) ] |};
    {| c_function := "LS_RequestSetPower"; c_line := 748;
       c_tokens := [
        DOpen "summary" None;
        DText "Sets the output power.";
        DClose "summary";
        DOpen "param" (Some ("name", "serialNo"));
        DText "The device serial no.";
        DClose "param";
        DOpen "returns" None;
        DText "The error code (see";
        DRef "C_DLL_ERRORCODES_page" "Error Codes";
        DText ") or zero if successful.";
        DClose "returns";
        DEmpty "seealso" (Some ("cref", "LS_GetPowerSet(char const * serialNo)"));
        DEmpty "seealso" (Some ("cref", "LS_SetPower(char const * serialNo, WORD power)")) ] |};
    {| c_function := "LS_GetPowerSet"; c_line := 755;
       c_tokens := [
        DOpen "summary" None;
        DText "Gets the output power currently set.";
        DClose "summary";
        DOpen "param" (Some ("name", "serialNo"));
        DText "The device serial no.";
        DClose "param";
        DOpen "returns" None;
        DText "The output power, range 0 to 32767 representing 0 to 100 % of the maximum power.";
        DEmpty "br" None;
        DText "The maximum output power is defined by";
        DEmpty "see" (Some ("cref", "LS_GetLimits(char const * serialNo, WORD &maxPower, WORD &maxCurrent)"));
        DClose "returns";
        DEmpty "seealso" (Some ("cref", "LS_SetPower(char const * serialNo, WORD power)"));
        DEmpty "seealso" (Some ("cref", "LS_RequestSetPower(char const * serialNo)")) ] |};
    {| c_function := "LS_SetPower"; c_line := 763;
       c_tokens := [
        DOpen "summary" None;
        DText "Sets the output power.";
        DClose "summary";
        DOpen "param" (Some ("name", "serialNo"));
        DText "The device serial no.";
        DClose "param";
        DOpen "param" (Some ("name", "power"));
        DText "The output power, range 0 to 32767 representing 0 to 100 % of the maximum power.";
        DEmpty "br" None;
        DText "The maximum output power is defined by";
        DEmpty "see" (Some ("cref", "LS_GetLimits(char const * serialNo, WORD &maxPower, WORD &maxCurrent)"));
        DClose "param";
        DOpen "returns" None;
        DText "The error code (see";
        DRef "C_DLL_ERRORCODES_page" "Error Codes";
        DText ") or zero if successful.";
        DClose "returns";
        DEmpty "seealso" (Some ("cref", "LS_GetPowerSet(char const * serialNo)"));
        DEmpty "seealso" (Some ("cref", "LS_RequestSetPower(char const * serialNo)")) ] |};
    {| c_function := "LS_RequestStatus"; c_line := 772;
       c_tokens := [
        DOpen "summary" None;
        DText "Requests the state quantities (actual power, current and status).";
        DClose "summary";
        DOpen "remarks" None;
        DText "This needs to be called to get the device to send it's current status bits.";
        DEmpty "br" None;
        DText "NOTE this is called automatically if Polling is enabled for the device using";
        DEmpty "see" (Some ("cref", "LS_StartPolling(char const * serialNo, int milliseconds)"));
        DText ".";
        DClose "remarks";
        DOpen "param" (Some ("name", "serialNo"));
        DText "The device serial no.";
        DClose "param";
        DOpen "returns" None;
        DText "The error code (see";
        DRef "C_DLL_ERRORCODES_page" "Error Codes";
        DText ") or zero if successfully requested.";
        DClose "returns";
        DEmpty "seealso" (Some ("cref", "LS_RequestReadings(char const * serialNo)"));
        DEmpty "seealso" (Some ("cref", "LS_RequestStatusBits(char const * serialNo)"));
        DEmpty "seealso" (Some ("cref", "LS_GetStatusBits(char const * serialNo)"));
        DEmpty "seealso" (Some ("cref", "LS_GetPowerReading(char const * serialNo)"));
        DEmpty "seealso" (Some ("cref", "LS_GetCurrentReading(char const * serialNo)"));
        DEmpty "seealso" (Some ("cref", "LS_StartPolling(char const * serialNo, int milliseconds)")) ] |};
    {| c_function := "LS_RequestReadings"; c_line := 785;
       c_tokens := [
        DOpen "summary" None;
        DText "Request power and current readings.";
        DClose "summary";
        DOpen "remarks" None;
        DText "This needs to be called to get the device to send it's current reading.";
        DEmpty "br" None;
        DText "NOTE this is called automatically if Polling is enabled for the device using";
        DEmpty "see" (Some ("cref", "LS_StartPolling(char const * serialNo, int milliseconds)"));
        DText ".";
        DClose "remarks";
        DOpen "param" (Some ("name", "serialNo"));
        DText "The device serial no.";
        DClose "param";
        DOpen "returns" None;
        DText "The error code (see";
        DRef "C_DLL_ERRORCODES_page" "Error Codes";
        DText ") or zero if successfully requested.";
        DClose "returns";
        DEmpty "seealso" (Some ("cref", "LS_GetPowerReading(char const * serialNo)"));
        DEmpty "seealso" (Some ("cref", "LS_GetCurrentReading(char const * serialNo)"));
        DEmpty "seealso" (Some ("cref", "LS_RequestStatus(char const * serialNo)"));
        DEmpty "seealso" (Some ("cref", "LS_RequestStatusBits(char const * serialNo)"));
        DEmpty "seealso" (Some ("cref", "LS_StartPolling(char const * serialNo, int milliseconds)")) ] |};
    {| c_function := "LS_RequestStatusBits"; c_line := 797;
       c_tokens := [
        DOpen "summary" None;
        DText "Request the status bits which identify the current device state.";
        DClose "summary";
        DOpen "remarks" None;
        DText "This needs to be called to get the device to send it's current status bits.";
        DEmpty "br" None;
        DText "NOTE this is called automatically if Polling is enabled for the device using";
        DEmpty "see" (Some ("cref", "LS_StartPolling(char const * serialNo, int milliseconds)"));
        DText ".";
        DClose "remarks";
        DOpen "param" (Some ("name", "serialNo"));
        DText "The device serial no.";
        DClose "param";
        DOpen "returns" None;
        DText "The error code (see";
        DRef "C_DLL_ERRORCODES_page" "Error Codes";
        DText ") or zero if successfully requested.";
        DClose "returns";
        DEmpty "seealso" (Some ("cref", "LS_GetStatusBits(char const * serialNo)"));
        DEmpty "seealso" (Some ("cref", "LS_RequestStatus(char const * serialNo)"));
        DEmpty "seealso" (Some ("cref", "LS_RequestReadings(char const * serialNo)"));
        DEmpty "seealso" (Some ("cref", "LS_StartPolling(char const * serialNo, int milliseconds)")) ] |};
    {| c_function := "LS_GetPowerReading"; c_line := 808;
       c_tokens := [
        DOpen "summary" None;
        DText "Gets current power reading.";
        DClose "summary";
        DOpen "remarks" None;
        DText "This returns the latest power received from the device.";
        DEmpty "br" None;
        DText "To get new power, use";
        DEmpty "see" (Some ("cref", "LS_RequestReadings(char const * serialNo)"));
        DText "or use";
        DEmpty "see" (Some ("cref", "LS_RequestStatus(char const * serialNo)"));
        DText "or use the polling functions,";
        DEmpty "see" (Some ("cref", "LS_StartPolling(char const * serialNo, int milliseconds)"));
        DText ".";
        DClose "remarks";
        DOpen "param" (Some ("name", "serialNo"));
        DText "The device serial no.";
        DClose "param";
        DOpen "returns" None;
        DText "The current power, range 0 to 32767 representing 0 to 100 % of the maximum power.";
        DEmpty "br" None;
        DText "The maximum output power is defined by";
        DEmpty "see" (Some ("cref", "LS_GetLimits(char const * serialNo, WORD &maxPower, WORD &maxCurrent)"));
        DClose "returns";
        DEmpty "seealso" (Some ("cref", "LS_GetCurrentReading(char const * serialNo)"));
        DEmpty "seealso" (Some ("cref", "LS_GetLimits(char const * serialNo, WORD &maxPower, WORD &maxCurrent)"));
        DEmpty "seealso" (Some ("cref", "LS_RequestReadings(char const * serialNo)"));
        DEmpty "seealso" (Some ("cref", "LS_RequestStatus(char const * serialNo)"));
        DEmpty "seealso" (Some ("cref", "LS_StartPolling(char const * serialNo, int milliseconds)")) ] |};
    {| c_function := "LS_GetCurrentReading"; c_line := 823;
       c_tokens := [
        DOpen "summary" None;
        DText "Gets current Current reading.";
        DClose "summary";
        DOpen "remarks" None;
        DText "This returns the latest current received from the device.";
        DEmpty "br" None;
        DText "To get new current, use";
        DEmpty "see" (Some ("cref", "LS_RequestReadings(char const * serialNo)"));
        DText "or use";
        DEmpty "see" (Some ("cref", "LS_RequestStatus(char const * serialNo)"));
        DText "or use the polling functions,";
        DEmpty "see" (Some ("cref", "LS_StartPolling(char const * serialNo, int milliseconds)"));
        DText ".";
        DClose "remarks";
        DOpen "param" (Some ("name", "serialNo"));
        DText "The device serial no.";
        DClose "param";
        DOpen "returns" None;
        DText "The current Current, range 0 to 32767 representing 0 to 100 % of the maximum current.";
        DEmpty "br" None;
        DText "The maximum output Current is defined by";
        DEmpty "see" (Some ("cref", "LS_GetLimits(char const * serialNo, WORD &maxPower, WORD &maxCurrent)"));
        DClose "returns";
        DEmpty "seealso" (Some ("cref", "LS_GetPowerReading(char const * serialNo)"));
        DEmpty "seealso" (Some ("cref", "LS_GetLimits(char const * serialNo, WORD &maxPower, WORD &maxCurrent)"));
        DEmpty "seealso" (Some ("cref", "LS_RequestReadings(char const * serialNo)"));
        DEmpty "seealso" (Some ("cref", "LS_RequestStatus(char const * serialNo)"));
        DEmpty "seealso" (Some ("cref", "LS_StartPolling(char const * serialNo, int milliseconds)")) ] |};
    {| c_function := "LS_GetStatusBits"; c_line := 838;
       c_tokens := [
        DOpen "summary" None;
        DText "Get the current status bits.";
        DClose "summary";
        DOpen "remarks" None;
        DText "This returns the latest status bits received from the device.";
        DEmpty "br" None;
        DText "To get new status bits, use";
        DEmpty "see" (Some ("cref", "LS_RequestStatusBits(char const * serialNo)"));
        DText "or use";
        DEmpty "see" (Some ("cref", "LS_RequestStatus(char const * serialNo)"));
        DText "or use the polling functions,";
        DEmpty "see" (Some ("cref", "LS_StartPolling(char const * serialNo, int milliseconds)"));
        DText ".";
        DClose "remarks";
        DOpen "param" (Some ("name", "serialNo"));
        DText "The device serial no.";
        DClose "param";
        DOpen "returns" None;
        DText "The status bits from the device";
        DOpen "list" (Some ("type", "table"));
        DOpen "item" None;
        DOpen "term" None;
        DText "0x00000001";
        DClose "term";
        DOpen "term" None;
        DText "Laser output enabled state (1=Enabled, 0=Disabled).";
        DClose "term";
        DClose "item";
        DOpen "item" None;
        DOpen "term" None;
        DText "0x00000002";
        DClose "term";
        DOpen "term" None;
        DText "Key switch enabled state (1=Enabled, 0=Disabled).";
        DClose "term";
        DClose "item";
        DOpen "item" None;
        DOpen "term" None;
        DText "0x00000004";
        DClose "term";
        DOpen "term" None;
        DText "Laser control mode (1=Constant P (Closed Loop), 0=Constant I (Open Loop)).";
        DClose "term";
        DClose "item";
        DOpen "item" None;
        DOpen "term" None;
        DText "0x00000008";
        DClose "term";
        DOpen "term" None;
        DText "Safety interlock enabled state (1=Enabled, 0=Disabled).";
        DClose "term";
        DClose "item";
        DOpen "item" None;
        DOpen "term" None;
        DText "...";
        DClose "term";
        DOpen "term" None;
        DClose "term";
        DClose "item";
        DOpen "item" None;
        DOpen "term" None;
        DText "0x00000080";
        DClose "term";
        DOpen "term" None;
        DText "For Future Use";
        DClose "term";
        DClose "item";
        DOpen "item" None;
        DOpen "term" None;
        DText "0x00000100";
        DClose "term";
        DOpen "term" None;
        DClose "term";
        DClose "item";
        DOpen "item" None;
        DOpen "term" None;
        DText "...";
        DClose "term";
        DOpen "term" None;
        DClose "term";
        DClose "item";
        DOpen "item" None;
        DOpen "term" None;
        DText "0x20000000";
        DClose "term";
        DOpen "term" None;
        DClose "term";
        DClose "item";
        DOpen "item" None;
        DOpen "term" None;
        DText "0x40000000";
        DClose "term";
        DOpen "term" None;
        DText "Error";
        DClose "term";
        DClose "item";
        DOpen "item" None;
        DOpen "term" None;
        DText "0x80000000";
        DClose "term";
        DText "For Future Use";
        DOpen "term" None;
        DClose "term";
        DClose "item";
        DClose "list";
        DText ".";
        DClose "returns";
        DEmpty "seealso" (Some ("cref", "LS_RequestStatusBits(char const * serialNo)"));
        DEmpty "seealso" (Some ("cref", "LS_RequestStatus(char const * serialNo)"));
        DEmpty "seealso" (Some ("cref", "LS_StartPolling(char const * serialNo, int milliseconds)")) ] |};
    {| c_function := "LS_StartPolling"; c_line := 862;
       c_tokens := [
        DOpen "summary" None;
        DText "Starts the internal polling loop which continuously requests position and status.";
        DClose "summary";
        DOpen "param" (Some ("name", "serialNo"));
        DText "The device serial no.";
        DClose "param";
        DOpen "param" (Some ("name", "milliseconds"));
        DText "The milliseconds polling rate.";
        DClose "param";
        DOpen "returns" None;
        DOpen "c" None;
        DText "true";
        DClose "c";
        DText "if successful, false if not.";
        DClose "returns";
        DEmpty "seealso" (Some ("cref", "LS_StopPolling(char const * serialNo)"));
        DEmpty "seealso" (Some ("cref", "LS_PollingDuration(char const * serialNo)"));
        DEmpty "seealso" (Some ("cref", "LS_RequestStatusBits(char const * serialNo)"));
        DEmpty "seealso" (Some ("cref", "LS_RequestStatus(char const * serialNo)"));
        DEmpty "seealso" (Some ("cref", "LS_RequestReadings(char const * serialNo)"));
        DInclude "CodeSnippet_connection1.cpp" ] |};
    {| c_function := "LS_PollingDuration"; c_line := 874;
       c_tokens := [
        DOpen "summary" None;
        DText "Gets the polling loop duration.";
        DClose "summary";
        DOpen "param" (Some ("name", "serialNo"));
        DText "The device serial no.";
        DClose "param";
        DOpen "returns" None;
        DText "The time between polls in milliseconds or 0 if polling is not active.";
        DClose "returns";
        DEmpty "seealso" (Some ("cref", "LS_StartPolling(char const * serialNo, int milliseconds)"));
        DEmpty "seealso" (Some ("cref", "LS_StopPolling(char const * serialNo)"));
        DInclude "CodeSnippet_connection1.cpp" ] |};
    {| c_function := "LS_StopPolling"; c_line := 882;
       c_tokens := [
        DOpen "summary" None;
        DText "Stops the internal polling loop.";
        DClose "summary";
        DOpen "param" (Some ("name", "serialNo"));
        DText "The device serial no.";
        DClose "param";
        DEmpty "seealso" (Some ("cref", "LS_StartPolling(char const * serialNo, int milliseconds)"));
        DEmpty "seealso" (Some ("cref", "LS_PollingDuration(char const * serialNo)"));
        DInclude "CodeSnippet_connection1.cpp" ] |};
    {| c_function := "LS_TimeSinceLastMsgReceived"; c_line := 889;
       c_tokens := [
        DOpen "summary" None;
        DText "Gets the time in milliseconds since tha last message was received from the device.";
        DClose "summary";
        DOpen "remarks" None;
        DText "This can be used to determine whether communications with the device is still good";
        DClose "remarks";
        DOpen "param" (Some ("name", "serialNo"));
        DText "The device serial no.";
        DClose "param";
        DOpen "param" (Some ("name", "lastUpdateTimeMS"));
        DText "The time since the last message was received in milliseconds.";
        DClose "param";
        DOpen "returns" None;
        DText "True if monitoring is enabled otherwize False.";
        DClose "returns";
        DEmpty "seealso" (Some ("cref", "LS_EnableLastMsgTimer(char const * serialNo, bool enable, __int32 lastMsgTimeout )"));
        DEmpty "seealso" (Some ("cref", "LS_HasLastMsgTimerOverrun(char const * serialNo)"));
        DInclude "CodeSnippet_connectionMonitoring.cpp" ] |};
    {| c_function := "LS_EnableLastMsgTimer"; c_line := 899;
       c_tokens := [
        DOpen "summary" None;
        DText "Enables the last message monitoring timer.";
        DClose "summary";
        DOpen "remarks" None;
        DText "This can be used to determine whether communications with the device is still good";
        DClose "remarks";
        DOpen "param" (Some ("name", "serialNo"));
        DText "The device serial no.";
        DClose "param";
        DOpen "param" (Some ("name", "enable"));
        DText "True to enable monitoring otherwise False to disable.";
        DClose "param";
        DOpen "param" (Some ("name", "lastMsgTimeout"));
        DText "The last message error timeout in ms. 0 to disable.";
        DClose "param";
        DEmpty "seealso" (Some ("cref", "LS_TimeSinceLastMsgReceived(char const * serialNo, __int64 &lastUpdateTimeMS )"));
        DEmpty "seealso" (Some ("cref", "LS_HasLastMsgTimerOverrun(char const * serialNo)"));
        DInclude "CodeSnippet_connectionMonitoring.cpp" ] |};
    {| c_function := "LS_HasLastMsgTimerOverrun"; c_line := 909;
       c_tokens := [
        DOpen "summary" None;
        DText "Queries if the time since the last message has exceeded the lastMsgTimeout set by";
        DEmpty "see" (Some ("cref", "LS_EnableLastMsgTimer(char const * serialNo, bool enable, __int32 lastMsgTimeout )"));
        DText ".";
        DClose "summary";
        DOpen "remarks" None;
        DText "This can be used to determine whether communications with the device is still good";
        DClose "remarks";
        DOpen "param" (Some ("name", "serialNo"));
        DText "The device serial no.";
        DClose "param";
        DOpen "returns" None;
        DText "True if last message timer has elapsed, False if monitoring is not enabled or if time of last message received is less than lastMsgTimeout.";
        DClose "returns";
        DEmpty "seealso" (Some ("cref", "LS_TimeSinceLastMsgReceived(char const * serialNo, __int64 &lastUpdateTimeMS )"));
        DEmpty "seealso" (Some ("cref", "LS_EnableLastMsgTimer(char const * serialNo, bool enable, __int32 lastMsgTimeout )"));
        DInclude "CodeSnippet_connectionMonitoring.cpp" ] |};
    {| c_function := "LS_RequestSettings"; c_line := 918;
       c_tokens := [
        DOpen "summary" None;
        DText "Requests that all settings are download from device.";
        DClose "summary";
        DOpen "remarks" None;
        DText "This function requests that the device upload all it's settings to the DLL.";
        DClose "remarks";
        DOpen "param" (Some ("name", "serialNo"));
        DText "The device serial no.";
        DClose "param";
        DOpen "returns" None;
        DText "The error code (see";
        DRef "C_DLL_ERRORCODES_page" "Error Codes";
        DText ") or zero if successfully requested.";
        DClose "returns" ] |} ].


(** The cross references of the documentation comments (every
    [cref] attribute of the file), each by its line and by the name it
    refers to, without the parameter list. *)
Definition cross_references : list (nat * string) :=
  [
    (224, "TLI_GetDeviceListSize"); (225, "TLI_GetDeviceList");
    (226, "TLI_GetDeviceListByType"); (227, "TLI_GetDeviceListByTypes");
    (228, "TLI_GetDeviceListExt"); (229, "TLI_GetDeviceListByTypeExt");
    (230, "TLI_GetDeviceListByTypesExt"); (236, "TLI_BuildDeviceList");
    (237, "TLI_GetDeviceList"); (238, "TLI_GetDeviceListByType");
    (239, "TLI_GetDeviceListByTypes"); (240, "TLI_GetDeviceListExt");
    (241, "TLI_GetDeviceListByTypeExt"); (242, "TLI_GetDeviceListByTypesExt");
    (249, "TLI_GetDeviceListSize"); (250, "TLI_BuildDeviceList");
    (251, "TLI_GetDeviceListByType"); (252, "TLI_GetDeviceListByTypes");
    (253, "TLI_GetDeviceListExt"); (254, "TLI_GetDeviceListByTypeExt");
    (255, "TLI_GetDeviceListByTypesExt"); (263, "TLI_GetDeviceListSize");
    (264, "TLI_BuildDeviceList"); (265, "TLI_GetDeviceList");
    (266, "TLI_GetDeviceListByTypes"); (267, "TLI_GetDeviceListExt");
    (268, "TLI_GetDeviceListByTypeExt"); (269, "TLI_GetDeviceListByTypesExt");
    (278, "TLI_GetDeviceListSize"); (279, "TLI_BuildDeviceList");
    (280, "TLI_GetDeviceList"); (281, "TLI_GetDeviceListByType");
    (282, "TLI_GetDeviceListExt"); (283, "TLI_GetDeviceListByTypeExt");
    (284, "TLI_GetDeviceListByTypesExt"); (292, "TLI_GetDeviceListSize");
    (293, "TLI_BuildDeviceList"); (294, "TLI_GetDeviceList");
    (295, "TLI_GetDeviceListByType"); (296, "TLI_GetDeviceListByTypes");
    (297, "TLI_GetDeviceListByTypeExt"); (298, "TLI_GetDeviceListByTypesExt");
    (307, "TLI_GetDeviceListSize"); (308, "TLI_BuildDeviceList");
    (309, "TLI_GetDeviceList"); (310, "TLI_GetDeviceListByType");
    (311, "TLI_GetDeviceListByTypes"); (312, "TLI_GetDeviceListExt");
    (313, "TLI_GetDeviceListByTypesExt"); (323, "TLI_GetDeviceListSize");
    (324, "TLI_BuildDeviceList"); (325, "TLI_GetDeviceList");
    (326, "TLI_GetDeviceListByType"); (327, "TLI_GetDeviceListByTypes");
    (328, "TLI_GetDeviceListExt"); (329, "TLI_GetDeviceListByTypeExt");
    (335, "TLI_DeviceInfo"); (338, "TLI_GetDeviceListSize");
    (339, "TLI_BuildDeviceList"); (340, "TLI_GetDeviceList");
    (341, "TLI_GetDeviceListByType"); (342, "TLI_GetDeviceListByTypes");
    (343, "TLI_GetDeviceListExt"); (344, "TLI_GetDeviceListByTypeExt");
    (345, "TLI_GetDeviceListByTypesExt"); (352, "LS_Close"); (358, "LS_Open");
    (420, "LS_Enable"); (426, "LS_Disable"); (438, "LS_MessageQueueSize");
    (439, "LS_GetNextMessage"); (440, "LS_WaitForMessage");
    (447, "LS_RegisterMessageCallback"); (448, "LS_GetNextMessage");
    (449, "LS_WaitForMessage"); (459, "LS_RegisterMessageCallback");
    (460, "LS_MessageQueueSize"); (461, "LS_WaitForMessage");
    (471, "LS_RegisterMessageCallback"); (472, "LS_MessageQueueSize");
    (473, "LS_GetNextMessage"); (479, "LS_EnableOutput");
    (486, "LS_DisableOutput"); (492, "LS_SetControlSource");
    (493, "LS_GetControlSource"); (504, "LS_SetControlSource");
    (505, "LS_RequestControlSource"); (517, "LS_GetControlSource");
    (518, "LS_RequestControlSource"); (524, "LS_GetMMIParams");
    (525, "LS_SetMMIParams"); (526, "LS_GetMMIParamsBlock");
    (527, "LS_SetMMIParamsBlock"); (533, "LS_RequestMMIParams");
    (534, "LS_SetMMIParams"); (535, "LS_GetMMIParamsBlock");
    (536, "LS_SetMMIParamsBlock"); (543, "LS_RequestMMIParams");
    (544, "LS_GetMMIParams"); (545, "LS_GetMMIParamsBlock");
    (546, "LS_SetMMIParamsBlock"); (553, "LS_RequestMMIParams");
    (554, "LS_GetMMIParams"); (555, "LS_SetMMIParams");
    (556, "LS_SetMMIParamsBlock"); (563, "LS_RequestMMIParams");
    (564, "LS_GetMMIParams"); (565, "LS_SetMMIParams");
    (566, "LS_GetMMIParamsBlock"); (572, "LS_GetOPMode");
    (573, "LS_SetOPMode"); (583, "LS_RequestOPMode"); (584, "LS_SetOPMode");
    (594, "LS_RequestOPMode"); (595, "LS_GetOPMode");
    (601, "LS_GetTrigIOParams"); (602, "LS_SetTrigIOParams");
    (603, "LS_GetTrigIOParamsBlock"); (604, "LS_SetTrigIOParamsBlock");
    (644, "LS_RequestTrigIOParams"); (645, "LS_SetTrigIOParams");
    (646, "LS_GetTrigIOParamsBlock"); (647, "LS_SetTrigIOParamsBlock");
    (687, "LS_RequestTrigIOParams"); (688, "LS_GetTrigIOParams");
    (689, "LS_GetTrigIOParamsBlock"); (690, "LS_SetTrigIOParamsBlock");
    (697, "LS_RequestTrigIOParams"); (698, "LS_GetTrigIOParams");
    (699, "LS_SetTrigIOParams"); (700, "LS_SetTrigIOParamsBlock");
    (707, "LS_RequestTrigIOParams"); (708, "LS_GetTrigIOParams");
    (709, "LS_SetTrigIOParams"); (710, "LS_GetTrigIOParamsBlock");
    (725, "LS_GetLimits"); (731, "LS_GetWavelength");
    (737, "LS_RequestWavelength"); (745, "LS_RequestLimits");
    (751, "LS_GetPowerSet"); (752, "LS_SetPower"); (758, "LS_GetLimits");
    (759, "LS_SetPower"); (760, "LS_RequestSetPower"); (766, "LS_GetLimits");
    (768, "LS_GetPowerSet"); (769, "LS_RequestSetPower");
    (774, "LS_StartPolling"); (777, "LS_RequestReadings");
    (778, "LS_RequestStatusBits"); (779, "LS_GetStatusBits");
    (780, "LS_GetPowerReading"); (781, "LS_GetCurrentReading");
    (782, "LS_StartPolling"); (787, "LS_StartPolling");
    (790, "LS_GetPowerReading"); (791, "LS_GetCurrentReading");
    (792, "LS_RequestStatus"); (793, "LS_RequestStatusBits");
    (794, "LS_StartPolling"); (799, "LS_StartPolling");
    (802, "LS_GetStatusBits"); (803, "LS_RequestStatus");
    (804, "LS_RequestReadings"); (805, "LS_StartPolling");
    (810, "LS_RequestReadings"); (811, "LS_RequestStatus");
    (812, "LS_StartPolling"); (815, "LS_GetLimits");
    (816, "LS_GetCurrentReading"); (817, "LS_GetLimits");
    (818, "LS_RequestReadings"); (819, "LS_RequestStatus");
    (820, "LS_StartPolling"); (825, "LS_RequestReadings");
    (826, "LS_RequestStatus"); (827, "LS_StartPolling");
    (830, "LS_GetLimits"); (831, "LS_GetPowerReading"); (832, "LS_GetLimits");
    (833, "LS_RequestReadings"); (834, "LS_RequestStatus");
    (835, "LS_StartPolling"); (840, "LS_RequestStatusBits");
    (841, "LS_RequestStatus"); (842, "LS_StartPolling");
    (857, "LS_RequestStatusBits"); (858, "LS_RequestStatus");
    (859, "LS_StartPolling"); (866, "LS_StopPolling");
    (867, "LS_PollingDuration"); (868, "LS_RequestStatusBits");
    (869, "LS_RequestStatus"); (870, "LS_RequestReadings");
    (877, "LS_StartPolling"); (878, "LS_StopPolling");
    (884, "LS_StartPolling"); (885, "LS_PollingDuration");
    (894, "LS_EnableLastMsgTimer"); (895, "LS_HasLastMsgTimerOverrun");
    (904, "LS_TimeSinceLastMsgReceived"); (905, "LS_HasLastMsgTimerOverrun");
    (909, "LS_EnableLastMsgTimer"); (913, "LS_TimeSinceLastMsgReceived");
    (914, "LS_EnableLastMsgTimer") ]%nat.

End LaserSourceDocs.

(** ** The documentation comments of [Thorlabs.MotionControl.KCube.Solenoid.h] *)

Module SolenoidDocs.
Import CDecl Interface Documentation.
Local Open Scope Z_scope.

(** Every [<list type=table>] of the file. *)
Definition tables : list doc_table :=
  [
    {| dt_line := 78; dt_target := OfField "TLI_DeviceInfo" "motorType";
       dt_rows := [
         {| r_first := "MOT_NotMotor"; r_second := "0"; r_rest := "" |};
         {| r_first := "MOT_DCMotor"; r_second := "1"; r_rest := "" |};
         {| r_first := "MOT_StepperMotor"; r_second := "2"; r_rest := "" |};
         {| r_first := "MOT_BrushlessMotor"; r_second := "3"; r_rest := "" |};
         {| r_first := "MOT_CustomMotor"; r_second := "100"; r_rest := "" |} ] |};
    {| dt_line := 159; dt_target := OfEnumerator "SC_OperatingStates" "SC_Active";
       dt_rows := [
         {| r_first := "Manual"; r_second := "The solenoid is opened until the state becomes inactive."; r_rest := "" |};
         {| r_first := "Single"; r_second := "The solenoid is opened and closed once as defined by . On completion, the state becomes inactive."; r_rest := "" |};
         {| r_first := "Auto"; r_second := "The solenoid is repeatedly opened and closed as defined by . When the number of cycles completes, the state becomes inactive"; r_rest := "" |};
         {| r_first := "Triggered"; r_second := "The solenoid waits for a trigger and then opens and closes. The state remains active."; r_rest := "" |} ] |};
    {| dt_line := 217; dt_target := OfField "KSC_TriggerConfig" "Trigger1Mode";
       dt_rows := [
         {| r_first := "0"; r_second := "Trigger disabled"; r_rest := "" |};
         {| r_first := "1"; r_second := "Trigger Input - General purpose logic input ( GetStatusBits)"; r_rest := "" |};
         {| r_first := "10"; r_second := "Trigger Output - General purpose output ( SetDigitalOutputs)"; r_rest := "" |} ] |};
    {| dt_line := 226; dt_target := OfField "KSC_TriggerConfig" "Trigger1Polarity";
       dt_rows := [
         {| r_first := "1"; r_second := "Output high when set"; r_rest := "" |};
         {| r_first := "2"; r_second := "Output low when set"; r_rest := "" |} ] |};
    {| dt_line := 234; dt_target := OfField "KSC_TriggerConfig" "Trigger2Mode";
       dt_rows := [
         {| r_first := "0"; r_second := "Trigger disabled"; r_rest := "" |};
         {| r_first := "1"; r_second := "Trigger Input - General purpose logic input ( GetStatusBits)"; r_rest := "" |};
         {| r_first := "10"; r_second := "Trigger Output - General purpose output ( SetDigitalOutputs)"; r_rest := "" |} ] |};
    {| dt_line := 243; dt_target := OfField "KSC_TriggerConfig" "Trigger2Polarity";
       dt_rows := [
         {| r_first := "1"; r_second := "Output high when set"; r_rest := "" |};
         {| r_first := "2"; r_second := "Output low when set"; r_rest := "" |} ] |};
    {| dt_line := 613; dt_target := OfReturn "SC_GetStatusBits";
       dt_rows := [
         {| r_first := "0x00000001"; r_second := "Solenoid output state (1=Enabled, 0=Disabled)."; r_rest := "" |};
         {| r_first := "0x00000002"; r_second := "Not used."; r_rest := "" |};
         {| r_first := "0x00000004"; r_second := ""; r_rest := "" |};
         {| r_first := "..."; r_second := ""; r_rest := "" |};
         {| r_first := "0x00000800"; r_second := ""; r_rest := "" |};
         {| r_first := "0x00001000"; r_second := "Interlock state (1=Enabled, 0=Disabled)."; r_rest := "" |};
         {| r_first := "0x00002000"; r_second := "Not used."; r_rest := "" |};
         {| r_first := "0x00004000"; r_second := ""; r_rest := "" |};
         {| r_first := "..."; r_second := ""; r_rest := "" |};
         {| r_first := "0x40000000"; r_second := ""; r_rest := "" |};
         {| r_first := "0x80000000"; r_second := "Channel enabled (1=Enabled, 0=Disabled)."; r_rest := "" |} ] |};
    {| dt_line := 640; dt_target := OfReturn "SC_GetOperatingMode";
       dt_rows := [
         {| r_first := "Manual"; r_second := "1"; r_rest := "" |};
         {| r_first := "Single"; r_second := "2"; r_rest := "" |};
         {| r_first := "Auto"; r_second := "3"; r_rest := "" |};
         {| r_first := "Triggered"; r_second := "4"; r_rest := "" |} ] |};
    {| dt_line := 653; dt_target := OfParam "SC_SetOperatingMode" "mode";
       dt_rows := [
         {| r_first := "Manual"; r_second := "1"; r_rest := "" |};
         {| r_first := "Single"; r_second := "2"; r_rest := "" |};
         {| r_first := "Auto"; r_second := "3"; r_rest := "" |};
         {| r_first := "Triggered"; r_second := "4"; r_rest := "" |} ] |};
    {| dt_line := 667; dt_target := OfReturn "SC_GetSolenoidState";
       dt_rows := [
         {| r_first := "Open"; r_second := "1"; r_rest := "" |};
         {| r_first := "Closed"; r_second := "2"; r_rest := "" |} ] |};
    {| dt_line := 683; dt_target := OfReturn "SC_GetOperatingState";
       dt_rows := [
         {| r_first := "Active"; r_second := "1"; r_rest := "" |};
         {| r_first := "Inactive"; r_second := "2"; r_rest := "" |} ] |};
    {| dt_line := 694; dt_target := OfParam "SC_SetOperatingState" "state";
       dt_rows := [
         {| r_first := "Active"; r_second := "1"; r_rest := "" |};
         {| r_first := "Inactive"; r_second := "2"; r_rest := "" |} ] |};
    {| dt_line := 847; dt_target := OfParam "SC_GetTriggerConfigParams" "trigger1Mode";
       dt_rows := [
         {| r_first := "0"; r_second := "Trigger disabled"; r_rest := "" |};
         {| r_first := "1"; r_second := "Trigger Input - General purpose logic input ( GetStatusBits)"; r_rest := "" |};
         {| r_first := "10"; r_second := "Trigger Output - General purpose output ( SetDigitalOutputs)"; r_rest := "" |} ] |};
    {| dt_line := 852; dt_target := OfParam "SC_GetTriggerConfigParams" "trigger1Polarity";
       dt_rows := [
         {| r_first := "1"; r_second := "Output high when set"; r_rest := "" |};
         {| r_first := "2"; r_second := "Output low when set"; r_rest := "" |} ] |};
    {| dt_line := 856; dt_target := OfParam "SC_GetTriggerConfigParams" "trigger2Mode";
       dt_rows := [
         {| r_first := "0"; r_second := "Trigger disabled"; r_rest := "" |};
         {| r_first := "1"; r_second := "Trigger Input - General purpose logic input ( GetStatusBits)"; r_rest := "" |};
         {| r_first := "10"; r_second := "Trigger Output - General purpose output ( SetDigitalOutputs)"; r_rest := "" |} ] |};
    {| dt_line := 861; dt_target := OfParam "SC_GetTriggerConfigParams" "trigger2Polarity";
       dt_rows := [
         {| r_first := "1"; r_second := "Output high when set"; r_rest := "" |};
         {| r_first := "2"; r_second := "Output low when set"; r_rest := "" |} ] |};
    {| dt_line := 874; dt_target := OfParam "SC_SetTriggerConfigParams" "trigger1Mode";
       dt_rows := [
         {| r_first := "0"; r_second := "Trigger disabled"; r_rest := "" |};
         {| r_first := "1"; r_second := "Trigger Input - General purpose logic input ( GetStatusBits)"; r_rest := "" |};
         {| r_first := "10"; r_second := "Trigger Output - General purpose output ( SetDigitalOutputs)"; r_rest := "" |} ] |};
    {| dt_line := 879; dt_target := OfParam "SC_SetTriggerConfigParams" "trigger1Polarity";
       dt_rows := [
         {| r_first := "1"; r_second := "Output high when set"; r_rest := "" |};
         {| r_first := "2"; r_second := "Output low when set"; r_rest := "" |} ] |};
    {| dt_line := 883; dt_target := OfParam "SC_SetTriggerConfigParams" "trigger2Mode";
       dt_rows := [
         {| r_first := "0"; r_second := "Trigger disabled"; r_rest := "" |};
         {| r_first := "1"; r_second := "Trigger Input - General purpose logic input ( GetStatusBits)"; r_rest := "" |};
         {| r_first := "10"; r_second := "Trigger Output - General purpose output ( SetDigitalOutputs)"; r_rest := "" |} ] |};
    {| dt_line := 888; dt_target := OfParam "SC_SetTriggerConfigParams" "trigger2Polarity";
       dt_rows := [
         {| r_first := "1"; r_second := "Output high when set"; r_rest := "" |};
         {| r_first := "2"; r_second := "Output low when set"; r_rest := "" |} ] |} ].

(** The comment in front of every function. *)
Definition comments : list comment :=
  [
    {| c_function := "TLI_BuildDeviceList"; c_line := 255;
       c_tokens := [
        DOpen "summary" None;
        DText "Build the DeviceList.";
        DClose "summary";
        DOpen "remarks" None;
        DText "This function builds an internal collection of all devices found on the USB that are not currently open.";
        DEmpty "br" None;
        DText "NOTE, if a device is open, it will not appear in the list until the device has been closed.";
        DClose "remarks";
        DOpen "returns" None;
        DText "The error code (see";
        DRef "C_DLL_ERRORCODES_page" "Error Codes";
        DText ") or zero if successful.";
        DClose "returns";
        DInclude "CodeSnippet_identification.cpp";
        DEmpty "seealso" (Some ("cref", "TLI_GetDeviceListSize()"));
        DEmpty "seealso" (Some ("cref", "TLI_GetDeviceList(SAFEARRAY** stringsReceiver)"));
        DEmpty "seealso" (Some ("cref", "TLI_GetDeviceListByType(SAFEARRAY** stringsReceiver, int typeID)"));
        DEmpty "seealso" (Some ("cref", "TLI_GetDeviceListByTypes(SAFEARRAY** stringsReceiver, int * typeIDs, int length)"));
        DEmpty "seealso" (Some ("cref", "TLI_GetDeviceListExt(char *receiveBuffer, DWORD sizeOfBuffer)"));
        DEmpty "seealso" (Some ("cref", "TLI_GetDeviceListByTypeExt(char *receiveBuffer, DWORD sizeOfBuffer, int typeID)"));
        DEmpty "seealso" (Some ("cref", "TLI_GetDeviceListByTypesExt(char *receiveBuffer, DWORD sizeOfBuffer, int * typeIDs, int length)")) ] |};
    {| c_function := "TLI_GetDeviceListSize"; c_line := 269;
       c_tokens := [
        DOpen "summary" None;
        DText "Gets the device list size.";
        DClose "summary";
        DInclude "CodeSnippet_identification.cpp";
        DOpen "returns" None;
        DText "Number of devices in device list.";
        DClose "returns";
        DEmpty "seealso" (Some ("cref", "TLI_BuildDeviceList()"));
        DEmpty "seealso" (Some ("cref", "TLI_GetDeviceList(SAFEARRAY** stringsReceiver)"));
        DEmpty "seealso" (Some ("cref", "TLI_GetDeviceListByType(SAFEARRAY** stringsReceiver, int typeID)"));
        DEmpty "seealso" (Some ("cref", "TLI_GetDeviceListByTypes(SAFEARRAY** stringsReceiver, int * typeIDs, int length)"));
        DEmpty "seealso" (Some ("cref", "TLI_GetDeviceListExt(char *receiveBuffer, DWORD sizeOfBuffer)"));
        DEmpty "seealso" (Some ("cref", "TLI_GetDeviceListByTypeExt(char *receiveBuffer, DWORD sizeOfBuffer, int typeID)"));
        DEmpty "seealso" (Some ("cref", "TLI_GetDeviceListByTypesExt(char *receiveBuffer, DWORD sizeOfBuffer, int * typeIDs, int length)")) ] |};
    {| c_function := "TLI_GetDeviceList"; c_line := 281;
       c_tokens := [
        DOpen "summary" None;
        DText "Get the entire contents of the device list.";
        DClose "summary";
        DOpen "param" (Some ("name", "stringsReceiver"));
        DText "Outputs a SAFEARRAY of strings holding device serial numbers.";
        DClose "param";
        DOpen "returns" None;
        DText "The error code (see";
        DRef "C_DLL_ERRORCODES_page" "Error Codes";
        DText ") or zero if successful.";
        DClose "returns";
        DInclude "CodeSnippet_identification.cpp";
        DEmpty "seealso" (Some ("cref", "TLI_GetDeviceListSize()"));
        DEmpty "seealso" (Some ("cref", "TLI_BuildDeviceList()"));
        DEmpty "seealso" (Some ("cref", "TLI_GetDeviceListByType(SAFEARRAY** stringsReceiver, int typeID)"));
        DEmpty "seealso" (Some ("cref", "TLI_GetDeviceListByTypes(SAFEARRAY** stringsReceiver, int * typeIDs, int length)"));
        DEmpty "seealso" (Some ("cref", "TLI_GetDeviceListExt(char *receiveBuffer, DWORD sizeOfBuffer)"));
        DEmpty "seealso" (Some ("cref", "TLI_GetDeviceListByTypeExt(char *receiveBuffer, DWORD sizeOfBuffer, int typeID)"));
        DEmpty "seealso" (Some ("cref", "TLI_GetDeviceListByTypesExt(char *receiveBuffer, DWORD sizeOfBuffer, int * typeIDs, int length)")) ] |};
    {| c_function := "TLI_GetDeviceListByType"; c_line := 294;
       c_tokens := [
        DOpen "summary" None;
        DText "Get the contents of the device list which match the supplied typeID.";
        DClose "summary";
        DOpen "param" (Some ("name", "stringsReceiver"));
        DText "Outputs a SAFEARRAY of strings holding device serial numbers.";
        DClose "param";
        DOpen "param" (Some ("name", "typeID"));
        DText "The typeID of devices to match, see";
        DRef "C_DEVICEID_page" "Device serial numbers";
        DText ".";
        DClose "param";
        DOpen "returns" None;
        DText "The error code (see";
        DRef "C_DLL_ERRORCODES_page" "Error Codes";
        DText ") or zero if successful.";
        DClose "returns";
        DInclude "CodeSnippet_identification.cpp";
        DEmpty "seealso" (Some ("cref", "TLI_GetDeviceListSize()"));
        DEmpty "seealso" (Some ("cref", "TLI_BuildDeviceList()"));
        DEmpty "seealso" (Some ("cref", "TLI_GetDeviceList(SAFEARRAY** stringsReceiver)"));
        DEmpty "seealso" (Some ("cref", "TLI_GetDeviceListByTypes(SAFEARRAY** stringsReceiver, int * typeIDs, int length)"));
        DEmpty "seealso" (Some ("cref", "TLI_GetDeviceListExt(char *receiveBuffer, DWORD sizeOfBuffer)"));
        DEmpty "seealso" (Some ("cref", "TLI_GetDeviceListByTypeExt(char *receiveBuffer, DWORD sizeOfBuffer, int typeID)"));
        DEmpty "seealso" (Some ("cref", "TLI_GetDeviceListByTypesExt(char *receiveBuffer, DWORD sizeOfBuffer, int * typeIDs, int length)")) ] |};
    {| c_function := "TLI_GetDeviceListByTypes"; c_line := 308;
       c_tokens := [
        DOpen "summary" None;
        DText "Get the contents of the device list which match the supplied typeIDs.";
        DClose "summary";
        DOpen "param" (Some ("name", "stringsReceiver"));
        DText "Outputs a SAFEARRAY of strings holding device serial numbers.";
        DClose "param";
        DOpen "param" (Some ("name", "typeIDs"));
        DText "list of typeIDs of devices to be matched, see";
        DRef "C_DEVICEID_page" "Device serial numbers";
        DClose "param";
        DOpen "param" (Some ("name", "length"));
        DText "length of type list";
        DClose "param";
        DOpen "returns" None;
        DText "The error code (see";
        DRef "C_DLL_ERRORCODES_page" "Error Codes";
        DText ") or zero if successful.";
        DClose "returns";
        DInclude "CodeSnippet_identification.cpp";
        DEmpty "seealso" (Some ("cref", "TLI_GetDeviceListSize()"));
        DEmpty "seealso" (Some ("cref", "TLI_BuildDeviceList()"));
        DEmpty "seealso" (Some ("cref", "TLI_GetDeviceList(SAFEARRAY** stringsReceiver)"));
        DEmpty "seealso" (Some ("cref", "TLI_GetDeviceListByType(SAFEARRAY** stringsReceiver, int typeID)"));
        DEmpty "seealso" (Some ("cref", "TLI_GetDeviceListExt(char *receiveBuffer, DWORD sizeOfBuffer)"));
        DEmpty "seealso" (Some ("cref", "TLI_GetDeviceListByTypeExt(char *receiveBuffer, DWORD sizeOfBuffer, int typeID)"));
        DEmpty "seealso" (Some ("cref", "TLI_GetDeviceListByTypesExt(char *receiveBuffer, DWORD sizeOfBuffer, int * typeIDs, int length)")) ] |};
    {| c_function := "TLI_GetDeviceListExt"; c_line := 323;
       c_tokens := [
        DOpen "summary" None;
        DText "Get the entire contents of the device list.";
        DClose "summary";
        DOpen "param" (Some ("name", "receiveBuffer"));
        DText "a buffer in which to receive the list as a comma separated string.";
        DClose "param";
        DOpen "param" (Some ("name", "sizeOfBuffer"));
        DText "The size of the output string buffer.";
        DClose "param";
        DOpen "returns" None;
        DText "The error code (see";
        DRef "C_DLL_ERRORCODES_page" "Error Codes";
        DText ") or zero if successful.";
        DClose "returns";
        DInclude "CodeSnippet_identification.cpp";
        DEmpty "seealso" (Some ("cref", "TLI_GetDeviceListSize()"));
        DEmpty "seealso" (Some ("cref", "TLI_BuildDeviceList()"));
        DEmpty "seealso" (Some ("cref", "TLI_GetDeviceList(SAFEARRAY** stringsReceiver)"));
        DEmpty "seealso" (Some ("cref", "TLI_GetDeviceListByType(SAFEARRAY** stringsReceiver, int typeID)"));
        DEmpty "seealso" (Some ("cref", "TLI_GetDeviceListByTypes(SAFEARRAY** stringsReceiver, int * typeIDs, int length)"));
        DEmpty "seealso" (Some ("cref", "TLI_GetDeviceListByTypeExt(char *receiveBuffer, DWORD sizeOfBuffer, int typeID)"));
        DEmpty "seealso" (Some ("cref", "TLI_GetDeviceListByTypesExt(char *receiveBuffer, DWORD sizeOfBuffer, int * typeIDs, int length)")) ] |};
    {| c_function := "TLI_GetDeviceListByTypeExt"; c_line := 337;
       c_tokens := [
        DOpen "summary" None;
        DText "Get the contents of the device list which match the supplied typeID.";
        DClose "summary";
        DOpen "param" (Some ("name", "receiveBuffer"));
        DText "a buffer in which to receive the list as a comma separated string.";
        DClose "param";
        DOpen "param" (Some ("name", "sizeOfBuffer"));
        DText "The size of the output string buffer.";
        DClose "param";
        DOpen "param" (Some ("name", "typeID"));
        DText "The typeID of devices to be matched, see";
        DRef "C_DEVICEID_page" "Device serial numbers";
        DClose "param";
        DOpen "returns" None;
        DText "The error code (see";
        DRef "C_DLL_ERRORCODES_page" "Error Codes";
        DText ") or zero if successful.";
        DClose "returns";
        DInclude "CodeSnippet_identification.cpp";
        DEmpty "seealso" (Some ("cref", "TLI_GetDeviceListSize()"));
        DEmpty "seealso" (Some ("cref", "TLI_BuildDeviceList()"));
        DEmpty "seealso" (Some ("cref", "TLI_GetDeviceList(SAFEARRAY** stringsReceiver)"));
        DEmpty "seealso" (Some ("cref", "TLI_GetDeviceListByType(SAFEARRAY** stringsReceiver, int typeID)"));
        DEmpty "seealso" (Some ("cref", "TLI_GetDeviceListByTypes(SAFEARRAY** stringsReceiver, int * typeIDs, int length)"));
        DEmpty "seealso" (Some ("cref", "TLI_GetDeviceListExt(char *receiveBuffer, DWORD sizeOfBuffer)"));
        DEmpty "seealso" (Some ("cref", "TLI_GetDeviceListByTypesExt(char *receiveBuffer, DWORD sizeOfBuffer, int * typeIDs, int length)")) ] |};
    {| c_function := "TLI_GetDeviceListByTypesExt"; c_line := 352;
       c_tokens := [
        DOpen "summary" None;
        DText "Get the contents of the device list which match the supplied typeIDs.";
        DClose "summary";
        DOpen "param" (Some ("name", "receiveBuffer"));
        DText "a buffer in which to receive the list as a comma separated string.";
        DClose "param";
        DOpen "param" (Some ("name", "sizeOfBuffer"));
        DText "The size of the output string buffer.";
        DClose "param";
        DOpen "param" (Some ("name", "typeIDs"));
        DText "list of typeIDs of devices to be matched, see";
        DRef "C_DEVICEID_page" "Device serial numbers";
        DClose "param";
        DOpen "param" (Some ("name", "length"));
        DText "length of type list";
        DClose "param";
        DOpen "returns" None;
        DText "The error code (see";
        DRef "C_DLL_ERRORCODES_page" "Error Codes";
        DText ") or zero if successful.";
        DClose "returns";
        DInclude "CodeSnippet_identification.cpp";
        DEmpty "seealso" (Some ("cref", "TLI_GetDeviceListSize()"));
        DEmpty "seealso" (Some ("cref", "TLI_BuildDeviceList()"));
        DEmpty "seealso" (Some ("cref", "TLI_GetDeviceList(SAFEARRAY** stringsReceiver)"));
        DEmpty "seealso" (Some ("cref", "TLI_GetDeviceListByType(SAFEARRAY** stringsReceiver, int typeID)"));
        DEmpty "seealso" (Some ("cref", "TLI_GetDeviceListByTypes(SAFEARRAY** stringsReceiver, int * typeIDs, int length)"));
        DEmpty "seealso" (Some ("cref", "TLI_GetDeviceListExt(char *receiveBuffer, DWORD sizeOfBuffer)"));
        DEmpty "seealso" (Some ("cref", "TLI_GetDeviceListByTypeExt(char *receiveBuffer, DWORD sizeOfBuffer, int typeID)")) ] |};
    {| c_function := "TLI_GetDeviceInfo"; c_line := 368;
       c_tokens := [
        DOpen "summary" None;
        DText "Get the device information from the USB port.";
        DClose "summary";
        DOpen "remarks" None;
        DText "The Device Info is read from the USB port not from the device itself.";
        DOpen "remarks" None;
        DOpen "param" (Some ("name", "serialNo"));
        DText "The serial number of the device.";
        DClose "param";
        DOpen "param" (Some ("name", "info"));
        DText "The";
        DEmpty "see" (Some ("cref", "TLI_DeviceInfo"));
        DText "device information.";
        DClose "param";
        DOpen "returns" None;
        DText "1 if successful, 0 if not.";
        DClose "returns";
        DInclude "CodeSnippet_identification.cpp";
        DEmpty "seealso" (Some ("cref", "TLI_GetDeviceListSize()"));
        DEmpty "seealso" (Some ("cref", "TLI_BuildDeviceList()"));
        DEmpty "seealso" (Some ("cref", "TLI_GetDeviceList(SAFEARRAY** stringsReceiver)"));
        DEmpty "seealso" (Some ("cref", "TLI_GetDeviceListByType(SAFEARRAY** stringsReceiver, int typeID)"));
        DEmpty "seealso" (Some ("cref", "TLI_GetDeviceListByTypes(SAFEARRAY** stringsReceiver, int * typeIDs, int length)"));
        DEmpty "seealso" (Some ("cref", "TLI_GetDeviceListExt(char *receiveBuffer, DWORD sizeOfBuffer)"));
        DEmpty "seealso" (Some ("cref", "TLI_GetDeviceListByTypeExt(char *receiveBuffer, DWORD sizeOfBuffer, int typeID)"));
        DEmpty "seealso" (Some ("cref", "TLI_GetDeviceListByTypesExt(char *receiveBuffer, DWORD sizeOfBuffer, int * typeIDs, int length)")) ] |};
    {| c_function := "SC_Open"; c_line := 384;
       c_tokens := [
        DOpen "summary" None;
        DText "Open the device for communications.";
        DClose "summary";
        DOpen "param" (Some ("name", "serialNo"));
        DText "The serial no of the device to be connected.";
        DClose "param";
        DOpen "returns" None;
        DText "The error code (see";
        DRef "C_DLL_ERRORCODES_page" "Error Codes";
        DText ") or zero if successful.";
        DClose "returns";
        DInclude "CodeSnippet_connection1.cpp";
        DEmpty "seealso" (Some ("cref", "SC_Close(char const * serialNo)")) ] |};
    {| c_function := "SC_Close"; c_line := 391;
       c_tokens := [
        DOpen "summary" None;
        DText "Disconnect and close the device.";
        DClose "summary";
        DOpen "param" (Some ("name", "serialNo"));
        DText "The serial no of the device to be disconnected.";
        DClose "param";
        DInclude "CodeSnippet_connection1.cpp";
        DEmpty "seealso" (Some ("cref", "SC_Open(char const * serialNo)")) ] |};
    {| c_function := "SC_CheckConnection"; c_line := 397;
       c_tokens := [
        DOpen "summary" None;
        DText "Check connection.";
        DClose "summary";
        DOpen "param" (Some ("name", "serialNo"));
        DText "The device serial no.";
        DClose "param";
        DOpen "returns" None;
        DText "true if the USB is listed by the ftdi controller";
        DClose "returns";
        DInclude "CodeSnippet_CheckConnection.cpp" ] |};
    {| c_function := "SC_Identify"; c_line := 403;
       c_tokens := [
        DOpen "summary" None;
        DText "Sends a command to the device to make it identify iteself.";
        DClose "summary";
        DOpen "param" (Some ("name", "serialNo"));
        DText "The device serial no.";
        DClose "param" ] |};
    {| c_function := "SC_RequestLEDswitches"; c_line := 407;
       c_tokens := [
        DOpen "summary" None;
        DText "Requests the LED indicator bits on cube.";
        DClose "summary";
        DOpen "param" (Some ("name", "serialNo"));
        DText "The device serial no.";
        DClose "param";
        DOpen "returns" None;
        DText "The error code (see";
        DRef "C_DLL_ERRORCODES_page" "Error Codes";
        DText ") or zero if successful.";
        DClose "returns";
        DEmpty "seealso" (Some ("cref", "SC_GetLEDswitches(char const * serialNo)"));
        DEmpty "seealso" (Some ("cref", "SC_SetLEDswitches(char const * serialNo, WORD LEDswitches)")) ] |};
    {| c_function := "SC_GetLEDswitches"; c_line := 414;
       c_tokens := [
        DOpen "summary" None;
        DText "Get the LED indicator bits on cube.";
        DClose "summary";
        DOpen "param" (Some ("name", "serialNo"));
        DText "The device serial no.";
        DClose "param";
        DOpen "returns" None;
        DText "Sum of: 8 to indicate moving 2 to indicate end of track and 1 to flash on identify command.";
        DClose "returns";
        DEmpty "seealso" (Some ("cref", "SC_RequestLEDswitches(char const * serialNo)"));
        DEmpty "seealso" (Some ("cref", "SC_SetLEDswitches(char const * serialNo, WORD LEDswitches)")) ] |};
    {| c_function := "SC_SetLEDswitches"; c_line := 421;
       c_tokens := [
        DOpen "summary" None;
        DText "Set the LED indicator bits on cube.";
        DClose "summary";
        DOpen "param" (Some ("name", "serialNo"));
        DText "The device serial no.";
        DClose "param";
        DOpen "param" (Some ("name", "LEDswitches"));
        DText "Sum of: 8 to indicate moving 2 to indicate end of track and 1 to flash on identify command.";
        DClose "param";
        DOpen "returns" None;
        DText "The error code (see";
        DRef "C_DLL_ERRORCODES_page" "Error Codes";
        DText ") or zero if successful.";
        DClose "returns";
        DEmpty "seealso" (Some ("cref", "SC_RequestLEDswitches(char const * serialNo)"));
        DEmpty "seealso" (Some ("cref", "SC_GetLEDswitches(char const * serialNo)")) ] |};
    {| c_function := "SC_GetHardwareInfo"; c_line := 429;
       c_tokens := [
        DOpen "summary" None;
        DText "Gets the hardware information from the device.";
        DClose "summary";
        DOpen "param" (Some ("name", "serialNo"));
        DText "The device serial no.";
        DClose "param";
        DOpen "param" (Some ("name", "modelNo"));
        DText "Address of a buffer to receive the model number string. Minimum 8 characters";
        DClose "param";
        DOpen "param" (Some ("name", "sizeOfModelNo"));
        DText "The size of the model number buffer, minimum of 8 characters.";
        DClose "param";
        DOpen "param" (Some ("name", "type"));
        DText "Address of a WORD to receive the hardware type number.";
        DClose "param";
        DOpen "param" (Some ("name", "numChannels"));
        DText "Address of a short to receive the number of channels.";
        DClose "param";
        DOpen "param" (Some ("name", "notes"));
        DText "Address of a buffer to receive the notes describing the device.";
        DClose "param";
        DOpen "param" (Some ("name", "sizeOfNotes"));
        DText "The size of the notes buffer, minimum of 48 characters.";
        DClose "param";
        DOpen "param" (Some ("name", "firmwareVersion"));
        DText "Address of a DWORD to receive the firmware version number made up of 4 byte parts.";
        DClose "param";
        DOpen "param" (Some ("name", "hardwareVersion"));
        DText "Address of a WORD to receive the hardware version number.";
        DClose "param";
        DOpen "param" (Some ("name", "modificationState"));
        DText "Address of a WORD to receive the hardware modification state number.";
        DClose "param";
        DOpen "returns" None;
        DText "The error code (see";
        DRef "C_DLL_ERRORCODES_page" "Error Codes";
        DText ") or zero if successful.";
        DClose "returns";
        DInclude "CodeSnippet_identify.cpp" ] |};
    {| c_function := "SC_GetHardwareInfoBlock"; c_line := 445;
       c_tokens := [
        DOpen "summary" None;
        DText "Gets the hardware information in a block.";
        DClose "summary";
        DOpen "param" (Some ("name", "serialNo"));
        DText "The device serial no.";
        DClose "param";
        DOpen "param" (Some ("name", "hardwareInfo"));
        DText "Address of a TLI_HardwareInformation structure to receive the hardware information.";
        DClose "param";
        DOpen "returns" None;
        DText "The error code (see";
        DRef "C_DLL_ERRORCODES_page" "Error Codes";
        DText ") or zero if successful.";
        DClose "returns";
        DInclude "CodeSnippet_identify.cpp" ] |};
    {| c_function := "SC_RequestHubBay"; c_line := 452;
       c_tokens := [
        DOpen "summary" None;
        DText "Requests the hub bay number this device is fitted to.";
        DClose "summary";
        DOpen "param" (Some ("name", "serialNo"));
        DText "The serial no.";
        DClose "param";
        DOpen "returns" None;
        DText "The error code (see";
        DRef "C_DLL_ERRORCODES_page" "Error Codes";
        DText ") or zero if successful.";
        DClose "returns";
        DEmpty "seealso" (Some ("cref", "SC_GetHubBay(char const * serialNo)")) ] |};
    {| c_function := "SC_GetHubBay"; c_line := 458;
       c_tokens := [
        DOpen "summary" None;
        DText "Gets the hub bay number this device is fitted to.";
        DClose "summary";
        DOpen "param" (Some ("name", "serialNo"));
        DText "The device serial no.";
        DClose "param";
        DOpen "returns" None;
        DText "The number, 0x00 if unknown or 0xff if not on a hub.";
        DClose "returns";
        DEmpty "seealso" (Some ("cref", "SC_RequestHubBay(char const * serialNo)")) ] |};
    {| c_function := "SC_GetSoftwareVersion"; c_line := 464;
       c_tokens := [
        DOpen "summary" None;
        DText "Gets version number of the device software.";
        DClose "summary";
        DOpen "param" (Some ("name", "serialNo"));
        DText "The device serial no.";
        DClose "param";
        DOpen "returns" None;
        DText "The device software version number made up of 4 byte parts.";
        DClose "returns";
        DInclude "CodeSnippet_identify.cpp" ] |};
    {| c_function := "SC_LoadSettings"; c_line := 470;
       c_tokens := [
        DOpen "summary" None;
        DText "Update device with stored settings.";
        DClose "summary";
        DOpen "param" (Some ("name", "serialNo"));
        DText "The device serial no.";
        DClose "param";
        DOpen "returns" None;
        DOpen "c" None;
        DText "true";
        DClose "c";
        DText "if successful, false if not.";
        DClose "returns";
        DInclude "CodeSnippet_connection1.cpp" ] |};
    {| c_function := "SC_PersistSettings"; c_line := 476;
       c_tokens := [
        DOpen "summary" None;
        DText "persist the devices current settings.";
        DClose "summary";
        DOpen "param" (Some ("name", "serialNo"));
        DText "The device serial no.";
        DClose "param";
        DOpen "returns" None;
        DOpen "c" None;
        DText "true";
        DClose "c";
        DText "if successful, false if not.";
        DClose "returns" ] |};
    {| c_function := "SC_ClearMessageQueue"; c_line := 481;
       c_tokens := [
        DOpen "summary" None;
        DText "Clears the device message queue.";
        DClose "summary";
        DOpen "remarks" None;
        DText "see";
        DRef "C_MESSAGES_page" "Device Messages";
        DText "for details on how to use messages.";
        DClose "remarks";
        DOpen "param" (Some ("name", "serialNo"));
        DText "The device serial no.";
        DClose "param" ] |};
    {| c_function := "SC_RegisterMessageCallback"; c_line := 486;
       c_tokens := [
        DOpen "summary" None;
        DText "Registers a callback on the message queue.";
        DClose "summary";
        DOpen "remarks" None;
        DText "see";
        DRef "C_MESSAGES_page" "Device Messages";
        DText "for details on how to use messages.";
        DClose "remarks";
        DOpen "param" (Some ("name", "serialNo"));
        DText "The device serial no.";
        DClose "param";
        DOpen "param" (Some ("name", "functionPointer"));
        DText "A function pointer to be called whenever messages are received.";
        DClose "param";
        DEmpty "seealso" (Some ("cref", "SC_MessageQueueSize(char const * serialNo)"));
        DEmpty "seealso" (Some ("cref", "SC_GetNextMessage(char const * serialNo, WORD * messageType, WORD * messageID, DWORD *messageData)"));
        DEmpty "seealso" (Some ("cref", "SC_WaitForMessage(char const * serialNo, WORD * messageType, WORD * messageID, DWORD *messageData)")) ] |};
    {| c_function := "SC_MessageQueueSize"; c_line := 495;
       c_tokens := [
        DOpen "summary" None;
        DText "Gets the MessageQueue size.";
        DClose "summary";
        DOpen "remarks" None;
        DText "see";
        DRef "C_MESSAGES_page" "Device Messages";
        DText "for details on how to use messages.";
        DClose "remarks";
        DOpen "param" (Some ("name", "serialNo"));
        DText "The device serial no.";
        DClose "param";
        DOpen "returns" None;
        DText "number of messages in the queue.";
        DClose "returns";
        DEmpty "seealso" (Some ("cref", "SC_RegisterMessageCallback(char const * serialNo, void (* functionPointer)())"));
        DEmpty "seealso" (Some ("cref", "SC_GetNextMessage(char const * serialNo, WORD * messageType, WORD * messageID, DWORD *messageData)"));
        DEmpty "seealso" (Some ("cref", "SC_WaitForMessage(char const * serialNo, WORD * messageType, WORD * messageID, DWORD *messageData)")) ] |};
    {| c_function := "SC_GetNextMessage"; c_line := 504;
       c_tokens := [
        DOpen "summary" None;
        DText "Get the next MessageQueue item.";
        DClose "summary";
        DOpen "remarks" None;
        DText "see";
        DRef "C_MESSAGES_page" "Device Messages";
        DText "for details on how to use messages.";
        DClose "remarks";
        DOpen "param" (Some ("name", "serialNo"));
        DText "The device serial no.";
        DClose "param";
        DOpen "param" (Some ("name", "messageType"));
        DText "The address of the parameter to receive the message Type.";
        DClose "param";
        DOpen "param" (Some ("name", "messageID"));
        DText "The address of the parameter to receive the message id.";
        DClose "param";
        DOpen "param" (Some ("name", "messageData"));
        DText "The address of the parameter to receive the message data.";
        DClose "param";
        DOpen "returns" None;
        DOpen "c" None;
        DText "true";
        DClose "c";
        DText "if successful, false if not.";
        DClose "returns";
        DEmpty "seealso" (Some ("cref", "SC_RegisterMessageCallback(char const * serialNo, void (* functionPointer)())"));
        DEmpty "seealso" (Some ("cref", "SC_MessageQueueSize(char const * serialNo)"));
        DEmpty "seealso" (Some ("cref", "SC_WaitForMessage(char const * serialNo, WORD * messageType, WORD * messageID, DWORD *messageData)")) ] |};
    {| c_function := "SC_WaitForMessage"; c_line := 516;
       c_tokens := [
        DOpen "summary" None;
        DText "Wait for next MessageQueue item.";
        DClose "summary";
        DOpen "remarks" None;
        DText "see";
        DRef "C_MESSAGES_page" "Device Messages";
        DText "for details on how to use messages.";
        DClose "remarks";
        DOpen "param" (Some ("name", "serialNo"));
        DText "The device serial no.";
        DClose "param";
        DOpen "param" (Some ("name", "messageType"));
        DText "The address of the parameter to receive the message Type.";
        DClose "param";
        DOpen "param" (Some ("name", "messageID"));
        DText "The address of the parameter to receive the message id.";
        DClose "param";
        DOpen "param" (Some ("name", "messageData"));
        DText "The address of the parameter to receive the message data.";
        DClose "param";
        DOpen "returns" None;
        DOpen "c" None;
        DText "true";
        DClose "c";
        DText "if successful, false if not.";
        DClose "returns";
        DEmpty "seealso" (Some ("cref", "SC_RegisterMessageCallback(char const * serialNo, void (* functionPointer)())"));
        DEmpty "seealso" (Some ("cref", "SC_MessageQueueSize(char const * serialNo)"));
        DEmpty "seealso" (Some ("cref", "SC_GetNextMessage(char const * serialNo, WORD * messageType, WORD * messageID, DWORD *messageData)")) ] |};
    {| c_function := "SC_StartPolling"; c_line := 528;
       c_tokens := [
        DOpen "summary" None;
        DText "Starts the internal polling loop which continuously requests position and status.";
        DClose "summary";
        DOpen "param" (Some ("name", "serialNo"));
        DText "The device serial no.";
        DClose "param";
        DOpen "param" (Some ("name", "milliseconds"));
        DText "The milliseconds polling rate.";
        DClose "param";
        DOpen "returns" None;
        DOpen "c" None;
        DText "true";
        DClose "c";
        DText "if successful, false if not.";
        DClose "returns";
        DEmpty "seealso" (Some ("cref", "SC_StopPolling(char const * serialNo)"));
        DEmpty "seealso" (Some ("cref", "SC_PollingDuration(char const * serialNo)"));
        DEmpty "seealso" (Some ("cref", "SC_RequestStatusBits(char const * serialNo)"));
        DInclude "CodeSnippet_connection1.cpp" ] |};
    {| c_function := "SC_PollingDuration"; c_line := 538;
       c_tokens := [
        DOpen "summary" None;
        DText "Gets the polling loop duration.";
        DClose "summary";
        DOpen "param" (Some ("name", "serialNo"));
        DText "The device serial no.";
        DClose "param";
        DOpen "returns" None;
        DText "The time between polls in milliseconds or 0 if polling is not active.";
        DClose "returns";
        DEmpty "seealso" (Some ("cref", "SC_StartPolling(char const * serialNo, int milliseconds)"));
        DEmpty "seealso" (Some ("cref", "SC_StopPolling(char const * serialNo)"));
        DInclude "CodeSnippet_connection1.cpp" ] |};
    {| c_function := "SC_StopPolling"; c_line := 546;
       c_tokens := [
        DOpen "summary" None;
        DText "Stops the internal polling loop.";
        DClose "summary";
        DOpen "param" (Some ("name", "serialNo"));
        DText "The device serial no.";
        DClose "param";
        DEmpty "seealso" (Some ("cref", "SC_StartPolling(char const * serialNo, int milliseconds)"));
        DEmpty "seealso" (Some ("cref", "SC_PollingDuration(char const * serialNo)"));
        DInclude "CodeSnippet_connection1.cpp" ] |};
    {| c_function := "SC_TimeSinceLastMsgReceived"; c_line := 553;
       c_tokens := [
        DOpen "summary" None;
        DText "Gets the time in milliseconds since tha last message was received from the device.";
        DClose "summary";
        DOpen "remarks" None;
        DText "This can be used to determine whether communications with the device is still good";
        DClose "remarks";
        DOpen "param" (Some ("name", "serialNo"));
        DText "The device serial no.";
        DClose "param";
        DOpen "param" (Some ("name", "lastUpdateTimeMS"));
        DText "The time since the last message was received in milliseconds.";
        DClose "param";
        DOpen "returns" None;
        DText "True if monitoring is enabled otherwize False.";
        DClose "returns";
        DEmpty "seealso" (Some ("cref", "SC_EnableLastMsgTimer(char const * serialNo, bool enable, __int32 lastMsgTimeout )"));
        DEmpty "seealso" (Some ("cref", "SC_HasLastMsgTimerOverrun(char const * serialNo)"));
        DInclude "CodeSnippet_connectionMonitoring.cpp" ] |};
    {| c_function := "SC_EnableLastMsgTimer"; c_line := 563;
       c_tokens := [
        DOpen "summary" None;
        DText "Enables the last message monitoring timer.";
        DClose "summary";
        DOpen "remarks" None;
        DText "This can be used to determine whether communications with the device is still good";
        DClose "remarks";
        DOpen "param" (Some ("name", "serialNo"));
        DText "The device serial no.";
        DClose "param";
        DOpen "param" (Some ("name", "enable"));
        DText "True to enable monitoring otherwise False to disable.";
        DClose "param";
        DOpen "param" (Some ("name", "lastMsgTimeout"));
        DText "The last message error timeout in ms. 0 to disable.";
        DClose "param";
        DEmpty "seealso" (Some ("cref", "SC_TimeSinceLastMsgReceived(char const * serialNo, __int64 &lastUpdateTimeMS )"));
        DEmpty "seealso" (Some ("cref", "SC_HasLastMsgTimerOverrun(char const * serialNo)"));
        DInclude "CodeSnippet_connectionMonitoring.cpp" ] |};
    {| c_function := "SC_HasLastMsgTimerOverrun"; c_line := 573;
       c_tokens := [
        DOpen "summary" None;
        DText "Queries if the time since the last message has exceeded the lastMsgTimeout set by";
        DEmpty "see" (Some ("cref", "SC_EnableLastMsgTimer(char const * serialNo, bool enable, __int32 lastMsgTimeout )"));
        DText ".";
        DClose "summary";
        DOpen "remarks" None;
        DText "This can be used to determine whether communications with the device is still good";
        DClose "remarks";
        DOpen "param" (Some ("name", "serialNo"));
        DText "The device serial no.";
        DClose "param";
        DOpen "returns" None;
        DText "True if last message timer has elapsed, False if monitoring is not enabled or if time of last message received is less than lastMsgTimeout.";
        DClose "returns";
        DEmpty "seealso" (Some ("cref", "SC_TimeSinceLastMsgReceived(char const * serialNo, __int64 &lastUpdateTimeMS )"));
        DEmpty "seealso" (Some ("cref", "SC_EnableLastMsgTimer(char const * serialNo, bool enable, __int32 lastMsgTimeout )"));
        DInclude "CodeSnippet_connectionMonitoring.cpp" ] |};
    {| c_function := "SC_RequestSettings"; c_line := 582;
       c_tokens := [
        DOpen "summary" None;
        DText "Requests that all settings are download from device.";
        DClose "summary";
        DOpen "remarks" None;
        DText "This function requests that the device upload all it's settings to the DLL.";
        DClose "remarks";
        DOpen "param" (Some ("name", "serialNo"));
        DText "The device serial no.";
        DClose "param";
        DOpen "returns" None;
        DText "The error code (see";
        DRef "C_DLL_ERRORCODES_page" "Error Codes";
        DText ") or zero if successfully requested.";
        DClose "returns" ] |};
    {| c_function := "SC_RequestStatus"; c_line := 588;
       c_tokens := [
        DOpen "summary" None;
        DText "Requests the status from the device.";
        DClose "summary";
        DOpen "remarks" None;
        DText "This needs to be called to get the device to send it's current status bits.";
        DEmpty "br" None;
        DText "NOTE this is called automatically if Polling is enabled for the device using";
        DEmpty "see" (Some ("cref", "SC_StartPolling(char const * serialNo, int milliseconds)"));
        DText ".";
        DClose "remarks";
        DOpen "param" (Some ("name", "serialNo"));
        DText "The device serial no.";
        DClose "param";
        DOpen "returns" None;
        DText "The error code (see";
        DRef "C_DLL_ERRORCODES_page" "Error Codes";
        DText ") or zero if successfully requested.";
        DClose "returns";
        DEmpty "seealso" (Some ("cref", "SC_GetStatusBits(char const * serialNo)"));
        DEmpty "seealso" (Some ("cref", "SC_RequestStatusBits(char const * serialNo)"));
        DEmpty "seealso" (Some ("cref", "SC_StartPolling(char const * serialNo, int milliseconds)")) ] |};
    {| c_function := "SC_RequestStatusBits"; c_line := 598;
       c_tokens := [
        DOpen "summary" None;
        DText "Request the status bits which identify the current device state.";
        DClose "summary";
        DOpen "remarks" None;
        DText "This needs to be called to get the device to send it's current status bits.";
        DEmpty "br" None;
        DText "NOTE this is called automatically if Polling is enabled for the device using";
        DEmpty "see" (Some ("cref", "SC_StartPolling(char const * serialNo, int milliseconds)"));
        DText ".";
        DClose "remarks";
        DOpen "param" (Some ("name", "serialNo"));
        DText "The device serial no.";
        DClose "param";
        DOpen "returns" None;
        DText "The error code (see";
        DRef "C_DLL_ERRORCODES_page" "Error Codes";
        DText ") or zero if successfully requested.";
        DClose "returns";
        DEmpty "seealso" (Some ("cref", "SC_GetStatusBits(char const * serialNo)"));
        DEmpty "seealso" (Some ("cref", "SC_RequestStatus(char const * serialNo)"));
        DEmpty "seealso" (Some ("cref", "SC_StartPolling(char const * serialNo, int milliseconds)")) ] |};
    {| c_function := "SC_GetStatusBits"; c_line := 608;
       c_tokens := [
        DOpen "summary" None;
        DText "Get the current status bits.";
        DClose "summary";
        DOpen "remarks" None;
        DText "This returns the latest status bits received from the device.";
        DEmpty "br" None;
        DText "To get new status bits, use";
        DEmpty "see" (Some ("cref", "SC_RequestStatusBits(char const * serialNo)"));
        DText "or use the polling functions,";
        DEmpty "see" (Some ("cref", "SC_StartPolling(char const * serialNo, int milliseconds)"));
        DText ".";
        DClose "remarks";
        DOpen "param" (Some ("name", "serialNo"));
        DText "The device serial no.";
        DClose "param";
        DOpen "returns" None;
        DText "The status bits from the device";
        DOpen "list" (Some ("type", "table"));
        DOpen "item" None;
        DOpen "term" None;
        DText "0x00000001";
        DClose "term";
        DOpen "term" None;
        DText "Solenoid output state (1=Enabled, 0=Disabled).";
        DClose "term";
        DClose "item";
        DOpen "item" None;
        DOpen "term" None;
        DText "0x00000002";
        DClose "term";
        DOpen "term" None;
        DText "Not used.";
        DClose "term";
        DClose "item";
        DOpen "item" None;
        DOpen "term" None;
        DText "0x00000004";
        DClose "term";
        DOpen "term" None;
        DClose "term";
        DClose "item";
        DOpen "item" None;
        DOpen "term" None;
        DText "...";
        DClose "term";
        DOpen "term" None;
        DClose "term";
        DClose "item";
        DOpen "item" None;
        DOpen "term" None;
        DText "0x00000800";
        DClose "term";
        DOpen "term" None;
        DClose "term";
        DClose "item";
        DOpen "item" None;
        DOpen "term" None;
        DText "0x00001000";
        DClose "term";
        DOpen "term" None;
        DText "Interlock state (1=Enabled, 0=Disabled).";
        DClose "term";
        DClose "item";
        DOpen "item" None;
        DOpen "term" None;
        DText "0x00002000";
        DClose "term";
        DOpen "term" None;
        DText "Not used.";
        DClose "term";
        DClose "item";
        DOpen "item" None;
        DOpen "term" None;
        DText "0x00004000";
        DClose "term";
        DOpen "term" None;
        DClose "term";
        DClose "item";
        DOpen "item" None;
        DOpen "term" None;
        DText "...";
        DClose "term";
        DOpen "term" None;
        DClose "term";
        DClose "item";
        DOpen "item" None;
        DOpen "term" None;
        DText "0x40000000";
        DClose "term";
        DOpen "term" None;
        DClose "term";
        DClose "item";
        DOpen "item" None;
        DOpen "term" None;
        DText "0x80000000";
        DClose "term";
        DOpen "term" None;
        DText "Channel enabled (1=Enabled, 0=Disabled).";
        DClose "term";
        DClose "item";
        DClose "list";
        DText ".";
        DClose "returns";
        DEmpty "seealso" (Some ("cref", "SC_RequestStatusBits(char const * serialNo)"));
        DEmpty "seealso" (Some ("cref", "SC_StartPolling(char const * serialNo, int milliseconds)")) ] |};
    {| c_function := "SC_RequestOperatingMode"; c_line := 630;
       c_tokens := [
        DOpen "summary" None;
        DText "Requests the Operating Mode.";
        DClose "summary";
        DOpen "param" (Some ("name", "serialNo"));
        DText "The serial no.";
        DClose "param";
        DOpen "returns" None;
        DText "The error code (see";
        DRef "C_DLL_ERRORCODES_page" "Error Codes";
        DText ") or zero if successful.";
        DClose "returns";
        DEmpty "seealso" (Some ("cref", "SC_GetOperatingMode(char const * serialNo)"));
        DEmpty "seealso" (Some ("cref", "SC_SetOperatingMode(char const * serialNo, SC_OperatingModes mode)")) ] |};
    {| c_function := "SC_GetOperatingMode"; c_line := 637;
       c_tokens := [
        DOpen "summary" None;
        DText "Gets the Operating Mode.";
        DClose "summary";
        DOpen "param" (Some ("name", "serialNo"));
        DText "The device serial no.";
        DClose "param";
        DOpen "returns" None;
        DText "The current operating mode.";
        DOpen "list" (Some ("type", "table"));
        DOpen "item" None;
        DOpen "term" None;
        DText "Manual";
        DClose "term";
        DOpen "term" None;
        DText "1";
        DClose "term";
        DClose "item";
        DOpen "item" None;
        DOpen "term" None;
        DText "Single";
        DClose "term";
        DOpen "term" None;
        DText "2";
        DClose "term";
        DClose "item";
        DOpen "item" None;
        DOpen "term" None;
        DText "Auto";
        DClose "term";
        DOpen "term" None;
        DText "3";
        DClose "term";
        DClose "item";
        DOpen "item" None;
        DOpen "term" None;
        DText "Triggered";
        DClose "term";
        DOpen "term" None;
        DText "4";
        DClose "term";
        DClose "item";
        DClose "list";
        DClose "returns";
        DEmpty "seealso" (Some ("cref", "SC_RequestOperatingMode(char const * serialNo)"));
        DEmpty "seealso" (Some ("cref", "SC_SetOperatingMode(char const * serialNo, SC_OperatingModes mode)")) ] |};
    {| c_function := "SC_SetOperatingMode"; c_line := 650;
       c_tokens := [
        DOpen "summary" None;
        DText "Sets the Operating Mode.";
        DClose "summary";
        DOpen "param" (Some ("name", "serialNo"));
        DText "The device serial no.";
        DClose "param";
        DOpen "param" (Some ("name", "mode"));
        DText "The required operating mode.";
        DOpen "list" (Some ("type", "table"));
        DOpen "item" None;
        DOpen "term" None;
        DText "Manual";
        DClose "term";
        DOpen "term" None;
        DText "1";
        DClose "term";
        DClose "item";
        DOpen "item" None;
        DOpen "term" None;
        DText "Single";
        DClose "term";
        DOpen "term" None;
        DText "2";
        DClose "term";
        DClose "item";
        DOpen "item" None;
        DOpen "term" None;
        DText "Auto";
        DClose "term";
        DOpen "term" None;
        DText "3";
        DClose "term";
        DClose "item";
        DOpen "item" None;
        DOpen "term" None;
        DText "Triggered";
        DClose "term";
        DOpen "term" None;
        DText "4";
        DClose "term";
        DClose "item";
        DClose "list";
        DClose "param";
        DOpen "returns" None;
        DText "The error code (see";
        DRef "C_DLL_ERRORCODES_page" "Error Codes";
        DText ") or zero if successful.";
        DClose "returns";
        DEmpty "seealso" (Some ("cref", "SC_RequestOperatingMode(char const * serialNo)"));
        DEmpty "seealso" (Some ("cref", "SC_GetOperatingMode(char const * serialNo)")) ] |};
    {| c_function := "SC_GetSolenoidState"; c_line := 664;
       c_tokens := [
        DOpen "summary" None;
        DText "Gets the current solenoid state.";
        DClose "summary";
        DOpen "param" (Some ("name", "serialNo"));
        DText "The device serial no.";
        DClose "param";
        DOpen "returns" None;
        DText "The current solenoid state.";
        DOpen "list" (Some ("type", "table"));
        DOpen "item" None;
        DOpen "term" None;
        DText "Open";
        DClose "term";
        DOpen "term" None;
        DText "1";
        DClose "term";
        DClose "item";
        DOpen "item" None;
        DOpen "term" None;
        DText "Closed";
        DClose "term";
        DOpen "term" None;
        DText "2";
        DClose "term";
        DClose "item";
        DClose "list";
        DClose "returns" ] |};
    {| c_function := "SC_RequestOperatingState"; c_line := 673;
       c_tokens := [
        DOpen "summary" None;
        DText "Requests the operating state.";
        DClose "summary";
        DOpen "param" (Some ("name", "serialNo"));
        DText "The serial no.";
        DClose "param";
        DOpen "returns" None;
        DText "The error code (see";
        DRef "C_DLL_ERRORCODES_page" "Error Codes";
        DText ") or zero if successful.";
        DClose "returns";
        DEmpty "seealso" (Some ("cref", "SC_GetOperatingState(char const * serialNo)"));
        DEmpty "seealso" (Some ("cref", "SC_SetOperatingState(char const * serialNo, SC_OperatingStates state)")) ] |};
    {| c_function := "SC_GetOperatingState"; c_line := 680;
       c_tokens := [
        DOpen "summary" None;
        DText "Gets the current operating state.";
        DClose "summary";
        DOpen "param" (Some ("name", "serialNo"));
        DText "The device serial no.";
        DClose "param";
        DOpen "returns" None;
        DText "The current operating state.";
        DOpen "list" (Some ("type", "table"));
        DOpen "item" None;
        DOpen "term" None;
        DText "Active";
        DClose "term";
        DOpen "term" None;
        DText "1";
        DClose "term";
        DClose "item";
        DOpen "item" None;
        DOpen "term" None;
        DText "Inactive";
        DClose "term";
        DOpen "term" None;
        DText "2";
        DClose "term";
        DClose "item";
        DClose "list";
        DClose "returns";
        DEmpty "seealso" (Some ("cref", "SC_RequestOperatingState(char const * serialNo)"));
        DEmpty "seealso" (Some ("cref", "SC_SetOperatingState(char const * serialNo, SC_OperatingStates state)")) ] |};
    {| c_function := "SC_SetOperatingState"; c_line := 691;
       c_tokens := [
        DOpen "summary" None;
        DText "Sets the operating state.";
        DClose "summary";
        DOpen "param" (Some ("name", "serialNo"));
        DText "The device serial no.";
        DClose "param";
        DOpen "param" (Some ("name", "state"));
        DText "The required operating state.";
        DOpen "list" (Some ("type", "table"));
        DOpen "item" None;
        DOpen "term" None;
        DText "Active";
        DClose "term";
        DOpen "term" None;
        DText "1";
        DClose "term";
        DClose "item";
        DOpen "item" None;
        DOpen "term" None;
        DText "Inactive";
        DClose "term";
        DOpen "term" None;
        DText "2";
        DClose "term";
        DClose "item";
        DClose "list";
        DClose "param";
        DOpen "returns" None;
        DText "The error code (see";
        DRef "C_DLL_ERRORCODES_page" "Error Codes";
        DText ") or zero if successful.";
        DClose "returns";
        DEmpty "seealso" (Some ("cref", "SC_RequestOperatingState(char const * serialNo)"));
        DEmpty "seealso" (Some ("cref", "SC_GetOperatingState(char const * serialNo)")) ] |};
    {| c_function := "SC_RequestCycleParams"; c_line := 703;
       c_tokens := [
        DOpen "summary" None;
        DText "Requests the cycle parameters.";
        DClose "summary";
        DOpen "param" (Some ("name", "serialNo"));
        DText "The serial no.";
        DClose "param";
        DOpen "returns" None;
        DText "The error code (see";
        DRef "C_DLL_ERRORCODES_page" "Error Codes";
        DText ") or zero if successful.";
        DClose "returns";
        DEmpty "seealso" (Some ("cref", "SC_GetCycleParams(char const * serialNo, unsigned int * pOpenTime, unsigned int * pClosedTime, unsigned int * numCycles)"));
        DEmpty "seealso" (Some ("cref", "SC_SetCycleParams(char const * serialNo, unsigned int openTime, unsigned int closedTime, unsigned int numCycles)"));
        DEmpty "seealso" (Some ("cref", "SC_GetCycleParamsBlock(const char * serialNo, SC_CycleParameters *cycleParams)"));
        DEmpty "seealso" (Some ("cref", "SC_SetCycleParamsBlock(const char * serialNo, SC_CycleParameters *cycleParams)")) ] |};
    {| c_function := "SC_GetCycleParams"; c_line := 712;
       c_tokens := [
        DOpen "summary" None;
        DText "Gets the cycle parameters.";
        DClose "summary";
        DOpen "param" (Some ("name", "serialNo"));
        DText "The device serial no.";
        DClose "param";
        DOpen "param" (Some ("name", "onTime"));
        DText "Address of the parameter to receive the On Time parameter.";
        DEmpty "br" None;
        DText "Range 250 to 100,000,000 in steps of 1 milliseconds (0.250s to 10,000s).";
        DClose "param";
        DOpen "param" (Some ("name", "offTime"));
        DText "Address of the parameter to receive the Off Time parameter.";
        DEmpty "br" None;
        DText "Range 250 to 100,000,000 in steps of 1 milliseconds (0.250s to 10,000s).";
        DClose "param";
        DOpen "param" (Some ("name", "numCycles"));
        DText "Address of the parameter to receive the Number of Cycles parameter.";
        DEmpty "br" None;
        DText "Range 0 to 1000,000 where 0 represent unlimited.";
        DClose "param";
        DOpen "returns" None;
        DText "The error code (see";
        DRef "C_DLL_ERRORCODES_page" "Error Codes";
        DText ") or zero if successful.";
        DClose "returns";
        DEmpty "seealso" (Some ("cref", "SC_RequestCycleParams(char const * serialNo)"));
        DEmpty "seealso" (Some ("cref", "SC_SetCycleParams(char const * serialNo, unsigned int onTime, unsigned int offTime, unsigned int numCycles)"));
        DEmpty "seealso" (Some ("cref", "SC_GetCycleParamsBlock(const char * serialNo, SC_CycleParameters *cycleParams)"));
        DEmpty "seealso" (Some ("cref", "SC_SetCycleParamsBlock(const char * serialNo, SC_CycleParameters *cycleParams)")) ] |};
    {| c_function := "SC_SetCycleParams"; c_line := 727;
       c_tokens := [
        DOpen "summary" None;
        DText "Sets the cycle parameters.";
        DClose "summary";
        DOpen "param" (Some ("name", "serialNo"));
        DText "The device serial no.";
        DClose "param";
        DOpen "param" (Some ("name", "onTime"));
        DText "Address of the parameter to receive the On Time parameter.";
        DEmpty "br" None;
        DText "Range 250 to 100,000,000 in steps of 1 milliseconds (0.250s to 10,000s).";
        DClose "param";
        DOpen "param" (Some ("name", "offTime"));
        DText "Address of the parameter to receive the Off Time parameter.";
        DEmpty "br" None;
        DText "Range 250 to 100,000,000 in steps of 1 milliseconds (0.250s to 10,000s).";
        DClose "param";
        DOpen "param" (Some ("name", "numCycles"));
        DText "The Number of Cycles parameter.";
        DEmpty "br" None;
        DText "Range 0 to 1000,000 where 0 represent unlimited.";
        DClose "param";
        DOpen "returns" None;
        DText "The error code (see";
        DRef "C_DLL_ERRORCODES_page" "Error Codes";
        DText ") or zero if successful.";
        DClose "returns";
        DEmpty "seealso" (Some ("cref", "SC_RequestCycleParams(char const * serialNo)"));
        DEmpty "seealso" (Some ("cref", "SC_GetCycleParams(char const * serialNo, unsigned int * onTime, unsigned int * offTime, unsigned int * numCycles)"));
        DEmpty "seealso" (Some ("cref", "SC_GetCycleParamsBlock(const char * serialNo, SC_CycleParameters *cycleParams)"));
        DEmpty "seealso" (Some ("cref", "SC_SetCycleParamsBlock(const char * serialNo, SC_CycleParameters *cycleParams)")) ] |};
    {| c_function := "SC_GetCycleParamsBlock"; c_line := 742;
       c_tokens := [
        DOpen "summary" None;
        DText "Gets the cycle parameters.";
        DClose "summary";
        DOpen "param" (Some ("name", "serialNo"));
        DText "The device serial no.";
        DClose "param";
        DOpen "param" (Some ("name", "cycleParams"));
        DText "Address of the SC_CycleParameters to recieve the cycle parameters.";
        DClose "param";
        DOpen "returns" None;
        DText "The error code (see";
        DRef "C_DLL_ERRORCODES_page" "Error Codes";
        DText ") or zero if successful.";
        DClose "returns";
        DEmpty "seealso" (Some ("cref", "SC_RequestCycleParams(char const * serialNo)"));
        DEmpty "seealso" (Some ("cref", "SC_GetCycleParams(char const * serialNo, unsigned int * onTime, unsigned int * offTime, unsigned int * numCycles)"));
        DEmpty "seealso" (Some ("cref", "SC_SetCycleParams(char const * serialNo, unsigned int onTime, unsigned int offTime, unsigned int numCycles)"));
        DEmpty "seealso" (Some ("cref", "SC_SetCycleParamsBlock(const char * serialNo, SC_CycleParameters *cycleParams)")) ] |};
    {| c_function := "SC_SetCycleParamsBlock"; c_line := 752;
       c_tokens := [
        DOpen "summary" None;
        DText "Sets the cycle parameters.";
        DClose "summary";
        DOpen "param" (Some ("name", "serialNo"));
        DText "The device serial no.";
        DClose "param";
        DOpen "param" (Some ("name", "cycleParams"));
        DText "Address of the SC_CycleParameters containing the new cycle parameters.";
        DClose "param";
        DOpen "returns" None;
        DText "The error code (see";
        DRef "C_DLL_ERRORCODES_page" "Error Codes";
        DText ") or zero if successful.";
        DClose "returns";
        DEmpty "seealso" (Some ("cref", "SC_RequestCycleParams(char const * serialNo)"));
        DEmpty "seealso" (Some ("cref", "SC_GetCycleParams(char const * serialNo, unsigned int * onTime, unsigned int * offTime, unsigned int * numCycles)"));
        DEmpty "seealso" (Some ("cref", "SC_SetCycleParams(char const * serialNo, unsigned int onTime, unsigned int offTime, unsigned int numCycles)"));
        DEmpty "seealso" (Some ("cref", "SC_GetCycleParamsBlock(const char * serialNo, SC_CycleParameters *cycleParams)")) ] |};
    {| c_function := "SC_RequestMMIParams"; c_line := 762;
       c_tokens := [
        DOpen "summary" None;
        DText "Requests the MMI Parameters for the KCube Display Interface.";
        DClose "summary";
        DOpen "param" (Some ("name", "serialNo"));
        DText "The serial no.";
        DClose "param";
        DOpen "returns" None;
        DText "The error code (see";
        DRef "C_DLL_ERRORCODES_page" "Error Codes";
        DText ") or zero if successful.";
        DClose "returns";
        DEmpty "seealso" (Some ("cref", "SC_GetMMIParams(char const * serialNo, __int16 *displayIntensity)"));
        DEmpty "seealso" (Some ("cref", "SC_GetMMIParamsExt(char const * serialNo, __int16 *displayIntensity, __int16 *displayTimeout, __int16 *displayDimIntensity)"));
        DEmpty "seealso" (Some ("cref", "SC_GetMMIParamsBlock(const char * serialNo, KMOT_MMIParams *mmiParams)")) ] |};
    {| c_function := "SC_GetMMIParamsExt"; c_line := 770;
       c_tokens := [
        DOpen "summary" None;
        DText "Get the MMI Parameters for the KCube Display Interface.";
        DClose "summary";
        DOpen "param" (Some ("name", "serialNo"));
        DText "The device serial no.";
        DClose "param";
        DOpen "param" (Some ("name", "displayIntensity"));
        DText "The display intensity, range 0 to 100%.";
        DClose "param";
        DOpen "param" (Some ("name", "displayTimeout"));
        DText "The display timeout, range 0 to 480 in minutes (0 is off, otherwise the inactivity period before dimming the display).";
        DClose "param";
        DOpen "param" (Some ("name", "displayDimIntensity"));
        DText "The display dimmed intensity, range 0 to 10 (after the timeout period the device display will dim).";
        DClose "param";
        DOpen "returns" None;
        DText "The error code (see";
        DRef "C_DLL_ERRORCODES_page" "Error Codes";
        DText ") or zero if successful.";
        DClose "returns";
        DEmpty "seealso" (Some ("cref", "SC_SetMMIParamsExt(char const * serialNo, __int16 displayIntensity)"));
        DEmpty "seealso" (Some ("cref", "SC_SetMMIParamsBlock(const char * serialNo, KMOT_MMIParams *mmiParams)"));
        DEmpty "seealso" (Some ("cref", "SC_RequestMMIParams(char const * serialNo)"));
        DEmpty "seealso" (Some ("cref", "SC_GetMMIParamsBlock(const char * serialNo, KMOT_MMIParams *mmiParams)")) ] |};
    {| c_function := "SC_GetMMIParams"; c_line := 782;
       c_tokens := [
        DOpen "summary" None;
        DText "Get the MMI Parameters for the KCube Display Interface.";
        DClose "summary";
        DOpen "remarks" None;
        DText "@deprecated superceded by";
        DEmpty "see" (Some ("cref", "SC_GetMMIParamsExt(char const * serialNo, __int16 *displayIntensity, __int16 *displayTimeout, __int16 *displayDimIntensity)"));
        DClose "remarks";
        DOpen "param" (Some ("name", "serialNo"));
        DText "The device serial no.";
        DClose "param";
        DOpen "param" (Some ("name", "displayIntensity"));
        DText "The display intensity, range 0 to 100%.";
        DClose "param";
        DOpen "returns" None;
        DText "The error code (see";
        DRef "C_DLL_ERRORCODES_page" "Error Codes";
        DText ") or zero if successful.";
        DClose "returns";
        DEmpty "seealso" (Some ("cref", "SC_SetMMIParams(char const * serialNo, __int16 displayIntensity)"));
        DEmpty "seealso" (Some ("cref", "SC_SetMMIParamsBlock(const char * serialNo, KMOT_MMIParams *mmiParams)"));
        DEmpty "seealso" (Some ("cref", "SC_RequestMMIParams(char const * serialNo)"));
        DEmpty "seealso" (Some ("cref", "SC_GetMMIParamsBlock(const char * serialNo, KMOT_MMIParams *mmiParams)")) ] |};
    {| c_function := "SC_SetMMIParamsExt"; c_line := 793;
       c_tokens := [
        DOpen "summary" None;
        DText "Set the MMI Parameters for the KCube Display Interface.";
        DClose "summary";
        DOpen "param" (Some ("name", "serialNo"));
        DText "The device serial no.";
        DClose "param";
        DOpen "param" (Some ("name", "displayIntensity"));
        DText "The display intensity, range 0 to 100%.";
        DClose "param";
        DOpen "param" (Some ("name", "displayTimeout"));
        DText "The display timeout, range 0 to 480 in minutes (0 is off, otherwise the inactivity period before dimming the display).";
        DClose "param";
        DOpen "param" (Some ("name", "displayDimIntensity"));
        DText "The display dimmed intensity, range 0 to 10 (after the timeout period the device display will dim).";
        DClose "param";
        DOpen "returns" None;
        DText "The error code (see";
        DRef "C_DLL_ERRORCODES_page" "Error Codes";
        DText ") or zero if successful.";
        DClose "returns";
        DEmpty "seealso" (Some ("cref", "SC_RequestMMIParams(char const * serialNo)"));
        DEmpty "seealso" (Some ("cref", "SC_GetMMIParamsExt(char const * serialNo, __int16 *displayIntensity)"));
        DEmpty "seealso" (Some ("cref", "SC_SetMMIParamsBlock(const char * serialNo, KMOT_MMIParams *mmiParams)"));
        DEmpty "seealso" (Some ("cref", "SC_GetMMIParamsBlock(const char * serialNo, KMOT_MMIParams *mmiParams)")) ] |};
    {| c_function := "SC_SetMMIParams"; c_line := 805;
       c_tokens := [
        DOpen "summary" None;
        DText "Set the MMI Parameters for the KCube Display Interface.";
        DClose "summary";
        DOpen "remarks" None;
        DText "@deprecated superceded by";
        DEmpty "see" (Some ("cref", "SC_SetMMIParamsExt(char const * serialNo, __int16 displayIntensity, __int16 displayTimeout, __int16 displayDimIntensity)"));
        DClose "remarks";
        DOpen "param" (Some ("name", "serialNo"));
        DText "The device serial no.";
        DClose "param";
        DOpen "param" (Some ("name", "displayIntensity"));
        DText "The display intensity, range 0 to 100%.";
        DClose "param";
        DOpen "returns" None;
        DText "The error code (see";
        DRef "C_DLL_ERRORCODES_page" "Error Codes";
        DText ") or zero if successful.";
        DClose "returns";
        DEmpty "seealso" (Some ("cref", "SC_RequestMMIParams(char const * serialNo)"));
        DEmpty "seealso" (Some ("cref", "SC_GetMMIParams(char const * serialNo, __int16 *displayIntensity)"));
        DEmpty "seealso" (Some ("cref", "SC_SetMMIParamsBlock(const char * serialNo, KMOT_MMIParams *mmiParams)"));
        DEmpty "seealso" (Some ("cref", "SC_GetMMIParamsBlock(const char * serialNo, KMOT_MMIParams *mmiParams)")) ] |};
    {| c_function := "SC_GetMMIParamsBlock"; c_line := 816;
       c_tokens := [
        DOpen "summary" None;
        DText "Gets the MMI parameters for the device.";
        DClose "summary";
        DOpen "param" (Some ("name", "serialNo"));
        DText "The device serial no.";
        DClose "param";
        DOpen "param" (Some ("name", "mmiParams"));
        DText "Options for controlling the mmi.";
        DClose "param";
        DOpen "returns" None;
        DText "The error code (see";
        DRef "C_DLL_ERRORCODES_page" "Error Codes";
        DText ") or zero if successful.";
        DClose "returns";
        DEmpty "seealso" (Some ("cref", "SC_RequestMMIParams(char const * serialNo)"));
        DEmpty "seealso" (Some ("cref", "SC_GetMMIParamsExt(char const * serialNo, __int16 *displayIntensity, __int16 *displayTimeout, __int16 *displayDimIntensity)"));
        DEmpty "seealso" (Some ("cref", "SC_SetMMIParamsExt(char const * serialNo, __int16 displayIntensity, __int16 displayTimeout, __int16 displayDimIntensity)"));
        DEmpty "seealso" (Some ("cref", "SC_SetMMIParamsBlock(const char * serialNo, KMOT_MMIParams *mmiParams)")) ] |};
    {| c_function := "SC_SetMMIParamsBlock"; c_line := 826;
       c_tokens := [
        DOpen "summary" None;
        DText "Sets the MMI parameters for the device.";
        DClose "summary";
        DOpen "param" (Some ("name", "serialNo"));
        DText "The device serial no.";
        DClose "param";
        DOpen "param" (Some ("name", "mmiParams"));
        DText "Options for controlling the mmi.";
        DClose "param";
        DOpen "returns" None;
        DText "The error code (see";
        DRef "C_DLL_ERRORCODES_page" "Error Codes";
        DText ") or zero if successful.";
        DClose "returns";
        DEmpty "seealso" (Some ("cref", "SC_RequestMMIParams(char const * serialNo)"));
        DEmpty "seealso" (Some ("cref", "SC_GetMMIParamsExt(char const * serialNo, __int16 *displayIntensity, __int16 *displayTimeout, __int16 *displayDimIntensity)"));
        DEmpty "seealso" (Some ("cref", "SC_SetMMIParamsExt(char const * serialNo, __int16 displayIntensity, __int16 displayTimeout, __int16 displayDimIntensity)"));
        DEmpty "seealso" (Some ("cref", "SC_GetMMIParamsBlock(const char * serialNo, KMOT_MMIParams *mmiParams)")) ] |};
    {| c_function := "SC_RequestTriggerConfigParams"; c_line := 836;
       c_tokens := [
        DOpen "summary" None;
        DText "Requests the Trigger Configuration Parameters.";
        DClose "summary";
        DOpen "param" (Some ("name", "serialNo"));
        DText "The serial no.";
        DClose "param";
        DOpen "returns" None;
        DText "The error code (see";
        DRef "C_DLL_ERRORCODES_page" "Error Codes";
        DText ") or zero if successful.";
        DClose "returns";
        DEmpty "seealso" (Some ("cref", "SC_SetTriggerConfigParams(char const * serialNo, KSC_TriggerPortMode trigger1Mode, KSC_TriggerPortPolarity trigger1Polarity, KSC_TriggerPortMode trigger2Mode, KSC_TriggerPortPolarity trigger2Polarity)"));
        DEmpty "seealso" (Some ("cref", "SC_GeTriggerConfigParams(char const * serialNo, KSC_TriggerPortMode *trigger1Mode, KSC_TriggerPortPolarity *trigger1Polarity, KSC_TriggerPortMode *trigger2Mode, KSC_TriggerPortPolarity *trigger2Polarity)"));
        DEmpty "seealso" (Some ("cref", "SC_SetTriggerConfigParamsBlock(const char * serialNo, KSC_TriggerConfig *triggerConfigParams)"));
        DEmpty "seealso" (Some ("cref", "SC_GetTriggerConfigParamsBlock(const char * serialNo, KSC_TriggerConfig *triggerConfigParams)")) ] |};
    {| c_function := "SC_GetTriggerConfigParams"; c_line := 845;
       c_tokens := [
        DOpen "summary" None;
        DText "Get the Trigger Configuration Parameters.";
        DClose "summary";
        DOpen "param" (Some ("name", "serialNo"));
        DText "The device serial no.";
        DClose "param";
        DOpen "param" (Some ("name", "trigger1Mode"));
        DText "The trigger 1 mode.";
        DOpen "list" (Some ("type", "table"));
        DOpen "item" None;
        DOpen "term" None;
        DText "0";
        DClose "term";
        DOpen "term" None;
        DText "Trigger disabled";
        DClose "term";
        DClose "item";
        DOpen "item" None;
        DOpen "term" None;
        DText "1";
        DClose "term";
        DOpen "term" None;
        DText "Trigger Input - General purpose logic input (";
        DOpen "see" (Some ("cref", "SC_GetStatusBits(const char * serialNo)"));
        DText "GetStatusBits";
        DClose "see";
        DText ")";
        DClose "term";
        DClose "item";
        DOpen "item" None;
        DOpen "term" None;
        DText "10";
        DClose "term";
        DOpen "term" None;
        DText "Trigger Output - General purpose output (";
        DOpen "see" (Some ("cref", "SC_SetDigitalOutputs(const char * serialNo, byte outputBits)"));
        DText "SetDigitalOutputs";
        DClose "see";
        DText ")";
        DClose "term";
        DClose "item";
        DClose "list";
        DClose "param";
        DOpen "param" (Some ("name", "trigger1Polarity"));
        DText "The trigger 1 polarity.";
        DOpen "list" (Some ("type", "table"));
        DOpen "item" None;
        DOpen "term" None;
        DText "1";
        DClose "term";
        DOpen "term" None;
        DText "Output high when set";
        DClose "term";
        DClose "item";
        DOpen "item" None;
        DOpen "term" None;
        DText "2";
        DClose "term";
        DOpen "term" None;
        DText "Output low when set";
        DClose "term";
        DClose "item";
        DClose "list";
        DClose "param";
        DOpen "param" (Some ("name", "trigger2Mode"));
        DText "The trigger 2 mode.";
        DOpen "list" (Some ("type", "table"));
        DOpen "item" None;
        DOpen "term" None;
        DText "0";
        DClose "term";
        DOpen "term" None;
        DText "Trigger disabled";
        DClose "term";
        DClose "item";
        DOpen "item" None;
        DOpen "term" None;
        DText "1";
        DClose "term";
        DOpen "term" None;
        DText "Trigger Input - General purpose logic input (";
        DOpen "see" (Some ("cref", "SC_GetStatusBits(const char * serialNo)"));
        DText "GetStatusBits";
        DClose "see";
        DText ")";
        DClose "term";
        DClose "item";
        DOpen "item" None;
        DOpen "term" None;
        DText "10";
        DClose "term";
        DOpen "term" None;
        DText "Trigger Output - General purpose output (";
        DOpen "see" (Some ("cref", "SC_SetDigitalOutputs(const char * serialNo, byte outputBits)"));
        DText "SetDigitalOutputs";
        DClose "see";
        DText ")";
        DClose "term";
        DClose "item";
        DClose "list";
        DClose "param";
        DOpen "param" (Some ("name", "trigger2Polarity"));
        DText "The trigger 2 polarity.";
        DOpen "list" (Some ("type", "table"));
        DOpen "item" None;
        DOpen "term" None;
        DText "1";
        DClose "term";
        DOpen "term" None;
        DText "Output high when set";
        DClose "term";
        DClose "item";
        DOpen "item" None;
        DOpen "term" None;
        DText "2";
        DClose "term";
        DOpen "term" None;
        DText "Output low when set";
        DClose "term";
        DClose "item";
        DClose "list";
        DClose "param";
        DOpen "returns" None;
        DText "The error code (see";
        DRef "C_DLL_ERRORCODES_page" "Error Codes";
        DText ") or zero if successful.";
        DClose "returns";
        DEmpty "seealso" (Some ("cref", "SC_SetTriggerConfigParams(char const * serialNo, KSC_TriggerPortMode trigger1Mode, KSC_TriggerPortPolarity trigger1Polarity, KSC_TriggerPortMode trigger2Mode, KSC_TriggerPortPolarity trigger2Polarity)"));
        DEmpty "seealso" (Some ("cref", "SC_SetTriggerConfigParamsBlock(const char * serialNo, KSC_TriggerConfig *triggerConfigParams)"));
        DEmpty "seealso" (Some ("cref", "SC_RequestTriggerConfigParams(char const * serialNo)"));
        DEmpty "seealso" (Some ("cref", "SC_GetTriggerConfigParamsBlock(const char * serialNo, KSC_TriggerConfig *triggerConfigParams)")) ] |};
    {| c_function := "SC_SetTriggerConfigParams"; c_line := 872;
       c_tokens := [
        DOpen "summary" None;
        DText "Set the Trigger Configuration Parameters.";
        DClose "summary";
        DOpen "param" (Some ("name", "serialNo"));
        DText "The device serial no.";
        DClose "param";
        DOpen "param" (Some ("name", "trigger1Mode"));
        DText "The trigger 1 mode.";
        DOpen "list" (Some ("type", "table"));
        DOpen "item" None;
        DOpen "term" None;
        DText "0";
        DClose "term";
        DOpen "term" None;
        DText "Trigger disabled";
        DClose "term";
        DClose "item";
        DOpen "item" None;
        DOpen "term" None;
        DText "1";
        DClose "term";
        DOpen "term" None;
        DText "Trigger Input - General purpose logic input (";
        DOpen "see" (Some ("cref", "SC_GetStatusBits(const char * serialNo)"));
        DText "GetStatusBits";
        DClose "see";
        DText ")";
        DClose "term";
        DClose "item";
        DOpen "item" None;
        DOpen "term" None;
        DText "10";
        DClose "term";
        DOpen "term" None;
        DText "Trigger Output - General purpose output (";
        DOpen "see" (Some ("cref", "SC_SetDigitalOutputs(const char * serialNo, byte outputBits)"));
        DText "SetDigitalOutputs";
        DClose "see";
        DText ")";
        DClose "term";
        DClose "item";
        DClose "list";
        DClose "param";
        DOpen "param" (Some ("name", "trigger1Polarity"));
        DText "The trigger 1 polarity.";
        DOpen "list" (Some ("type", "table"));
        DOpen "item" None;
        DOpen "term" None;
        DText "1";
        DClose "term";
        DOpen "term" None;
        DText "Output high when set";
        DClose "term";
        DClose "item";
        DOpen "item" None;
        DOpen "term" None;
        DText "2";
        DClose "term";
        DOpen "term" None;
        DText "Output low when set";
        DClose "term";
        DClose "item";
        DClose "list";
        DClose "param";
        DOpen "param" (Some ("name", "trigger2Mode"));
        DText "The trigger 2 mode.";
        DOpen "list" (Some ("type", "table"));
        DOpen "item" None;
        DOpen "term" None;
        DText "0";
        DClose "term";
        DOpen "term" None;
        DText "Trigger disabled";
        DClose "term";
        DClose "item";
        DOpen "item" None;
        DOpen "term" None;
        DText "1";
        DClose "term";
        DOpen "term" None;
        DText "Trigger Input - General purpose logic input (";
        DOpen "see" (Some ("cref", "SC_GetStatusBits(const char * serialNo)"));
        DText "GetStatusBits";
        DClose "see";
        DText ")";
        DClose "term";
        DClose "item";
        DOpen "item" None;
        DOpen "term" None;
        DText "10";
        DClose "term";
        DOpen "term" None;
        DText "Trigger Output - General purpose output (";
        DOpen "see" (Some ("cref", "SC_SetDigitalOutputs(const char * serialNo, byte outputBits)"));
        DText "SetDigitalOutputs";
        DClose "see";
        DText ")";
        DClose "term";
        DClose "item";
        DClose "list";
        DClose "param";
        DOpen "param" (Some ("name", "trigger2Polarity"));
        DText "The trigger 2 polarity.";
        DOpen "list" (Some ("type", "table"));
        DOpen "item" None;
        DOpen "term" None;
        DText "1";
        DClose "term";
        DOpen "term" None;
        DText "Output high when set";
        DClose "term";
        DClose "item";
        DOpen "item" None;
        DOpen "term" None;
        DText "2";
        DClose "term";
        DOpen "term" None;
        DText "Output low when set";
        DClose "term";
        DClose "item";
        DClose "list";
        DClose "param";
        DOpen "returns" None;
        DText "The error code (see";
        DRef "C_DLL_ERRORCODES_page" "Error Codes";
        DText ") or zero if successful.";
        DClose "returns";
        DEmpty "seealso" (Some ("cref", "SC_RequestTriggerConfigParams(char const * serialNo)"));
        DEmpty "seealso" (Some ("cref", "SC_GeTriggerConfigParams(char const * serialNo, KSC_TriggerPortMode *trigger1Mode, KSC_TriggerPortPolarity *trigger1Polarity, KSC_TriggerPortMode *trigger2Mode, KSC_TriggerPortPolarity *trigger2Polarity)"));
        DEmpty "seealso" (Some ("cref", "SC_SetTriggerConfigParamsBlock(const char * serialNo, KSC_TriggerConfig *triggerConfigParams)"));
        DEmpty "seealso" (Some ("cref", "SC_GetTriggerConfigParamsBlock(const char * serialNo, KSC_TriggerConfig *triggerConfigParams)")) ] |};
    {| c_function := "SC_GetTriggerConfigParamsBlock"; c_line := 899;
       c_tokens := [
        DOpen "summary" None;
        DText "Gets the trigger configuration parameters block.";
        DClose "summary";
        DOpen "param" (Some ("name", "serialNo"));
        DText "The device serial no.";
        DClose "param";
        DOpen "param" (Some ("name", "triggerConfigParams"));
        DText "Options for controlling the trigger configuration.";
        DClose "param";
        DOpen "returns" None;
        DText "The error code (see";
        DRef "C_DLL_ERRORCODES_page" "Error Codes";
        DText ") or zero if successful.";
        DClose "returns";
        DEmpty "seealso" (Some ("cref", "SC_RequestTriggerConfigParams(char const * serialNo)"));
        DEmpty "seealso" (Some ("cref", "SC_GeTriggerConfigParams(char const * serialNo, KSC_TriggerPortMode *trigger1Mode, KSC_TriggerPortPolarity *trigger1Polarity, KSC_TriggerPortMode *trigger2Mode, KSC_TriggerPortPolarity *trigger2Polarity)"));
        DEmpty "seealso" (Some ("cref", "SC_SetTriggerConfigParams(char const * serialNo, KSC_TriggerPortMode trigger1Mode, KSC_TriggerPortPolarity trigger1Polarity, KSC_TriggerPortMode trigger2Mode, KSC_TriggerPortPolarity trigger2Polarity)"));
        DEmpty "seealso" (Some ("cref", "SC_SetTriggerConfigParamsBlock(const char * serialNo, KSC_TriggerConfig *triggerConfigParams)")) ] |};
    {| c_function := "SC_SetTriggerConfigParamsBlock"; c_line := 909;
       c_tokens := [
        DOpen "summary" None;
        DText "Sets the trigger configuration parameters block.";
        DClose "summary";
        DOpen "param" (Some ("name", "serialNo"));
        DText "The device serial no.";
        DClose "param";
        DOpen "param" (Some ("name", "triggerConfigParams"));
        DText "Options for controlling the trigger configuration.";
        DClose "param";
        DOpen "returns" None;
        DText "The error code (see";
        DRef "C_DLL_ERRORCODES_page" "Error Codes";
        DText ") or zero if successful.";
        DClose "returns";
        DEmpty "seealso" (Some ("cref", "SC_RequestTriggerConfigParams(char const * serialNo)"));
        DEmpty "seealso" (Some ("cref", "SC_GeTriggerConfigParams(char const * serialNo, KSC_TriggerPortMode *trigger1Mode, KSC_TriggerPortPolarity *trigger1Polarity, KSC_TriggerPortMode *trigger2Mode, KSC_TriggerPortPolarity *trigger2Polarity)"));
        DEmpty "seealso" (Some ("cref", "SC_SetTriggerConfigParams(char const * serialNo, KSC_TriggerPortMode trigger1Mode, KSC_TriggerPortPolarity trigger1Polarity, KSC_TriggerPortMode trigger2Mode, KSC_TriggerPortPolarity trigger2Polarity)"));
        DEmpty "seealso" (Some ("cref", "SC_GetTriggerConfigParamsBlock(const char * serialNo, KSC_TriggerConfig *triggerConfigParams)")) ] |};
    {| c_function := "SC_RequestDigitalOutputs"; c_line := 919;
       c_tokens := [
        DOpen "summary" None;
        DText "Requests the digital output bits.";
        DClose "summary";
        DOpen "param" (Some ("name", "serialNo"));
        DText "The device serial no.";
        DClose "param";
        DOpen "returns" None;
        DText "The error code (see";
        DRef "C_DLL_ERRORCODES_page" "Error Codes";
        DText ") or zero if successful.";
        DClose "returns";
        DEmpty "seealso" (Some ("cref", "SC_SetDigitalOutputs(char const * serialNo, byte outputsBits)"));
        DEmpty "seealso" (Some ("cref", "SC_GetDigitalOutputs(char const * serialNo)")) ] |};
    {| c_function := "SC_GetDigitalOutputs"; c_line := 926;
       c_tokens := [
        DOpen "summary" None;
        DText "Gets the digital output bits.";
        DClose "summary";
        DOpen "param" (Some ("name", "serialNo"));
        DText "The device serial no.";
        DClose "param";
        DOpen "returns" None;
        DText "Bit mask of states of the 4 digital output pins.";
        DClose "returns";
        DEmpty "seealso" (Some ("cref", "SC_SetDigitalOutputs(char const * serialNo, byte outputsBits)"));
        DEmpty "seealso" (Some ("cref", "SC_RequestDigitalOutputs(char const * serialNo)")) ] |};
    {| c_function := "SC_SetDigitalOutputs"; c_line := 933;
       c_tokens := [
        DOpen "summary" None;
        DText "Sets the digital output bits.";
        DClose "summary";
        DOpen "param" (Some ("name", "serialNo"));
        DText "The device serial no.";
        DClose "param";
        DOpen "param" (Some ("name", "outputsBits"));
        DText "Bit mask to set states of the 4 digital output pins.";
        DClose "param";
        DOpen "returns" None;
        DText "The error code (see";
        DRef "C_DLL_ERRORCODES_page" "Error Codes";
        DText ") or zero if successful.";
        DClose "returns";
        DEmpty "seealso" (Some ("cref", "SC_GetDigitalOutputs(char const * serialNo)"));
        DEmpty "seealso" (Some ("cref", "SC_RequestDigitalOutputs(char const * serialNo)")) ] |} ].


(** The cross references of the documentation comments (every
    [cref] attribute of the file), each by its line and by the name it
    refers to, without the parameter list. *)
Definition cross_references : list (nat * string) :=
  [
    (130, "SC_OperatingModes"); (133, "SC_OperatingModes");
    (136, "SC_OperatingModes"); (144, "SC_OperatingStates");
    (146, "SC_OperatingStates"); (146, "SC_CycleParameters");
    (148, "SC_OperatingStates"); (148, "SC_CycleParameters");
    (150, "SC_OperatingStates"); (150, "SC_CycleParameters");
    (158, "SC_OperatingModes"); (161, "SC_CycleParameters");
    (163, "SC_CycleParameters"); (185, "SC_GetStatusBits");
    (186, "SC_SetDigitalOutputs"); (219, "SC_GetStatusBits");
    (220, "SC_SetDigitalOutputs"); (236, "SC_GetStatusBits");
    (237, "SC_SetDigitalOutputs"); (260, "TLI_GetDeviceListSize");
    (261, "TLI_GetDeviceList"); (262, "TLI_GetDeviceListByType");
    (263, "TLI_GetDeviceListByTypes"); (264, "TLI_GetDeviceListExt");
    (265, "TLI_GetDeviceListByTypeExt"); (266, "TLI_GetDeviceListByTypesExt");
    (272, "TLI_BuildDeviceList"); (273, "TLI_GetDeviceList");
    (274, "TLI_GetDeviceListByType"); (275, "TLI_GetDeviceListByTypes");
    (276, "TLI_GetDeviceListExt"); (277, "TLI_GetDeviceListByTypeExt");
    (278, "TLI_GetDeviceListByTypesExt"); (285, "TLI_GetDeviceListSize");
    (286, "TLI_BuildDeviceList"); (287, "TLI_GetDeviceListByType");
    (288, "TLI_GetDeviceListByTypes"); (289, "TLI_GetDeviceListExt");
    (290, "TLI_GetDeviceListByTypeExt"); (291, "TLI_GetDeviceListByTypesExt");
    (299, "TLI_GetDeviceListSize"); (300, "TLI_BuildDeviceList");
    (301, "TLI_GetDeviceList"); (302, "TLI_GetDeviceListByTypes");
    (303, "TLI_GetDeviceListExt"); (304, "TLI_GetDeviceListByTypeExt");
    (305, "TLI_GetDeviceListByTypesExt"); (314, "TLI_GetDeviceListSize");
    (315, "TLI_BuildDeviceList"); (316, "TLI_GetDeviceList");
    (317, "TLI_GetDeviceListByType"); (318, "TLI_GetDeviceListExt");
    (319, "TLI_GetDeviceListByTypeExt"); (320, "TLI_GetDeviceListByTypesExt");
    (328, "TLI_GetDeviceListSize"); (329, "TLI_BuildDeviceList");
    (330, "TLI_GetDeviceList"); (331, "TLI_GetDeviceListByType");
    (332, "TLI_GetDeviceListByTypes"); (333, "TLI_GetDeviceListByTypeExt");
    (334, "TLI_GetDeviceListByTypesExt"); (343, "TLI_GetDeviceListSize");
    (344, "TLI_BuildDeviceList"); (345, "TLI_GetDeviceList");
    (346, "TLI_GetDeviceListByType"); (347, "TLI_GetDeviceListByTypes");
    (348, "TLI_GetDeviceListExt"); (349, "TLI_GetDeviceListByTypesExt");
    (359, "TLI_GetDeviceListSize"); (360, "TLI_BuildDeviceList");
    (361, "TLI_GetDeviceList"); (362, "TLI_GetDeviceListByType");
    (363, "TLI_GetDeviceListByTypes"); (364, "TLI_GetDeviceListExt");
    (365, "TLI_GetDeviceListByTypeExt"); (371, "TLI_DeviceInfo");
    (374, "TLI_GetDeviceListSize"); (375, "TLI_BuildDeviceList");
    (376, "TLI_GetDeviceList"); (377, "TLI_GetDeviceListByType");
    (378, "TLI_GetDeviceListByTypes"); (379, "TLI_GetDeviceListExt");
    (380, "TLI_GetDeviceListByTypeExt"); (381, "TLI_GetDeviceListByTypesExt");
    (388, "SC_Close"); (394, "SC_Open"); (410, "SC_GetLEDswitches");
    (411, "SC_SetLEDswitches"); (417, "SC_RequestLEDswitches");
    (418, "SC_SetLEDswitches"); (425, "SC_RequestLEDswitches");
    (426, "SC_GetLEDswitches"); (455, "SC_GetHubBay");
    (461, "SC_RequestHubBay"); (490, "SC_MessageQueueSize");
    (491, "SC_GetNextMessage"); (492, "SC_WaitForMessage");
    (499, "SC_RegisterMessageCallback"); (500, "SC_GetNextMessage");
    (501, "SC_WaitForMessage"); (511, "SC_RegisterMessageCallback");
    (512, "SC_MessageQueueSize"); (513, "SC_WaitForMessage");
    (523, "SC_RegisterMessageCallback"); (524, "SC_MessageQueueSize");
    (525, "SC_GetNextMessage"); (532, "SC_StopPolling");
    (533, "SC_PollingDuration"); (534, "SC_RequestStatusBits");
    (541, "SC_StartPolling"); (542, "SC_StopPolling");
    (548, "SC_StartPolling"); (549, "SC_PollingDuration");
    (558, "SC_EnableLastMsgTimer"); (559, "SC_HasLastMsgTimerOverrun");
    (568, "SC_TimeSinceLastMsgReceived"); (569, "SC_HasLastMsgTimerOverrun");
    (573, "SC_EnableLastMsgTimer"); (577, "SC_TimeSinceLastMsgReceived");
    (578, "SC_EnableLastMsgTimer"); (590, "SC_StartPolling");
    (593, "SC_GetStatusBits"); (594, "SC_RequestStatusBits");
    (595, "SC_StartPolling"); (600, "SC_StartPolling");
    (603, "SC_GetStatusBits"); (604, "SC_RequestStatus");
    (605, "SC_StartPolling"); (610, "SC_RequestStatusBits");
    (611, "SC_StartPolling"); (626, "SC_RequestStatusBits");
    (627, "SC_StartPolling"); (633, "SC_GetOperatingMode");
    (634, "SC_SetOperatingMode"); (646, "SC_RequestOperatingMode");
    (647, "SC_SetOperatingMode"); (660, "SC_RequestOperatingMode");
    (661, "SC_GetOperatingMode"); (676, "SC_GetOperatingState");
    (677, "SC_SetOperatingState"); (687, "SC_RequestOperatingState");
    (688, "SC_SetOperatingState"); (699, "SC_RequestOperatingState");
    (700, "SC_GetOperatingState"); (706, "SC_GetCycleParams");
    (707, "SC_SetCycleParams"); (708, "SC_GetCycleParamsBlock");
    (709, "SC_SetCycleParamsBlock"); (721, "SC_RequestCycleParams");
    (722, "SC_SetCycleParams"); (723, "SC_GetCycleParamsBlock");
    (724, "SC_SetCycleParamsBlock"); (736, "SC_RequestCycleParams");
    (737, "SC_GetCycleParams"); (738, "SC_GetCycleParamsBlock");
    (739, "SC_SetCycleParamsBlock"); (746, "SC_RequestCycleParams");
    (747, "SC_GetCycleParams"); (748, "SC_SetCycleParams");
    (749, "SC_SetCycleParamsBlock"); (756, "SC_RequestCycleParams");
    (757, "SC_GetCycleParams"); (758, "SC_SetCycleParams");
    (759, "SC_GetCycleParamsBlock"); (765, "SC_GetMMIParams");
    (766, "SC_GetMMIParamsExt"); (767, "SC_GetMMIParamsBlock");
    (776, "SC_SetMMIParamsExt"); (777, "SC_SetMMIParamsBlock");
    (778, "SC_RequestMMIParams"); (779, "SC_GetMMIParamsBlock");
    (783, "SC_GetMMIParamsExt"); (787, "SC_SetMMIParams");
    (788, "SC_SetMMIParamsBlock"); (789, "SC_RequestMMIParams");
    (790, "SC_GetMMIParamsBlock"); (799, "SC_RequestMMIParams");
    (800, "SC_GetMMIParamsExt"); (801, "SC_SetMMIParamsBlock");
    (802, "SC_GetMMIParamsBlock"); (806, "SC_SetMMIParamsExt");
    (810, "SC_RequestMMIParams"); (811, "SC_GetMMIParams");
    (812, "SC_SetMMIParamsBlock"); (813, "SC_GetMMIParamsBlock");
    (820, "SC_RequestMMIParams"); (821, "SC_GetMMIParamsExt");
    (822, "SC_SetMMIParamsExt"); (823, "SC_SetMMIParamsBlock");
    (830, "SC_RequestMMIParams"); (831, "SC_GetMMIParamsExt");
    (832, "SC_SetMMIParamsExt"); (833, "SC_GetMMIParamsBlock");
    (839, "SC_SetTriggerConfigParams"); (840, "SC_GeTriggerConfigParams");
    (841, "SC_SetTriggerConfigParamsBlock");
    (842, "SC_GetTriggerConfigParamsBlock"); (849, "SC_GetStatusBits");
    (850, "SC_SetDigitalOutputs"); (858, "SC_GetStatusBits");
    (859, "SC_SetDigitalOutputs"); (866, "SC_SetTriggerConfigParams");
    (867, "SC_SetTriggerConfigParamsBlock");
    (868, "SC_RequestTriggerConfigParams");
    (869, "SC_GetTriggerConfigParamsBlock"); (876, "SC_GetStatusBits");
    (877, "SC_SetDigitalOutputs"); (885, "SC_GetStatusBits");
    (886, "SC_SetDigitalOutputs"); (893, "SC_RequestTriggerConfigParams");
    (894, "SC_GeTriggerConfigParams");
    (895, "SC_SetTriggerConfigParamsBlock");
    (896, "SC_GetTriggerConfigParamsBlock");
    (903, "SC_RequestTriggerConfigParams"); (904, "SC_GeTriggerConfigParams");
    (905, "SC_SetTriggerConfigParams");
    (906, "SC_SetTriggerConfigParamsBlock");
    (913, "SC_RequestTriggerConfigParams"); (914, "SC_GeTriggerConfigParams");
    (915, "SC_SetTriggerConfigParams");
    (916, "SC_GetTriggerConfigParamsBlock"); (922, "SC_SetDigitalOutputs");
    (923, "SC_GetDigitalOutputs"); (929, "SC_SetDigitalOutputs");
    (930, "SC_RequestDigitalOutputs"); (937, "SC_GetDigitalOutputs");
    (938, "SC_RequestDigitalOutputs") ]%nat.

End SolenoidDocs.

(** ** Properties of the layout rule *)

Module LayoutFacts.
Import CDecl Layout.
Local Open Scope N_scope.

Lemma align_up_multiple (off a : N) :
  a <> 0 -> (a | off) -> align_up off a = off.
Proof.
  intros Ha [k ->]. unfold align_up.
  replace (k * a + a - 1) with (k * a + (a - 1)) by lia.
  rewrite N.div_add_l by assumption.
  rewrite (N.div_small (a - 1) a) by lia.
  lia.
Qed.

(** When every member's alignment divides [g] and every size is a
    multiple of [g], a layout that starts at a multiple of [g] has no
    padding. *)
Lemma offsets_from_unpadded (p : pack_value) (g : N) (ms : list member) :
  forall off,
    Forall (fun m => member_align p m <> 0 /\ (member_align p m | g)
                     /\ (g | m_size m)) ms ->
    (g | off) ->
    offsets_from p off ms = packed_from off ms.
Proof.
  induction ms as [|m r IH]; intros off HF Hoff; simpl.
  - reflexivity.
  - inversion HF as [|? ? (Hn & Hg & Hs) Hr]; subst.
    rewrite align_up_multiple.
    + f_equal. apply IH; [assumption|]. now apply N.divide_add_r.
    + assumption.
    + now apply N.divide_trans with g.
Qed.

Lemma end_from_unpadded (p : pack_value) (g : N) (ms : list member) :
  forall off,
    Forall (fun m => member_align p m <> 0 /\ (member_align p m | g)
                     /\ (g | m_size m)) ms ->
    (g | off) ->
    end_from p off ms = off + sum_sizes ms.
Proof.
  induction ms as [|m r IH]; intros off HF Hoff; simpl.
  - lia.
  - inversion HF as [|? ? (Hn & Hg & Hs) Hr]; subst.
    rewrite align_up_multiple.
    + rewrite IH; [lia | assumption | now apply N.divide_add_r].
    + assumption.
    + now apply N.divide_trans with g.
Qed.

Lemma sdk_sizeof_pos (n : string) (k : N) : sdk_sizeof n = Some k -> k <> 0.
Proof.
  unfold sdk_sizeof.
  repeat match goal with
         | |- context [String.eqb ?a ?b] => destruct (String.eqb a b)
         end; intros H; inversion H; lia.
Qed.

Lemma sizeof_integral_pos (t : ctype) (k : N) :
  sizeof_integral t = Some k -> k <> 0.
Proof.
  destruct t; simpl; intros H;
    try (inversion H; lia); try discriminate.
  now apply sdk_sizeof_pos with name.
Qed.

Lemma sizeof_pos (h : header) (t : ctype) (k : N) :
  sizeof h t = Some k -> k <> 0.
Proof.
  unfold sizeof. destruct (sizeof_integral t) as [k'|] eqn:E.
  - intros H; inversion H; subst. now apply sizeof_integral_pos with t.
  - destruct t; try discriminate.
    destruct (find_enum h name) as [e|]; [|discriminate].
    unfold sizeof_enum. destruct (e_underlying e) as [u|].
    + apply sizeof_integral_pos.
    + apply sizeof_integral_pos.
Qed.

Lemma resolve_align_pos (h : header) (fs : list field) :
  forall ms, resolve h fs = Some ms -> Forall (fun m => m_align m <> 0) ms.
Proof.
  induction fs as [|f r IH]; simpl; intros ms H.
  - inversion H. constructor.
  - destruct (resolve_field h f) as [m|] eqn:Em; [|discriminate].
    destruct (resolve h r) as [ms'|]; [|discriminate].
    inversion H; subst. constructor; [|now apply IH].
    unfold resolve_field, alignof in Em.
    destruct (sizeof h (fld_type f)) as [sz|] eqn:Es; [|discriminate].
    inversion Em; subst; simpl. now apply sizeof_pos with h (fld_type f).
Qed.

(** Under [#pragma pack(1)] no structure has padding, whatever its
    members are. *)
Lemma pack1_unpadded (h : header) (s : struct_decl) (ms : list member) :
  resolve h (s_fields s) = Some ms -> offsets Pack1 ms = packed_offsets ms.
Proof.
  intros H. apply offsets_from_unpadded with (g := 1).
  - apply resolve_align_pos in H.
    induction H as [|m r Hm _ IH]; constructor; [|assumption].
    assert (E : member_align Pack1 m = 1)
      by (unfold member_align; simpl; lia).
    rewrite E. repeat split; [lia | apply N.divide_refl | apply N.divide_1_l].
  - apply N.divide_0_r.
Qed.

(** Members of alignment 2 and even size leave no padding under any
    packing. *)
Lemma aligned2_unpadded (p : pack_value) (ms : list member) :
  Forall (fun m => m_align m = 2 /\ (2 | m_size m)) ms ->
  offsets p ms = packed_offsets ms.
Proof.
  intros H. apply offsets_from_unpadded with (g := 2).
  - induction H as [|m r (Ha & Hs) _ IH]; constructor; [|assumption].
    unfold member_align. rewrite Ha.
    destruct p; simpl; repeat split; try assumption; try discriminate;
      try apply N.divide_refl; try apply N.divide_1_l.
  - apply N.divide_0_r.
Qed.

End LayoutFacts.

(** ** From boolean checks to propositions *)

Module Reflection.
Import CDecl Layout Surface Interface Documentation.

Lemma mem_In (s : string) (l : list string) : mem s l = true <-> In s l.
Proof.
  unfold mem. rewrite existsb_exists. split.
  - intros (x & Hx & E). apply String.eqb_eq in E. now subst.
  - intros H. exists s. split; [assumption | apply String.eqb_refl].
Qed.

Lemma nodupb_NoDup (l : list string) : nodupb l = true -> NoDup l.
Proof.
  induction l as [|x r IH]; simpl; intros H.
  - constructor.
  - apply andb_true_iff in H. destruct H as [Hx Hr].
    constructor; [|now apply IH].
    intros Hin. apply mem_In in Hin. rewrite Hin in Hx. discriminate.
Qed.

Lemma forallb_Forall {A : Type} (P : A -> Prop) (f : A -> bool) (l : list A) :
  (forall x, f x = true -> P x) -> forallb f l = true -> Forall P l.
Proof.
  intros Hf H. apply Forall_forall. intros x Hx.
  apply Hf. rewrite forallb_forall in H. now apply H.
Qed.

Lemma ctype_eqb_eq (a b : ctype) : ctype_eqb a b = true -> a = b.
Proof.
  revert b. induction a; destruct b; simpl; intros H;
    try discriminate; try reflexivity;
    try (f_equal; now apply IHa).
  apply String.eqb_eq in H. now subst.
Qed.

Lemma param_eqb_eq (p q : ctype * string) : param_eqb p q = true -> p = q.
Proof.
  destruct p as [t n], q as [u m]. unfold param_eqb. simpl. intros H.
  apply andb_true_iff in H. destruct H as [Ht Hn].
  apply ctype_eqb_eq in Ht. apply String.eqb_eq in Hn. now subst.
Qed.

Lemma params_eqb_eq (l m : list (ctype * string)) :
  params_eqb l m = true -> l = m.
Proof.
  revert m. induction l as [|p l IH]; destruct m as [|q m]; simpl; intros H;
    try discriminate; try reflexivity.
  apply andb_true_iff in H. destruct H as [Hp Hl].
  apply param_eqb_eq in Hp. apply IH in Hl. now subst.
Qed.

Lemma points_to_pollingb_sound (cs : list comment) (prefix : string)
    (f : func_decl) :
  points_to_pollingb cs prefix f = true -> points_to_polling cs prefix f.
Proof.
  unfold points_to_pollingb, points_to_polling.
  destruct (comment_of cs (f_name f)) as [c|]; [|discriminate].
  destruct (polling_remark_of c) as [role|] eqn:Er; [|discriminate].
  intros H. apply andb_true_iff in H. destruct H as [H Hc].
  apply andb_true_iff in H. destruct H as [Hd Hp].
  exists c, role. repeat split.
  - exact Er.
  - now apply negb_true_iff in Hd.
  - now apply params_eqb_eq.
  - revert Hc. apply forallb_Forall. intros n Hn.
    now apply String.eqb_eq in Hn.
Qed.

End Reflection.

(** ** The declared interface *)

Import CDecl Layout Surface LayoutFacts.
Import Interface Documentation Reflection.

Lemma pack1_struct_unpadded (h : header) (s : struct_decl) (ms : list member) :
  resolve h (s_fields s) = Some ms -> unpadded h Pack1 s.
Proof.
  intros H. exists ms. split; [assumption|]. now apply pack1_unpadded with h s.
Qed.

Lemma aligned2_struct_unpadded (h : header) (p : pack_value)
    (s : struct_decl) (ms : list member) :
  resolve h (s_fields s) = Some ms ->
  Forall (fun m => m_align m = 2%N /\ (2 | m_size m)%N) ms ->
  unpadded h p s.
Proof.
  intros H HF. exists ms. split; [assumption|]. now apply aligned2_unpadded.
Qed.

Ltac even_members :=
  repeat (apply Forall_cons;
          [split; [reflexivity | apply N.Lcm0.mod_divide; reflexivity]|]);
  apply Forall_nil.

(** The packing directive matters for the two [TLI_] structures: under
    the compiler's usual default of 8 bytes [PID] and [firmwareVersion]
    would move to the next multiple of 4. *)
Lemma TLI_structs_need_pack1 :
  Forall (fun s => exists ms,
              resolve LaserSource.h (s_fields s) = Some ms
              /\ offsets Pack8 ms <> packed_offsets ms)
         [LaserSource.TLI_DeviceInfo; LaserSource.TLI_HardwareInformation].
Proof.
  repeat apply Forall_cons; try apply Forall_nil;
    eexists; (split; [vm_compute; reflexivity | vm_compute; discriminate]).
Qed.

(** No structure has padding behind its last member either. *)
Lemma struct_sizes_are_sums (dflt : pack_value) :
  Forall (fun ps => exists ms,
              resolve LaserSource.h (s_fields (snd ps)) = Some ms
              /\ struct_size (fst ps) ms = sum_sizes ms)
         (structs_packed dflt LaserSource.h)
  /\ Forall (fun ps => exists ms,
                 resolve Solenoid.h (s_fields (snd ps)) = Some ms
                 /\ struct_size (fst ps) ms = sum_sizes ms)
            (structs_packed dflt Solenoid.h).
Proof.
  split.
  - change (structs_packed dflt LaserSource.h)
      with [(Pack1, LaserSource.TLI_DeviceInfo);
            (Pack1, LaserSource.TLI_HardwareInformation);
            (dflt, LaserSource.KLS_MMIParams);
            (dflt, LaserSource.KLS_TrigIOParams)].
    repeat apply Forall_cons; try apply Forall_nil; cbn [fst snd].
    + eexists; (split; vm_compute; reflexivity).
    + eexists; (split; vm_compute; reflexivity).
    + destruct dflt; eexists; (split; vm_compute; reflexivity).
    + destruct dflt; eexists; (split; vm_compute; reflexivity).
  - change (structs_packed dflt Solenoid.h)
      with [(Pack1, Solenoid.TLI_DeviceInfo);
            (Pack1, Solenoid.TLI_HardwareInformation);
            (Pack1, Solenoid.SC_CycleParameters);
            (Pack1, Solenoid.KSC_MMIParams);
            (Pack1, Solenoid.KSC_TriggerConfig)].
    repeat apply Forall_cons; try apply Forall_nil; cbn [fst snd];
      eexists; (split; vm_compute; reflexivity).
Qed.

(** The parameters that have both a [Get] and a [Set] call. *)
Lemma getset_pairs_listed :
  getset_pairs LaserSource.h "LS_"
  = ["ControlSource"; "MMIParams"; "MMIParamsBlock"; "OPMode";
     "TrigIOParams"; "TrigIOParamsBlock"]
  /\ getset_pairs Solenoid.h "SC_"
     = ["LEDswitches"; "OperatingMode"; "OperatingState"; "CycleParams";
        "CycleParamsBlock"; "MMIParamsExt"; "MMIParams"; "MMIParamsBlock";
        "TriggerConfigParams"; "TriggerConfigParamsBlock"; "DigitalOutputs"].
Proof. split; vm_compute; reflexivity. Qed.

(** The [short] functions that do not document the error code convention:
    two return a number of their own, the third is [TLI_GetDeviceInfo]. *)
Lemma short_without_error_code :
  names (filter (fun f => returns_short f && negb (documents ErrorCodeOrZero f))
                (functions LaserSource.h))
  = ["TLI_GetDeviceListSize"; "TLI_GetDeviceInfo"; "LS_GetMMIParams"]
  /\ names (filter (fun f => returns_short f && negb (documents ErrorCodeOrZero f))
                   (functions Solenoid.h))
     = ["TLI_GetDeviceListSize"; "TLI_GetDeviceInfo"].
Proof. split; vm_compute; reflexivity. Qed.

(** C1: in both headers [FT_Status] gives 0 to success and the codes 1 to
    8, in this order, to invalid handle, device not found, device not
    opened, I/O error, insufficient resources, invalid parameter, device
    not present and incorrect device. *)
Theorem FT_Status_error_codes :
  Forall (fun h =>
            exists e, find_enum h "FT_Status" = Some e
                      /\ meanings e = error_taxonomy
                      /\ value_of e "FT_OK" = Some 0%Z
                      /\ nonzero_codes e = [1; 2; 3; 4; 5; 6; 7; 8]%Z)
         [LaserSource.h; Solenoid.h].
Proof.
  apply Forall_cons; [|apply Forall_cons; [|apply Forall_nil]].
  - exists LaserSource.FT_Status. repeat split.
  - exists Solenoid.FT_Status. repeat split.
Qed.

(** C2: every structure of both headers is laid out without padding (the
    offset of each field is the sum of the sizes of the fields before it),
    whatever the default packing is; this includes [KLS_MMIParams] and
    [KLS_TrigIOParams], which the laser-source header declares behind the
    [#pragma pack()] of line 126, under the default packing. *)
Theorem structs_packed_without_padding (dflt : pack_value) :
  Forall (fun ps => unpadded LaserSource.h (fst ps) (snd ps))
         (structs_packed dflt LaserSource.h)
  /\ Forall (fun ps => unpadded Solenoid.h (fst ps) (snd ps))
            (structs_packed dflt Solenoid.h)
  /\ map (fun ps => s_name (snd ps)) (structs_packed dflt LaserSource.h)
     = ["TLI_DeviceInfo"; "TLI_HardwareInformation"; "KLS_MMIParams";
        "KLS_TrigIOParams"]
  /\ map (fun ps => s_name (snd ps)) (structs_packed dflt Solenoid.h)
     = ["TLI_DeviceInfo"; "TLI_HardwareInformation"; "SC_CycleParameters";
        "KSC_MMIParams"; "KSC_TriggerConfig"]
  /\ In (126, PragmaPack None) (h_extern_c LaserSource.h)
  /\ line_of_struct LaserSource.h "KLS_MMIParams" = Some 137
  /\ line_of_struct LaserSource.h "KLS_TrigIOParams" = Some 175
  /\ packing_of dflt LaserSource.h "KLS_MMIParams" = Some dflt
  /\ packing_of dflt LaserSource.h "KLS_TrigIOParams" = Some dflt.
Proof.
  split; [|split; [|repeat split]].
  - change (structs_packed dflt LaserSource.h)
      with [(Pack1, LaserSource.TLI_DeviceInfo);
            (Pack1, LaserSource.TLI_HardwareInformation);
            (dflt, LaserSource.KLS_MMIParams);
            (dflt, LaserSource.KLS_TrigIOParams)].
    repeat apply Forall_cons; try apply Forall_nil; cbn [fst snd].
    + eapply pack1_struct_unpadded. vm_compute. reflexivity.
    + eapply pack1_struct_unpadded. vm_compute. reflexivity.
    + eapply aligned2_struct_unpadded; [vm_compute; reflexivity|even_members].
    + eapply aligned2_struct_unpadded; [vm_compute; reflexivity|even_members].
  - change (structs_packed dflt Solenoid.h)
      with [(Pack1, Solenoid.TLI_DeviceInfo);
            (Pack1, Solenoid.TLI_HardwareInformation);
            (Pack1, Solenoid.SC_CycleParameters);
            (Pack1, Solenoid.KSC_MMIParams);
            (Pack1, Solenoid.KSC_TriggerConfig)].
    repeat apply Forall_cons; try apply Forall_nil; cbn [fst snd];
      eapply pack1_struct_unpadded; vm_compute; reflexivity.
  - vm_compute. tauto.
Qed.

(** C3: every function of both headers is declared inside the
    [extern 'C'] block as a prototype that ends without a body; neither
    file contains a function body, and so no loop and no statement of any
    kind. *)
Theorem headers_declare_prototypes_only :
  Forall (fun h =>
            Forall (fun f => f_body f = None) (functions h)
            /\ functions_of (h_prelude h) = []
            /\ bodies h = []
            /\ loops h = 0)
         [LaserSource.h; Solenoid.h]
  /\ List.length (functions LaserSource.h) = 65
  /\ List.length (functions Solenoid.h) = 65.
Proof.
  split; [|split; reflexivity].
  repeat apply Forall_cons; try apply Forall_nil;
    (split; [|repeat split]);
    unfold functions, functions_of; cbn [flat_map h_extern_c snd app
      LaserSource.h Solenoid.h];
    repeat apply Forall_cons; try apply Forall_nil; reflexivity.
Qed.

(** C4: the declarations the two headers have in common are identical:
    the enumerations [FT_Status] and [MOT_MotorTypes] (names and values of
    the enumerators) and the structures [TLI_DeviceInfo] and
    [TLI_HardwareInformation] (names, types, array lengths and order of
    the fields) are the same in both files. *)
Theorem shared_declarations_identical :
  shared_type_names LaserSource.h Solenoid.h
  = ["FT_Status"; "MOT_MotorTypes"; "TLI_DeviceInfo";
     "TLI_HardwareInformation"]
  /\ Forall (fun n => exists e, find_enum LaserSource.h n = Some e
                                /\ find_enum Solenoid.h n = Some e)
            ["FT_Status"; "MOT_MotorTypes"]
  /\ Forall (fun n => exists s, find_struct LaserSource.h n = Some s
                                /\ find_struct Solenoid.h n = Some s)
            ["TLI_DeviceInfo"; "TLI_HardwareInformation"].
Proof.
  split; [reflexivity|]. split.
  - apply Forall_cons; [|apply Forall_cons; [|apply Forall_nil]].
    + exists LaserSource.FT_Status. split; reflexivity.
    + exists LaserSource.MOT_MotorTypes. split; reflexivity.
  - apply Forall_cons; [|apply Forall_cons; [|apply Forall_nil]].
    + exists LaserSource.TLI_DeviceInfo. split; reflexivity.
    + exists LaserSource.TLI_HardwareInformation. split; reflexivity.
Qed.

(** C5: every function declared in either header carries [__cdecl] and
    the header's import/export macro, [KLASERSOURCE_API] resp.
    [KCUBESOLENOID_API], which stands for [__declspec(dllexport)] when
    [KLASERSOURCEDLL_EXPORTS] resp. [KCUBESOLENOIDDLL_EXPORTS] is defined
    and for [__declspec(dllimport)] otherwise. *)
Theorem functions_exported_cdecl :
  exported_cdecl LaserSource.h "KLASERSOURCE_API" "KLASERSOURCEDLL_EXPORTS"
  /\ exported_cdecl Solenoid.h "KCUBESOLENOID_API" "KCUBESOLENOIDDLL_EXPORTS".
Proof.
  split; constructor.
  - unfold functions_of, items;
      cbn [flat_map h_prelude h_extern_c snd app LaserSource.h].
    repeat apply Forall_cons; try apply Forall_nil; split; reflexivity.
  - intros defined. reflexivity.
  - unfold functions_of, items;
      cbn [flat_map h_prelude h_extern_c snd app Solenoid.h].
    repeat apply Forall_cons; try apply Forall_nil; split; reflexivity.
  - intros defined. reflexivity.
Qed.

(** C6: each header declares all five groups of calls: the device-list
    family, [Open], [Close] and [CheckConnection], pairs of [Get] and
    [Set] calls for parameters, [StartPolling], [StopPolling] and
    [PollingDuration], and the five message-queue calls, with prefix
    [LS_] resp. [SC_]. *)
Theorem five_capability_groups :
  capability_groups LaserSource.h "LS_"
  /\ capability_groups Solenoid.h "SC_".
Proof.
  split; constructor; try reflexivity.
  - vm_compute. discriminate.
  - vm_compute. discriminate.
Qed.

(** C7: in each header the functions that anything ties to the message
    queue (name, parameter names, any element of the documentation
    comment, any cross reference) are [ClearMessageQueue],
    [RegisterMessageCallback], [MessageQueueSize], [GetNextMessage] and
    [WaitForMessage]; [RegisterMessageCallback] alone takes a callback.
    The functions described as polling calls are [StartPolling],
    [PollingDuration] and [StopPolling], and only [StartPolling] takes a
    value, the interval.  Every other function whose comment mentions
    polling does so in its remarks alone, to say that polling calls it or
    refreshes what it returns, takes the serial number alone and
    cross-references no polling call but [StartPolling]. *)
Theorem message_queue_and_polling_calls :
  queue_and_polling_calls LaserSource.h LaserSourceDocs.comments "LS_"
    ["RequestStatus"; "RequestReadings"; "RequestStatusBits";
     "GetPowerReading"; "GetCurrentReading"; "GetStatusBits"]
  /\ queue_and_polling_calls Solenoid.h SolenoidDocs.comments "SC_"
       ["RequestStatus"; "RequestStatusBits"; "GetStatusBits"].
Proof.
  split; constructor; try (vm_compute; reflexivity).
  - apply forallb_Forall
      with (f := fun n =>
                   match find_function LaserSource.h ("LS_" ++ n) with
                   | Some f => points_to_pollingb LaserSourceDocs.comments
                                 "LS_" f
                   | None => false
                   end).
    + intros n Hn.
      destruct (find_function LaserSource.h ("LS_" ++ n)) as [f|];
        [|discriminate].
      exists f. split; [reflexivity | now apply points_to_pollingb_sound].
    + vm_compute. reflexivity.
  - apply forallb_Forall
      with (f := fun n =>
                   match find_function Solenoid.h ("SC_" ++ n) with
                   | Some f => points_to_pollingb SolenoidDocs.comments
                                 "SC_" f
                   | None => false
                   end).
    + intros n Hn.
      destruct (find_function Solenoid.h ("SC_" ++ n)) as [f|];
        [|discriminate].
      exists f. split; [reflexivity | now apply points_to_pollingb_sound].
    + vm_compute. reflexivity.
Qed.

(** C8: in both headers [TLI_GetDeviceInfo] returns [short] and is
    documented to return 1 if successful and 0 if not, where the error
    code convention of the other status-returning [short] calls has 0
    (the value of [FT_OK]) for success; under that convention 1 is the
    error code [FT_InvalidHandle]. *)
Theorem TLI_GetDeviceInfo_inverts_convention :
  Forall inverted_status [LaserSource.h; Solenoid.h]
  /\ success_code OneIfSuccessful = Some 1%Z
  /\ failure_code OneIfSuccessful = Some 0%Z
  /\ success_code ErrorCodeOrZero = value_of LaserSource.FT_Status "FT_OK"
  /\ success_code OneIfSuccessful
     = value_of LaserSource.FT_Status "FT_InvalidHandle"
  /\ failure_code OneIfSuccessful = value_of LaserSource.FT_Status "FT_OK".
Proof.
  split; [|repeat split].
  apply Forall_cons; [|apply Forall_cons; [|apply Forall_nil]].
  - constructor.
    + exists LaserSource.TLI_GetDeviceInfo. repeat split.
    + reflexivity.
    + vm_compute. repeat apply Forall_cons; try apply Forall_nil; tauto.
    + reflexivity.
  - constructor.
    + exists Solenoid.TLI_GetDeviceInfo. repeat split.
    + reflexivity.
    + vm_compute. repeat apply Forall_cons; try apply Forall_nil; tauto.
    + reflexivity.
Qed.

(** C9: in both headers, under the [#pragma pack(1)] in effect where they
    are declared, [TLI_DeviceInfo] has 93 bytes, with [typeID] at offset
    0, [description] at 4, [serialNo] at 69, [PID] at 78, [isKnownType] at
    82, [motorType] at 83 (4 bytes long) and [maxChannels] at 91, and
    [TLI_HardwareInformation] has 84 bytes, with [serialNumber] at 0,
    [modelNumber] at 4, [type] at 12, [firmwareVersion] at 14, [notes] at
    18, [deviceDependantData] at 66, [hardwareVersion] at 78,
    [modificationState] at 80 and [numChannels] at 82. *)
Theorem TLI_struct_sizes_and_offsets (dflt : pack_value) :
  Forall (fun h =>
            packing_of dflt h "TLI_DeviceInfo" = Some Pack1
            /\ packing_of dflt h "TLI_HardwareInformation" = Some Pack1
            /\ sizeof h (TNamed "MOT_MotorTypes") = Some 4%N
            /\ (exists offs,
                   layout_of dflt h "TLI_DeviceInfo" = Some (offs, 93%N)
                   /\ map (offset_of offs)
                          ["typeID"; "description"; "serialNo"; "PID";
                           "isKnownType"; "motorType"; "isPiezoDevice";
                           "maxChannels"]
                      = map Some [0; 4; 69; 78; 82; 83; 87; 91]%N)
            /\ (exists offs,
                   layout_of dflt h "TLI_HardwareInformation"
                   = Some (offs, 84%N)
                   /\ map (offset_of offs)
                          ["serialNumber"; "modelNumber"; "type";
                           "firmwareVersion"; "notes"; "deviceDependantData";
                           "hardwareVersion"; "modificationState";
                           "numChannels"]
                      = map Some [0; 4; 12; 14; 18; 66; 78; 80; 82]%N))
         [LaserSource.h; Solenoid.h].
Proof.
  repeat apply Forall_cons; try apply Forall_nil;
    (split; [reflexivity|]); (split; [reflexivity|]);
    (split; [reflexivity|]); split;
    eexists; (split; [vm_compute; reflexivity | reflexivity]).
Qed.

(** C10: in each header the operations declared to return [void] are
    exactly [Close], [Identify], [StopPolling], [ClearMessageQueue],
    [RegisterMessageCallback] and [EnableLastMsgTimer] (prefix [LS_]
    resp. [SC_]); they document no returned value, and every other
    function returns a value. *)
Theorem void_returning_operations :
  void_operations LaserSource.h "LS_"
    ["Close"; "Identify"; "StopPolling"; "ClearMessageQueue";
     "RegisterMessageCallback"; "EnableLastMsgTimer"]
  /\ void_operations Solenoid.h "SC_"
       ["Close"; "Identify"; "StopPolling"; "ClearMessageQueue";
        "RegisterMessageCallback"; "EnableLastMsgTimer"].
Proof.
  split; constructor.
  - vm_compute. repeat apply Forall_cons; try apply Forall_nil; reflexivity.
  - vm_compute. reflexivity.
  - vm_compute. repeat apply Forall_cons; try apply Forall_nil; reflexivity.
  - vm_compute. repeat apply Forall_cons; try apply Forall_nil; discriminate.
  - vm_compute. repeat apply Forall_cons; try apply Forall_nil; reflexivity.
  - vm_compute. reflexivity.
  - vm_compute. repeat apply Forall_cons; try apply Forall_nil; reflexivity.
  - vm_compute. repeat apply Forall_cons; try apply Forall_nil; discriminate.
Qed.

(** ** Further properties of the declared interface *)

Import Interface.

Lemma same_signatureb_eq (f g : func_decl) :
  same_signatureb f g = true -> same_signature f g.
Proof.
  unfold same_signatureb, same_signature. intros H.
  apply andb_true_iff in H. destruct H as [Hr Hp].
  split; [now apply ctype_eqb_eq | now apply params_eqb_eq].
Qed.

(** [shape_of] computes a shape only when the getter mirrors the setter
    in that shape. *)
Lemma shape_of_sound (h : header) (g s : func_decl) (sh : accessor_shape) :
  shape_of h g s = Some sh -> mirrors h g s sh.
Proof.
  unfold shape_of.
  destruct (value_params g) as [|[gt gn] gr] eqn:Eg;
    destruct (value_params s) as [|[st sn] sr] eqn:Es; try discriminate.
  - destruct sr as [|? ?]; [|simpl; discriminate].
    destruct (ctype_eqb st (f_ret g)) eqn:E; [|discriminate].
    intros H; inversion H; subst. apply ctype_eqb_eq in E. subst.
    now apply mirrors_return with sn.
  - destruct gt; try discriminate. destruct gt; try discriminate.
    destruct gr; discriminate.
  - assert (P : forall sh',
               (if params_eqb ((gt, gn) :: gr)
                     (map (fun p => (TPtr (fst p), snd p)) ((st, sn) :: sr))
                then Some ByPointers else None) = Some sh' ->
               mirrors h g s sh').
    { intros sh' H.
      destruct (params_eqb _ _) eqn:E in H; [|discriminate].
      inversion H; subst. apply params_eqb_eq in E.
      apply mirrors_pointers; rewrite ?Eg, ?Es; [discriminate | exact E]. }
    destruct gt; try apply P. destruct gt; try apply P.
    destruct gr; try apply P.
    destruct st; try apply P. destruct st; try apply P.
    destruct sr; try apply P.
    destruct (find_struct h name) as [sd|] eqn:Ef; [|discriminate].
    destruct (String.eqb name name0 && String.eqb gn sn)%bool eqn:E;
      [|discriminate].
    intros H; inversion H; subst.
    apply andb_true_iff in E. destruct E as [E1 E2].
    apply String.eqb_eq in E1. apply String.eqb_eq in E2. subst.
    now apply mirrors_block with name0 sn sd.
Qed.

Lemma setter_ok_sound (h : header) (cs : list comment) (prefix x : string) :
  setter_ok h cs prefix x = true ->
  exists g s sh c,
    getter_for h prefix x = Some g
    /\ find_function h (prefix ++ "Set" ++ x) = Some s
    /\ mirrors h g s sh
    /\ f_ret s = TShort
    /\ f_returns s = Some ErrorCodeOrZero
    /\ comment_of cs (f_name g) = Some c
    /\ In (f_name s) (cref_names c).
Proof.
  unfold setter_ok.
  destruct (getter_for h prefix x) as [g|]; [|discriminate].
  destruct (find_function h (prefix ++ "Set" ++ x)) as [s|]; [|discriminate].
  destruct (shape_of h g s) as [sh|] eqn:E; [|discriminate].
  destruct (comment_of cs (f_name g)) as [c|] eqn:Ec; [|discriminate].
  intros H. apply andb_true_iff in H. destruct H as [H Hc].
  apply andb_true_iff in H. destruct H as [Hr Hd].
  exists g, s, sh, c.
  split; [reflexivity|]. split; [reflexivity|].
  split; [|split; [|split; [|split]]].
  - now apply shape_of_sound.
  - unfold returns_short in Hr. destruct (f_ret s); try discriminate.
    reflexivity.
  - unfold documents in Hd.
    destruct (f_returns s) as [[]|]; try discriminate. reflexivity.
  - exact Ec.
  - now apply mem_In.
Qed.

Lemma word_sized_sound (h : header) (f : func_decl) :
  word_sized h f = true ->
  (f_ret f = TVoid \/ small_scalar h (f_ret f) = true)
  /\ Forall (fun p => is_indirection (fst p) = true
                      \/ small_scalar h (fst p) = true) (f_params f).
Proof.
  unfold word_sized. intros H. apply andb_true_iff in H.
  destruct H as [Hr Hp]. split.
  - apply orb_true_iff in Hr. destruct Hr as [Hr|Hr]; [left|now right].
    unfold returns_void in Hr. destruct (f_ret f); try discriminate.
    reflexivity.
  - revert Hp. apply forallb_Forall. intros p Hp.
    now apply orb_true_iff in Hp.
Qed.

Lemma opt_values_eqb_eq (l m : list (option Z)) :
  opt_values_eqb l m = true -> l = m.
Proof.
  revert m. induction l as [|[x|] l IH]; destruct m as [|[y|] m]; simpl;
    intros H; try discriminate; try reflexivity.
  - apply andb_true_iff in H. destruct H as [Hx Hl].
    apply Z.eqb_eq in Hx. apply IH in Hl. now subst.
  - apply IH in H. now subst.
Qed.

Lemma table_ok_sound (h : header) (t : doc_table) :
  table_ok h t = true -> table_reading h t.
Proof.
  unfold table_ok.
  destruct (target_enum h (dt_target t)) as [e|] eqn:Ee.
  - intros H. apply lists_enumeration with e; [assumption|].
    now apply opt_values_eqb_eq.
  - destruct (target_type h (dt_target t)) as [ty|] eqn:Et.
    + destruct (integral_range ty) as [[lo hi]|] eqn:Er; [|discriminate].
      intros H. apply andb_true_iff in H. destruct H as [Hn Hv].
      apply lists_integers with ty lo hi; try assumption.
      revert Hv. apply forallb_Forall. intros r Hr v Hv.
      rewrite Hv in Hr. apply andb_true_iff in Hr. destruct Hr as [H1 H2].
      split; now apply Z.leb_le.
    + intros H. apply lists_text; [assumption|].
      now apply negb_true_iff in H.
Qed.

(** *** Names and scopes *)

(** X1: within each header the function names are pairwise distinct, and
    so are the names of the declared types and the names of all
    enumerators of all enumerations. *)
Theorem declared_names_unique :
  Forall (fun h => NoDup (names (functions h))
                   /\ NoDup (type_names h)
                   /\ NoDup (enumerator_names h))
         [LaserSource.h; Solenoid.h].
Proof.
  repeat apply Forall_cons; try apply Forall_nil;
    repeat split; apply nodupb_NoDup; vm_compute; reflexivity.
Qed.

(** X2: every type name a declaration of either header refers to is in
    scope where it is used: it is one of the SDK names and the
    [#include <OaIdl.h>] stands on an earlier line, or an enum or struct
    declaration of the same header on an earlier line declares it. *)
Theorem types_declared_before_use
    (h : header) (line : nat) (i : item) (n : string) :
  In h [LaserSource.h; Solenoid.h] ->
  In (line, i) (items h) ->
  In n (mentioned_types i) ->
  (In n sdk_names
   /\ exists l, l < line /\ In (l, Include "OaIdl.h") (items h))
  \/ (exists l d, l < line /\ In (l, d) (items h)
                  /\ declared_name d = Some n).
Proof.
  intros Hh Hi Hn.
  assert (W : well_scoped h = true)
    by (destruct Hh as [<-|[<-|[]]]; vm_compute; reflexivity).
  unfold well_scoped in W. rewrite forallb_forall in W.
  specialize (W _ Hi). cbn [fst snd] in W.
  rewrite forallb_forall in W. specialize (W _ Hn).
  unfold in_scope in W. apply orb_true_iff in W. destruct W as [W|W].
  - left. apply andb_true_iff in W. destruct W as [Hs Hinc].
    split; [now apply mem_In|].
    apply existsb_exists in Hinc. destruct Hinc as ([l d] & Hin & Hc).
    cbn [fst snd] in Hc. apply andb_true_iff in Hc. destruct Hc as [Hl Hd].
    destruct d; try discriminate. apply String.eqb_eq in Hd. subst.
    exists l. split; [now apply Nat.ltb_lt | assumption].
  - right. apply existsb_exists in W. destruct W as ([l d] & Hin & Hc).
    cbn [fst snd] in Hc. apply andb_true_iff in Hc. destruct Hc as [Hl Hd].
    exists l, d. split; [now apply Nat.ltb_lt|]. split; [assumption|].
    destruct (declared_name d) as [m|]; [|discriminate].
    apply String.eqb_eq in Hd. now subst.
Qed.

Lemma types_declared_before_use_witness :
  (In "MOT_MotorTypes" sdk_names
   /\ exists l, l < 65 /\ In (l, Include "OaIdl.h") (items LaserSource.h))
  \/ (exists l d, l < 65 /\ In (l, d) (items LaserSource.h)
                  /\ declared_name d = Some "MOT_MotorTypes").
Proof.
  apply (types_declared_before_use LaserSource.h 65
           (Struct LaserSource.TLI_DeviceInfo) "MOT_MotorTypes").
  - left. reflexivity.
  - apply (nth_error_In _ 6). reflexivity.
  - apply (nth_error_In _ 2). reflexivity.
Defined.

(** X3: in every enumeration of either header an enumerator is found
    again from its value and its value from its name (no two enumerators
    of one enumeration share a value or a name), and the value lies in the
    range of the underlying type. *)
Theorem enumerators_decode (h : header) (e : enum_decl) (x : enumerator) :
  In h [LaserSource.h; Solenoid.h] ->
  In e (enums h) ->
  In x (e_enumerators e) ->
  name_of e (en_value x) = Some (en_name x)
  /\ value_of e (en_name x) = Some (en_value x)
  /\ exists lo hi, enum_range e = Some (lo, hi)
                   /\ (lo <= en_value x <= hi)%Z.
Proof.
  intros Hh He Hx.
  assert (W : forallb (fun e => forallb (fun x => decodes e x
                                   && in_enum_range e (en_value x))
                                 (e_enumerators e)) (enums h) = true)
    by (destruct Hh as [<-|[<-|[]]]; vm_compute; reflexivity).
  rewrite forallb_forall in W. specialize (W _ He).
  rewrite forallb_forall in W. specialize (W _ Hx).
  apply andb_true_iff in W. destruct W as [Hd Hr].
  unfold decodes in Hd.
  destruct (name_of e (en_value x)) as [n|]; [|discriminate].
  destruct (value_of e (en_name x)) as [v|]; [|discriminate].
  apply andb_true_iff in Hd. destruct Hd as [Hn Hv].
  apply String.eqb_eq in Hn. apply Z.eqb_eq in Hv. subst.
  repeat split.
  unfold in_enum_range in Hr.
  destruct (enum_range e) as [[lo hi]|]; [|discriminate].
  apply andb_true_iff in Hr. destruct Hr as [Hlo Hhi].
  exists lo, hi. split; [reflexivity|].
  split; now apply Z.leb_le.
Qed.

Lemma enumerators_decode_witness :
  name_of LaserSource.KLS_TriggerMode 10 = Some "KLS_Output"
  /\ value_of LaserSource.KLS_TriggerMode "KLS_Output" = Some 10%Z
  /\ exists lo hi, enum_range LaserSource.KLS_TriggerMode = Some (lo, hi)
                   /\ (lo <= 10 <= hi)%Z.
Proof.
  apply (enumerators_decode LaserSource.h LaserSource.KLS_TriggerMode
           {| en_name := "KLS_Output"; en_value := 10;
              en_doc := "General IO Output" |}).
  - left. reflexivity.
  - apply (nth_error_In _ 4). reflexivity.
  - apply (nth_error_In _ 4). reflexivity.
Defined.

(** X4: every declared type except [FT_Status] is used by a structure
    field or a function signature; no declaration refers to [FT_Status],
    and the functions documented to return the error code return
    [short], the underlying type of [FT_Status]. *)
Theorem error_codes_returned_as_short :
  Forall (fun h =>
            unused_types h = ["FT_Status"]
            /\ exists e, find_enum h "FT_Status" = Some e
                         /\ Forall (fun f => Some (f_ret f) = e_underlying e)
                                   (filter (documents ErrorCodeOrZero)
                                           (functions h)))
         [LaserSource.h; Solenoid.h].
Proof.
  repeat apply Forall_cons; try apply Forall_nil;
    (split; [vm_compute; reflexivity|]).
  - exists LaserSource.FT_Status. split; [reflexivity|].
    apply forallb_Forall
      with (f := fun f => ctype_eqb (f_ret f) TShort).
    + intros f Hf. apply ctype_eqb_eq in Hf. now rewrite Hf.
    + vm_compute. reflexivity.
  - exists Solenoid.FT_Status. split; [reflexivity|].
    apply forallb_Forall
      with (f := fun f => ctype_eqb (f_ret f) TShort).
    + intros f Hf. apply ctype_eqb_eq in Hf. now rewrite Hf.
    + vm_compute. reflexivity.
Qed.

(** *** Signatures *)

(** X5: in each header every function with the device prefix, and
    [TLI_GetDeviceInfo], takes [char const * serialNo] as its first
    parameter; the functions that do not are exactly the eight of the
    device-list family. *)
Theorem device_calls_take_serial_number :
  addressed_by_serial LaserSource.h "LS_"
  /\ addressed_by_serial Solenoid.h "SC_".
Proof.
  split; (split; [|vm_compute; reflexivity]).
  - apply forallb_Forall with (f := takes_serial).
    + intros f Hf. unfold takes_serial in Hf.
      destruct (f_params f) as [|p r]; [discriminate|].
      apply param_eqb_eq in Hf. now subst.
    + vm_compute. reflexivity.
  - apply forallb_Forall with (f := takes_serial).
    + intros f Hf. unfold takes_serial in Hf.
      destruct (f_params f) as [|p r]; [discriminate|].
      apply param_eqb_eq in Hf. now subst.
    + vm_compute. reflexivity.
Qed.

(** The comments are those of the declared functions, in the order of
    the file; their summaries are the ones the declarations carry, and
    their cross references are those of [cross_references] from the
    first function comment on. *)
Lemma comments_match_declarations :
  map c_function LaserSourceDocs.comments = names (functions LaserSource.h)
  /\ map c_function SolenoidDocs.comments = names (functions Solenoid.h)
  /\ map (fun c => frag_text (summary_of c)) LaserSourceDocs.comments
     = map (fun f => frag_text (f_summary f)) (functions LaserSource.h)
  /\ map (fun c => frag_text (summary_of c)) SolenoidDocs.comments
     = map (fun f => frag_text (f_summary f)) (functions Solenoid.h)
  /\ flat_map cref_names LaserSourceDocs.comments
     = map snd (filter (fun r => Nat.leb 219 (fst r))
                       LaserSourceDocs.cross_references)
  /\ flat_map cref_names SolenoidDocs.comments
     = map snd (filter (fun r => Nat.leb 255 (fst r))
                       SolenoidDocs.cross_references).
Proof.
  split; [vm_compute; reflexivity|].
  split; [vm_compute; reflexivity|].
  split; [vm_compute; reflexivity|].
  split; [vm_compute; reflexivity|].
  split; vm_compute; reflexivity.
Qed.

(** X6: every [Set] call of either header (seven in the laser-source
    header, eleven in the solenoid header) has a getter, [Get X] for
    [Set X] and [LS_GetPowerSet] for [LS_SetPower], that mirrors it: the
    getter returns the type of the setter's one value parameter, or takes
    pointers to the types of the setter's value parameters under the same
    names and in the same order, or takes the same pointer to a structure
    of the header.  The comment of the getter cross-references the
    setter, and the setter returns the error code. *)
Theorem getters_mirror_setters :
  setters_mirrored LaserSource.h LaserSourceDocs.comments "LS_"
  /\ setters_mirrored Solenoid.h SolenoidDocs.comments "SC_"
  /\ setter_shapes LaserSource.h "LS_"
     = [("LS_SetControlSource", Some "LS_GetControlSource", Some ByReturn);
        ("LS_SetMMIParams", Some "LS_GetMMIParams", Some ByReturn);
        ("LS_SetMMIParamsBlock", Some "LS_GetMMIParamsBlock", Some ByBlock);
        ("LS_SetOPMode", Some "LS_GetOPMode", Some ByPointers);
        ("LS_SetTrigIOParams", Some "LS_GetTrigIOParams", Some ByPointers);
        ("LS_SetTrigIOParamsBlock", Some "LS_GetTrigIOParamsBlock",
         Some ByBlock);
        ("LS_SetPower", Some "LS_GetPowerSet", Some ByReturn)]
  /\ setter_shapes Solenoid.h "SC_"
     = [("SC_SetLEDswitches", Some "SC_GetLEDswitches", Some ByReturn);
        ("SC_SetOperatingMode", Some "SC_GetOperatingMode", Some ByReturn);
        ("SC_SetOperatingState", Some "SC_GetOperatingState", Some ByReturn);
        ("SC_SetCycleParams", Some "SC_GetCycleParams", Some ByPointers);
        ("SC_SetCycleParamsBlock", Some "SC_GetCycleParamsBlock",
         Some ByBlock);
        ("SC_SetMMIParamsExt", Some "SC_GetMMIParamsExt", Some ByPointers);
        ("SC_SetMMIParams", Some "SC_GetMMIParams", Some ByPointers);
        ("SC_SetMMIParamsBlock", Some "SC_GetMMIParamsBlock", Some ByBlock);
        ("SC_SetTriggerConfigParams", Some "SC_GetTriggerConfigParams",
         Some ByPointers);
        ("SC_SetTriggerConfigParamsBlock",
         Some "SC_GetTriggerConfigParamsBlock", Some ByBlock);
        ("SC_SetDigitalOutputs", Some "SC_GetDigitalOutputs", Some ByReturn)]
  /\ map (String.append "LS_Set") (setters LaserSource.h "LS_")
     = names (filter (has_prefix "LS_Set") (functions LaserSource.h))
  /\ map (String.append "SC_Set") (setters Solenoid.h "SC_")
     = names (filter (has_prefix "SC_Set") (functions Solenoid.h)).
Proof.
  split; [|split; [|repeat split; vm_compute; reflexivity]].
  - apply forallb_Forall
      with (f := setter_ok LaserSource.h LaserSourceDocs.comments "LS_").
    + apply setter_ok_sound.
    + vm_compute. reflexivity.
  - apply forallb_Forall
      with (f := setter_ok Solenoid.h SolenoidDocs.comments "SC_").
    + apply setter_ok_sound.
    + vm_compute. reflexivity.
Qed.

(** X7: every [Request] call of either header (eleven in each) takes the
    serial number as its only parameter, returns [short] and documents
    the error code convention. *)
Theorem request_calls_uniform :
  requests_uniform LaserSource.h "LS_"
  /\ requests_uniform Solenoid.h "SC_"
  /\ List.length (filter (has_prefix "LS_Request") (functions LaserSource.h))
     = 11
  /\ List.length (filter (has_prefix "SC_Request") (functions Solenoid.h))
     = 11.
Proof.
  split; [|split; [|split; vm_compute; reflexivity]].
  - unfold requests_uniform.
    apply forallb_Forall
      with (f := fun f => returns_short f
                          && params_eqb (f_params f) [serial_param]
                          && documents ErrorCodeOrZero f).
    + intros f Hf. apply andb_true_iff in Hf. destruct Hf as [Hf Hd].
      apply andb_true_iff in Hf. destruct Hf as [Hr Hp].
      apply params_eqb_eq in Hp. unfold returns_short in Hr.
      unfold documents in Hd.
      destruct (f_ret f); try discriminate.
      destruct (f_returns f) as [[]|]; try discriminate. now repeat split.
    + vm_compute. reflexivity.
  - unfold requests_uniform.
    apply forallb_Forall
      with (f := fun f => returns_short f
                          && params_eqb (f_params f) [serial_param]
                          && documents ErrorCodeOrZero f).
    + intros f Hf. apply andb_true_iff in Hf. destruct Hf as [Hf Hd].
      apply andb_true_iff in Hf. destruct Hf as [Hr Hp].
      apply params_eqb_eq in Hp. unfold returns_short in Hr.
      unfold documents in Hd.
      destruct (f_ret f); try discriminate.
      destruct (f_returns f) as [[]|]; try discriminate. now repeat split.
    + vm_compute. reflexivity.
Qed.

(** X8: no function of either header passes or returns by value anything
    larger than 4 bytes: a return type is [void] or an integral or
    enumeration type of at most 4 bytes, and a parameter is a pointer, a
    reference, a function pointer or such a type.  No structure and no
    64-bit integer is passed or returned by value. *)
Theorem values_passed_in_words :
  by_value_small LaserSource.h /\ by_value_small Solenoid.h.
Proof.
  split.
  - apply forallb_Forall with (f := word_sized LaserSource.h).
    + apply word_sized_sound.
    + vm_compute. reflexivity.
  - apply forallb_Forall with (f := word_sized Solenoid.h).
    + apply word_sized_sound.
    + vm_compute. reflexivity.
Qed.

(** X9: [const] occurs in the type of no parameter but [serialNo]: every
    other pointer parameter points to data the library may write.  C++
    references are taken by [LS_GetLimits] and by the two
    [TimeSinceLastMsgReceived] calls only. *)
Theorem parameter_qualifiers :
  Forall (fun h =>
            Forall (fun p => p = serial_param)
                   (filter (fun p => has_const (fst p))
                           (flat_map f_params (functions h))))
         [LaserSource.h; Solenoid.h]
  /\ names (filter takes_reference (functions LaserSource.h))
     = ["LS_GetLimits"; "LS_TimeSinceLastMsgReceived"]
  /\ names (filter takes_reference (functions Solenoid.h))
     = ["SC_TimeSinceLastMsgReceived"].
Proof.
  split; [|split; vm_compute; reflexivity].
  apply Forall_cons; [|apply Forall_cons; [|apply Forall_nil]];
    (apply forallb_Forall with (f := fun p => param_eqb p serial_param);
     [intros p Hp; now apply param_eqb_eq | vm_compute; reflexivity]).
Qed.

(** *** The two libraries side by side *)

(** X10: of the 29 calls the two libraries have in common after their
    prefix, all but the four [MMIParams] accessors have the same return
    type and the same parameters in both headers; those four differ.
    The nine [TLI_] functions agree in return type, parameters, summary
    and documented return value. *)
Theorem common_calls_share_signatures :
  Forall (fun x =>
            In x ["GetMMIParams"; "SetMMIParams"; "GetMMIParamsBlock";
                  "SetMMIParamsBlock"]
            \/ exists f g,
                 find_function LaserSource.h ("LS_" ++ x) = Some f
                 /\ find_function Solenoid.h ("SC_" ++ x) = Some g
                 /\ same_signature f g)
         (common_suffixes LaserSource.h "LS_" Solenoid.h "SC_")
  /\ Forall (fun x =>
               exists f g,
                 find_function LaserSource.h ("LS_" ++ x) = Some f
                 /\ find_function Solenoid.h ("SC_" ++ x) = Some g
                 /\ ~ same_signature f g)
            ["GetMMIParams"; "SetMMIParams"; "GetMMIParamsBlock";
             "SetMMIParamsBlock"]
  /\ List.length (common_suffixes LaserSource.h "LS_" Solenoid.h "SC_") = 29
  /\ suffixes LaserSource.h "TLI_" = suffixes Solenoid.h "TLI_"
  /\ Forall (fun x =>
               exists f g,
                 find_function LaserSource.h ("TLI_" ++ x) = Some f
                 /\ find_function Solenoid.h ("TLI_" ++ x) = Some g
                 /\ same_signature f g
                 /\ f_summary f = f_summary g
                 /\ f_returns f = f_returns g)
            (suffixes LaserSource.h "TLI_").
Proof.
  split; [|split; [|split; [|split]]].
  - apply forallb_Forall
      with (f := fun x =>
                   mem x ["GetMMIParams"; "SetMMIParams"; "GetMMIParamsBlock";
                          "SetMMIParamsBlock"]
                   || match find_function LaserSource.h ("LS_" ++ x),
                            find_function Solenoid.h ("SC_" ++ x) with
                      | Some f, Some g => same_signatureb f g
                      | _, _ => false
                      end).
    + intros x Hx. apply orb_true_iff in Hx. destruct Hx as [Hx|Hx].
      * left. now apply mem_In.
      * right.
        destruct (find_function LaserSource.h ("LS_" ++ x)) as [f|];
          [|discriminate].
        destruct (find_function Solenoid.h ("SC_" ++ x)) as [g|];
          [|discriminate].
        exists f, g. repeat split; now apply same_signatureb_eq.
    + vm_compute. reflexivity.
  - repeat apply Forall_cons; try apply Forall_nil;
      eexists; eexists;
      (split; [reflexivity|]); (split; [reflexivity|]);
      intros [Hr Hp]; discriminate Hp.
  - vm_compute. reflexivity.
  - vm_compute. reflexivity.
  - change (suffixes LaserSource.h "TLI_")
      with ["BuildDeviceList"; "GetDeviceListSize"; "GetDeviceList";
            "GetDeviceListByType"; "GetDeviceListByTypes"; "GetDeviceListExt";
            "GetDeviceListByTypeExt"; "GetDeviceListByTypesExt";
            "GetDeviceInfo"].
    repeat apply Forall_cons; try apply Forall_nil;
      eexists; eexists;
      (split; [reflexivity|]); (split; [reflexivity|]);
      repeat split.
Qed.

(** *** Documentation against declarations *)

(** X11: every table of the documentation comments (19 in the
    laser-source header, 20 in the solenoid header) is consistent with
    the declarations.  A table whose target (a field, a parameter or a
    returned value) is typed by an enumeration, directly or through a
    pointer, lists exactly the values of that enumeration, row by row in
    the order of its enumerators.  The tables without such a target are
    those of [LS_GetInterlockState] (a [BYTE]) and of [LS_GetStatusBits]
    and [SC_GetStatusBits] (a [DWORD]), whose numbers lie in the range of
    that type, the status bits being masks of one bit each in increasing
    order, and the table in the comment of the enumerator [SC_Active],
    which has no numbers.  The table of [TLI_DeviceInfo.motorType] also
    names the enumerators of [MOT_MotorTypes]. *)
Theorem value_tables_list_enum_values :
  Forall (table_reading LaserSource.h) LaserSourceDocs.tables
  /\ Forall (table_reading Solenoid.h) SolenoidDocs.tables
  /\ List.length LaserSourceDocs.tables = 19
  /\ List.length SolenoidDocs.tables = 20
  /\ untyped_tables LaserSource.h LaserSourceDocs.tables
     = [(716, OfReturn "LS_GetInterlockState");
        (844, OfReturn "LS_GetStatusBits")]
  /\ untyped_tables Solenoid.h SolenoidDocs.tables
     = [(159, OfEnumerator "SC_OperatingStates" "SC_Active");
        (613, OfReturn "SC_GetStatusBits")]
  /\ map (target_type LaserSource.h)
         [OfReturn "LS_GetInterlockState"; OfReturn "LS_GetStatusBits"]
     = [Some (TNamed "BYTE"); Some (TNamed "DWORD")]
  /\ target_type Solenoid.h (OfReturn "SC_GetStatusBits")
     = Some (TNamed "DWORD")
  /\ Forall (fun ot => exists t,
                 ot = Some t
                 /\ forallb single_bit (table_numbers t) = true
                 /\ increasing (table_numbers t) = true)
            [table_at LaserSourceDocs.tables 844;
             table_at SolenoidDocs.tables 613]
  /\ Forall (fun te => exists t,
                 hd_error (fst te) = Some t
                 /\ dt_target t = OfField "TLI_DeviceInfo" "motorType"
                 /\ map (fun r => (r_first r, row_value r)) (dt_rows t)
                    = map (fun x => (en_name x, Some (en_value x)))
                          (e_enumerators (snd te)))
            [(LaserSourceDocs.tables, LaserSource.MOT_MotorTypes);
             (SolenoidDocs.tables, Solenoid.MOT_MotorTypes)].
Proof.
  split; [|split; [|repeat split; try (vm_compute; reflexivity)]].
  - apply forallb_Forall with (f := table_ok LaserSource.h).
    + apply table_ok_sound.
    + vm_compute. reflexivity.
  - apply forallb_Forall with (f := table_ok Solenoid.h).
    + apply table_ok_sound.
    + vm_compute. reflexivity.
  - apply Forall_cons; [|apply Forall_cons; [|apply Forall_nil]];
      eexists; (split; [vm_compute; reflexivity|]);
      split; vm_compute; reflexivity.
  - apply Forall_cons; [|apply Forall_cons; [|apply Forall_nil]];
      eexists; (split; [vm_compute; reflexivity|]);
      split; vm_compute; reflexivity.
Qed.

(** *** Layout *)

Lemma layout_of_default (h : header) (d : pack_value) (n : string) :
  In h [LaserSource.h; Solenoid.h] ->
  layout_of d h n = layout_of Pack1 h n.
Proof.
  intros [<-|[<-|[]]]; unfold layout_of.
  - change (structs_packed d LaserSource.h)
      with [(Pack1, LaserSource.TLI_DeviceInfo);
            (Pack1, LaserSource.TLI_HardwareInformation);
            (d, LaserSource.KLS_MMIParams);
            (d, LaserSource.KLS_TrigIOParams)].
    change (structs_packed Pack1 LaserSource.h)
      with [(Pack1, LaserSource.TLI_DeviceInfo);
            (Pack1, LaserSource.TLI_HardwareInformation);
            (Pack1, LaserSource.KLS_MMIParams);
            (Pack1, LaserSource.KLS_TrigIOParams)].
    cbn [find snd].
    repeat match goal with
           | |- context [String.eqb ?a n] => destruct (String.eqb a n)
           end;
      try reflexivity; destruct d; vm_compute; reflexivity.
  - change (structs_packed d Solenoid.h)
      with (structs_packed Pack1 Solenoid.h). reflexivity.
Qed.

(** X12: the layout of every structure of either header is the same
    under every default packing of the compiler: what [layout_of] gives
    for a name does not depend on the packing [#pragma pack()] returns
    to. *)
Theorem struct_layout_ignores_default_packing
    (h : header) (d1 d2 : pack_value) (n : string) :
  In h [LaserSource.h; Solenoid.h] ->
  layout_of d1 h n = layout_of d2 h n.
Proof.
  intros Hh. rewrite (layout_of_default h d1 n Hh).
  symmetry. now apply layout_of_default.
Qed.

Lemma struct_layout_ignores_default_packing_witness :
  layout_of Pack2 LaserSource.h "KLS_TrigIOParams"
  = layout_of Pack16 LaserSource.h "KLS_TrigIOParams".
Proof.
  apply (struct_layout_ignores_default_packing
           LaserSource.h Pack2 Pack16 "KLS_TrigIOParams").
  left. reflexivity.
Defined.

(** X13: offsets and sizes of the device-specific structures, under any
    default packing: [KLS_MMIParams] has 8 bytes, [KLS_TrigIOParams] 12,
    [SC_CycleParameters] 12, [KSC_MMIParams] 34 and [KSC_TriggerConfig]
    20. *)
Theorem device_struct_layouts (dflt : pack_value) :
  layout_of dflt LaserSource.h "KLS_MMIParams"
  = Some ([("displayIntensity", 0); ("reserved", 2)], 8)%N
  /\ layout_of dflt LaserSource.h "KLS_TrigIOParams"
     = Some ([("mode1", 0); ("polarity1", 2); ("power1", 4); ("mode2", 6);
              ("polarity2", 8); ("power2", 10)], 12)%N
  /\ layout_of dflt Solenoid.h "SC_CycleParameters"
     = Some ([("openTime", 0); ("closedTime", 4); ("numCycles", 8)], 12)%N
  /\ layout_of dflt Solenoid.h "KSC_MMIParams"
     = Some ([("unused", 0); ("DisplayIntensity", 20); ("DisplayTimeout", 22);
              ("DisplayDimIntensity", 24); ("reserved", 26)], 34)%N
  /\ layout_of dflt Solenoid.h "KSC_TriggerConfig"
     = Some ([("Trigger1Mode", 0); ("Trigger1Polarity", 2);
              ("Trigger2Mode", 4); ("Trigger2Polarity", 6);
              ("reserved", 8)], 20)%N.
Proof.
  repeat split;
    (rewrite layout_of_default by (simpl; tauto)); vm_compute; reflexivity.
Qed.

(** *** The preprocessor *)

(** X14: the headers define no macro but their API macro: any other
    name expands to nothing in either header, whatever symbols are
    defined. *)
Theorem only_api_macro_defined (defined : string -> bool) (m : string) :
  m <> "KLASERSOURCE_API" ->
  m <> "KCUBESOLENOID_API" ->
  expand LaserSource.h defined m = None
  /\ expand Solenoid.h defined m = None.
Proof.
  intros HL HS.
  apply String.eqb_neq in HL. apply String.eqb_neq in HS.
  rewrite String.eqb_sym in HL. rewrite String.eqb_sym in HS.
  split; unfold expand, items.
  - cbn [h_prelude h_extern_c LaserSource.h app expand_in].
    rewrite HL. reflexivity.
  - cbn [h_prelude h_extern_c Solenoid.h app expand_in].
    rewrite HS. reflexivity.
Qed.

Lemma only_api_macro_defined_witness :
  expand LaserSource.h (fun _ => true) "THORLABSDEVICE_API" = None
  /\ expand Solenoid.h (fun _ => true) "THORLABSDEVICE_API" = None.
Proof.
  apply (only_api_macro_defined (fun _ => true) "THORLABSDEVICE_API");
    discriminate.
Defined.

(** X15: every cross reference in the documentation comments of the
    laser-source header names a function or a type the header declares.
    In the solenoid header all do but four, which misspell
    [SC_GetTriggerConfigParams] (a declared function) as
    [SC_GeTriggerConfigParams]. *)
Theorem cross_references_resolve :
  Forall (fun r => resolves LaserSource.h (snd r) = true)
         LaserSourceDocs.cross_references
  /\ dangling Solenoid.h SolenoidDocs.cross_references
     = [(840, "SC_GeTriggerConfigParams"); (894, "SC_GeTriggerConfigParams");
        (904, "SC_GeTriggerConfigParams"); (914, "SC_GeTriggerConfigParams")]
  /\ resolves Solenoid.h "SC_GetTriggerConfigParams" = true
  /\ List.length LaserSourceDocs.cross_references = 205
  /\ List.length SolenoidDocs.cross_references = 227.
Proof.
  split; [|repeat split; vm_compute; reflexivity].
  apply forallb_Forall with (f := fun r => resolves LaserSource.h (snd r)).
  - intros r Hr. exact Hr.
  - vm_compute. reflexivity.
Qed.
